(** * QAintell: a shallow embedding of the question-answering scheduler

    The development follows the Python sources module by module:
    [data/data_structures.py], [core/classifier.py], [core/pipeline.py],
    [utils/cache_manager.py], [core/scheduler.py],
    [tools/tool_orchestrator.py], [tools/calculator_tool.py],
    [core/quality_controller.py], [core/router.py],
    [tools/tool_registry.py] and [utils/metrics.py]. *)

From Stdlib Require Import ZArith QArith Qabs Floats Ascii String Lia Lqa.
From stdpp Require Import base option list gmap strings.

Set Warnings "-inexact-float,-register-all".

(** ** Python numbers

    The sources compute with Python [float]s, that is IEEE binary64.  The
    numeric code is written once over the operations of a [PyNum]
    structure.  Its [float] instance is binary64 itself (the kernel's
    primitive floats), used wherever a theorem speaks about a concrete
    result; its [Q] instance is exact arithmetic, used for bounds. *)

Class PyNum (F : Type) := {
  lit : Q -> F;             (* a decimal literal of the source text *)
  of_int : Z -> F;          (* the conversion int -> float *)
  fadd : F -> F -> F;
  fsub : F -> F -> F;
  fmul : F -> F -> F;
  fdiv : F -> F -> F;
  fltb : F -> F -> bool;    (* [a < b] *)
  fleb : F -> F -> bool     (* [a <= b] *)
}.

(** [int -> float]; exact below [2^53], correctly rounded below [2^63]. *)
Definition float_of_Z (z : Z) : float :=
  match z with
  | Z0 => PrimFloat.zero
  | Zpos _ => PrimFloat.of_uint63 (Uint63.of_Z z)
  | Zneg p => PrimFloat.opp (PrimFloat.of_uint63 (Uint63.of_Z (Zpos p)))
  end.

(** A decimal literal [n / 10^k] is read as the nearest binary64 value:
    numerator and denominator are exact, and the division rounds once. *)
Definition float_of_Q (q : Q) : float :=
  PrimFloat.div (float_of_Z (Qnum q)) (float_of_Z (Zpos (Qden q))).

#[export] Instance float_num : PyNum float := {
  lit := float_of_Q;
  of_int := float_of_Z;
  fadd := PrimFloat.add;
  fsub := PrimFloat.sub;
  fmul := PrimFloat.mul;
  fdiv := PrimFloat.div;
  fltb := PrimFloat.ltb;
  fleb := PrimFloat.leb
}.

#[export] Instance Q_num : PyNum Q := {
  lit := fun q => q;
  of_int := inject_Z;
  fadd := Qplus;
  fsub := Qminus;
  fmul := Qmult;
  fdiv := Qdiv;
  fltb := fun a b => negb (Qle_bool b a);
  fleb := Qle_bool
}.

Section Builtins.
Context {F : Type} `{PyNum F}.

(** [min(a, b)] keeps [a] unless [b < a]; [max(a, b)] keeps [a] unless
    [b > a].  With a NaN argument every comparison is false. *)
Definition py_min (a b : F) : F := if fltb b a then b else a.
Definition py_max (a b : F) : F := if fltb a b then b else a.

(** [sum(xs)] starts from the int [0]. *)
Definition py_sum (xs : list F) : F := fold_left fadd xs (of_int 0).

(** [max(0.0, min(1.0, x))], the clamp used by every score setter. *)
Definition clamp01 (x : F) : F := py_max (lit 0) (py_min (lit 1) x).
End Builtins.

(** ** Insertion-ordered dictionaries

    A Python [dict] iterates in insertion order, and assigning to an
    existing key keeps its position. *)
Section ODict.
Context {V : Type}.

Fixpoint od_set (k : string) (v : V) (d : list (string * V)) : list (string * V) :=
  match d with
  | [] => [(k, v)]
  | (k', v') :: d' =>
      if decide (k = k') then (k, v) :: d' else (k', v') :: od_set k v d'
  end.

Fixpoint od_get (k : string) (d : list (string * V)) : option V :=
  match d with
  | [] => None
  | (k', v') :: d' => if decide (k = k') then Some v' else od_get k d'
  end.

Fixpoint od_del (k : string) (d : list (string * V)) : list (string * V) :=
  match d with
  | [] => []
  | (k', v') :: d' => if decide (k = k') then d' else (k', v') :: od_del k d'
  end.

Definition od_mem (k : string) (d : list (string * V)) : bool :=
  bool_decide (is_Some (od_get k d)).

Definition od_keys (d : list (string * V)) : list string := map fst d.
Definition od_values (d : list (string * V)) : list V := map snd d.
End ODict.

(** [list.remove(x)]: the first occurrence. *)
Fixpoint list_remove (x : string) (l : list string) : list string :=
  match l with
  | [] => []
  | y :: l' => if decide (x = y) then l' else y :: list_remove x l'
  end.

(** [for t in group: remaining.remove(t)] *)
Definition remove_all (group remaining : list string) : list string :=
  fold_left (fun r t => list_remove t r) group remaining.

(** ** Dynamically typed values *)
Inductive pyval :=
  | PNone
  | PBool (b : bool)
  | PInt (z : Z)
  | PFloat (f : float)
  | PStr (s : string)
  | PList (l : list pyval)
  | PDict (d : list (string * pyval)).

(** ** [data/data_structures.py]: ValidationResult *)
Module ValidationResult.

Inductive ValidationStatus := PASSED | FAILED | WARNING | PENDING.

Section WithNum.
Context {F : Type} `{PyNum F}.

Record t := mk {
  checks : list (string * F);
  confidence : F;
  improvement_action : list (string * pyval);
  overall_score : F;
  status : ValidationStatus
}.

(** [ValidationResult()], the dataclass defaults. *)
Definition new : t :=
  {| checks := []; confidence := lit 0; improvement_action := [];
     overall_score := lit 0; status := PENDING |}.

(** The status chosen from a score, as in [_recalculate_overall_score]. *)
Definition status_of (score : F) : ValidationStatus :=
  if fleb (lit 0.8) score then PASSED
  else if fleb (lit 0.6) score then WARNING
  else FAILED.

(** [sum(self.checks.values()) / len(self.checks)] *)
Definition mean (d : list (string * F)) : F :=
  fdiv (py_sum (od_values d)) (of_int (Z.of_nat (length d))).

Definition _recalculate_overall_score (vr : t) : t :=
  match checks vr with
  | [] =>
      {| checks := checks vr; confidence := confidence vr;
         improvement_action := improvement_action vr;
         overall_score := lit 0; status := status vr |}
  | _ :: _ =>
      let score := mean (checks vr) in
      {| checks := checks vr; confidence := confidence vr;
         improvement_action := improvement_action vr;
         overall_score := score; status := status_of score |}
  end.

Definition add_check (vr : t) (check_name : string) (score : F) : t :=
  _recalculate_overall_score
    {| checks := od_set check_name (clamp01 score) (checks vr);
       confidence := confidence vr;
       improvement_action := improvement_action vr;
       overall_score := overall_score vr; status := status vr |}.

Definition get_check_result (vr : t) (check_name : string) (default : F) : F :=
  match od_get check_name (checks vr) with Some s => s | None => default end.

Definition set_confidence (vr : t) (c : F) : t :=
  {| checks := checks vr; confidence := clamp01 c;
     improvement_action := improvement_action vr;
     overall_score := overall_score vr; status := status vr |}.

Definition set_improvement_action (vr : t) (a : list (string * pyval)) : t :=
  {| checks := checks vr; confidence := confidence vr;
     improvement_action := a;
     overall_score := overall_score vr; status := status vr |}.

Definition get_overall_score (vr : t) : F := overall_score vr.

Definition get_weak_aspects (vr : t) : list string :=
  map fst (filter (fun kv => fltb (snd kv) (lit 0.6) = true) (checks vr)).

(** A result all of whose checks were recorded through [add_check]. *)
Definition recorded (cs : list (string * F)) : t :=
  fold_left (fun vr kv => add_check vr (fst kv) (snd kv)) cs new.
End WithNum.

Arguments t F : clear implicits.
End ValidationResult.

(** Truth value of a Python object, as tested by [if x:]. *)
Definition py_truthy (v : pyval) : bool :=
  match v with
  | PNone => false
  | PBool b => b
  | PInt z => negb (z =? 0)%Z
  | PFloat f => negb (PrimFloat.eqb f PrimFloat.zero)
  | PStr s => negb (String.eqb s "")
  | PList l => match l with [] => false | _ => true end
  | PDict d => match d with [] => false | _ => true end
  end.

(** [d.get(k)]: the value, or [None] when the key is absent. *)
Definition dict_get (k : string) (d : list (string * pyval)) : pyval :=
  match od_get k d with Some v => v | None => PNone end.

(** ** [core/quality_controller.py]: ConfidenceCalculator *)
Module ConfidenceCalculator.
Section WithNum.
Context {F : Type} `{PyNum F}.

(** [base_confidence] after the three conditional increments. *)
Definition base_confidence (processing_context : list (string * pyval))
    (validation_result : ValidationResult.t F) : F :=
  let base_confidence := lit 0.5 in
  let base_confidence :=
    if fltb (lit 0.7)
         (ValidationResult.get_check_result validation_result "basic_quality" (of_int 0))
    then fadd base_confidence (lit 0.2) else base_confidence in
  let base_confidence :=
    if py_truthy (dict_get "knowledge_sources" processing_context)
    then fadd base_confidence (lit 0.15) else base_confidence in
  let base_confidence :=
    if py_truthy (dict_get "tool_results" processing_context)
    then fadd base_confidence (lit 0.1) else base_confidence in
  base_confidence.

Definition calculate_confidence (response : string)
    (processing_context : list (string * pyval))
    (validation_result : ValidationResult.t F) : F :=
  let validation_score := ValidationResult.get_overall_score validation_result in
  let final_confidence :=
    fmul (base_confidence processing_context validation_result) validation_score in
  py_min final_confidence (lit 1).
End WithNum.
End ConfidenceCalculator.

(** ** Python strings

    A [str] is held as its UTF-8 bytes.  [len] counts code points, that is
    the bytes that are not continuation bytes [10xxxxxx]; [strip] and
    [split] recognise the code points for which [str.isspace] holds, by
    their encodings. *)
Definition byte_val (c : ascii) : N := N_of_ascii c.

Definition is_continuation (c : ascii) : bool :=
  (128 <=? byte_val c)%N && (byte_val c <? 192)%N.

Fixpoint py_len (s : string) : nat :=
  match s with
  | EmptyString => 0
  | String c s' => (if is_continuation c then 0 else 1) + py_len s'
  end.

(** U+0009..U+000D, U+001C..U+001F and U+0020. *)
Definition ws1 (c : ascii) : bool :=
  let n := byte_val c in
  ((9 <=? n) && (n <=? 13) || (28 <=? n) && (n <=? 32))%N.

(** U+0085 and U+00A0. *)
Definition ws2 (c1 c2 : ascii) : bool :=
  ((byte_val c1 =? 194) && ((byte_val c2 =? 133) || (byte_val c2 =? 160)))%N.

(** U+1680, U+2000..U+200A, U+2028, U+2029, U+202F, U+205F and U+3000. *)
Definition ws3 (c1 c2 c3 : ascii) : bool :=
  let '(a, b, c) := (byte_val c1, byte_val c2, byte_val c3) in
  ((a =? 225) && (b =? 154) && (c =? 128)
   || (a =? 226) && (b =? 128)
      && ((128 <=? c) && (c <=? 138) || (c =? 168) || (c =? 169) || (c =? 175))
   || (a =? 226) && (b =? 129) && (c =? 159)
   || (a =? 227) && (b =? 128) && (c =? 128))%N.

(** The number of bytes of the white-space code point that starts [s], or
    [0] when [s] does not start with one. *)
Definition ws_width (s : string) : nat :=
  match s with
  | EmptyString => 0
  | String c1 s1 =>
      if ws1 c1 then 1
      else match s1 with
           | EmptyString => 0
           | String c2 s2 =>
               if ws2 c1 c2 then 2
               else match s2 with
                    | EmptyString => 0
                    | String c3 _ => if ws3 c1 c2 c3 then 3 else 0
                    end
           end
  end.

Fixpoint lstrip (s : string) : string :=
  match s with
  | EmptyString => EmptyString
  | String c1 s1 =>
      if ws1 c1 then lstrip s1
      else match s1 with
           | EmptyString => s
           | String c2 s2 =>
               if ws2 c1 c2 then lstrip s2
               else match s2 with
                    | EmptyString => s
                    | String c3 s3 => if ws3 c1 c2 c3 then lstrip s3 else s
                    end
           end
  end.

(** The same on the reversed string, where the bytes of a code point come
    last byte first. *)
Fixpoint lstrip_rev (s : string) : string :=
  match s with
  | EmptyString => EmptyString
  | String c1 s1 =>
      if ws1 c1 then lstrip_rev s1
      else match s1 with
           | EmptyString => s
           | String c2 s2 =>
               if ws2 c2 c1 then lstrip_rev s2
               else match s2 with
                    | EmptyString => s
                    | String c3 s3 => if ws3 c3 c2 c1 then lstrip_rev s3 else s
                    end
           end
  end.

Definition rstrip (s : string) : string := String.rev (lstrip_rev (String.rev s)).

(** [s.strip()] *)
Definition strip (s : string) : string := rstrip (lstrip s).

(** [len(s.split())]: the number of maximal runs without white space.
    [skip] bytes are still to be passed over as part of a white-space code
    point; [in_word] tells whether the previous code point was in a word. *)
Fixpoint count_words_from (skip : nat) (in_word : bool) (s : string) : nat :=
  match s with
  | EmptyString => 0
  | String _ s' =>
      match skip with
      | S k => count_words_from k false s'
      | O =>
          match ws_width s with
          | O => (if in_word then 0 else 1) + count_words_from 0 true s'
          | S k => count_words_from k false s'
          end
      end
  end.

Definition count_words (s : string) : nat := count_words_from 0 false s.

(** ** [data/data_structures.py]: ProcessingResult

    The fields hold whatever Python object was stored in them; the
    dataclass does not check its annotations. *)
Module ProcessingResult.
Record t := mk {
  response : pyval;
  confidence : pyval;
  success : pyval;
  processing_time : pyval;
  knowledge_sources : pyval;
  tool_results : pyval;
  validation_results : pyval;
  metadata : pyval;
  errors : pyval;
  error : pyval
}.

(** [ProcessingResult()], the dataclass defaults. *)
Definition new : t :=
  {| response := PStr ""; confidence := PFloat 0; success := PBool false;
     processing_time := PFloat 0; knowledge_sources := PList [];
     tool_results := PDict []; validation_results := PDict [];
     metadata := PDict []; errors := PList []; error := PNone |}.

Definition to_dict (r : t) : gmap string pyval :=
  list_to_map
    [("response", response r); ("confidence", confidence r);
     ("success", success r); ("processing_time", processing_time r);
     ("knowledge_sources", knowledge_sources r);
     ("tool_results", tool_results r);
     ("validation_results", validation_results r);
     ("metadata", metadata r); ("errors", errors r); ("error", error r)].

(** [data.get(key, default)] *)
Definition get (data : gmap string pyval) (key : string) (default : pyval) : pyval :=
  match data !! key with Some v => v | None => default end.

Definition from_dict (data : gmap string pyval) : t :=
  {| response := get data "response" (PStr "");
     confidence := get data "confidence" (PFloat 0);
     success := get data "success" (PBool false);
     processing_time := get data "processing_time" (PFloat 0);
     knowledge_sources := get data "knowledge_sources" (PList []);
     tool_results := get data "tool_results" (PDict []);
     validation_results := get data "validation_results" (PDict []);
     metadata := get data "metadata" (PDict []);
     errors := get data "errors" (PList []);
     error := get data "error" PNone |}.
End ProcessingResult.

(** ** [data/data_structures.py]: PipelineState *)
Module PipelineState.
Inductive ProcessingStatus := PENDING | RUNNING | COMPLETED | FAILED | CANCELLED.

(** [route_config]: the stage names under ['stages'], and the other
    entries of the mapping. *)
Record route_config := mk_config {
  stages : list string;
  options : list (string * pyval)
}.

Record t := mk {
  question : string;
  config : route_config;
  context : list (string * pyval);
  processed_question : string;
  response : string;
  confidence : float;
  status : ProcessingStatus;
  knowledge_results : list (string * pyval);
  tool_results : list (string * pyval);
  validation_results : list (string * pyval);
  metadata : list (string * pyval);
  errors : list string;
  start_time : float
}.

(** [PipelineState(question, route_config, context)], created at clock
    reading [now]. *)
Definition new (question : string) (cfg : route_config)
    (context : list (string * pyval)) (now : float) : t :=
  {| question := question; config := cfg; context := context;
     processed_question := ""; response := ""; confidence := 0;
     status := PENDING; knowledge_results := []; tool_results := [];
     validation_results := []; metadata := []; errors := [];
     start_time := now |}.

Definition set_processed_question (st : t) (q : string) : t :=
  {| question := question st; config := config st; context := context st;
     processed_question := q; response := response st;
     confidence := confidence st; status := status st;
     knowledge_results := knowledge_results st; tool_results := tool_results st;
     validation_results := validation_results st; metadata := metadata st;
     errors := errors st; start_time := start_time st |}.

Definition add_validation_result (st : t) (check_name : string) (result : bool) : t :=
  {| question := question st; config := config st; context := context st;
     processed_question := processed_question st; response := response st;
     confidence := confidence st; status := status st;
     knowledge_results := knowledge_results st; tool_results := tool_results st;
     validation_results := od_set check_name (PBool result) (validation_results st);
     metadata := metadata st;
     errors := errors st; start_time := start_time st |}.

Definition add_metadata (st : t) (key : string) (value : pyval) : t :=
  {| question := question st; config := config st; context := context st;
     processed_question := processed_question st; response := response st;
     confidence := confidence st; status := status st;
     knowledge_results := knowledge_results st; tool_results := tool_results st;
     validation_results := validation_results st;
     metadata := od_set key value (metadata st);
     errors := errors st; start_time := start_time st |}.

Definition add_error (st : t) (e : string) : t :=
  {| question := question st; config := config st; context := context st;
     processed_question := processed_question st; response := response st;
     confidence := confidence st; status := status st;
     knowledge_results := knowledge_results st; tool_results := tool_results st;
     validation_results := validation_results st; metadata := metadata st;
     errors := errors st ++ [e]; start_time := start_time st |}.

Definition set_response (st : t) (r : string) : t :=
  {| question := question st; config := config st; context := context st;
     processed_question := processed_question st; response := r;
     confidence := confidence st; status := status st;
     knowledge_results := knowledge_results st; tool_results := tool_results st;
     validation_results := validation_results st; metadata := metadata st;
     errors := errors st; start_time := start_time st |}.

Definition set_confidence (st : t) (c : float) : t :=
  {| question := question st; config := config st; context := context st;
     processed_question := processed_question st; response := response st;
     confidence := clamp01 c; status := status st;
     knowledge_results := knowledge_results st; tool_results := tool_results st;
     validation_results := validation_results st; metadata := metadata st;
     errors := errors st; start_time := start_time st |}.

(** [get_final_result], at clock reading [now]. *)
Definition get_final_result (st : t) (now : float) : ProcessingResult.t :=
  {| ProcessingResult.response := PStr (response st);
     ProcessingResult.confidence := PFloat (confidence st);
     ProcessingResult.success :=
       PBool (bool_decide (length (errors st) = 0)
              && negb (String.eqb (response st) ""));
     ProcessingResult.processing_time := PFloat (now - start_time st);
     ProcessingResult.knowledge_sources :=
       PList (map PStr (od_keys (knowledge_results st)));
     ProcessingResult.tool_results := PDict (tool_results st);
     ProcessingResult.validation_results := PDict (validation_results st);
     ProcessingResult.metadata := PDict (metadata st);
     ProcessingResult.errors := PList (map PStr (errors st));
     ProcessingResult.error := PNone |}.
End PipelineState.

(** ** [core/pipeline.py] *)
Module Pipeline.
Import PipelineState.

(** The four clock readings of one [execute_pipeline] call: when the state
    is constructed, [start_time = time.time()], inside
    [get_final_result], and the closing [time.time()]. *)
Record clock := mk_clock {
  at_state : float;
  at_start : float;
  at_final : float;
  at_end : float
}.

Definition PreprocessingStage (st : t) : t :=
  let question := strip (PipelineState.question st) in
  let st := set_processed_question st question in
  let st := add_metadata st "original_length" (PInt (Z.of_nat (py_len question))) in
  add_metadata st "word_count" (PInt (Z.of_nat (count_words question))).

Definition SimpleReasoningStage (st : t) : t :=
  let response := String.append "基于简单推理的回答: " (processed_question st) in
  set_confidence (set_response st response) (lit 0.7).

Definition AdvancedReasoningStage (st : t) : t :=
  let response := String.append "高级多步推理结果: " (processed_question st) in
  set_confidence (set_response st response) (lit 0.9).

Definition BasicValidationStage (st : t) : t :=
  if negb (String.eqb (response st) "") && (10 <? py_len (response st))
  then add_validation_result st "basic_check" true
  else add_validation_result st "basic_check" false.

Definition MultiStageValidationStage (st : t) : t :=
  let st := add_validation_result st "_validate_accuracy" true in
  let st := add_validation_result st "_validate_completeness"
              (50 <? py_len (response st)) in
  add_validation_result st "_validate_consistency" true.

Definition FactCheckingStage (st : t) : t :=
  add_validation_result st "fact_check" true.

Definition ExpertValidationStage (st : t) : t :=
  add_validation_result st "expert_review" (PrimFloat.ltb (lit 0.8) (lit 0.85)).

Section Stages.
(** The stages that call the retrieval tool, the tool orchestrator or the
    response formatter are taken as given: each maps a state to a state or
    raises, with the text of the exception. *)
Variable external : string -> t -> t + string.

(** [self.stage_processors], as a lookup by stage name. *)
Definition stage_processors (stage_name : string) : option (t -> t + string) :=
  if decide (stage_name = "preprocessing") then Some (fun st => inl (PreprocessingStage st))
  else if decide (stage_name = "simple_reasoning") then Some (fun st => inl (SimpleReasoningStage st))
  else if decide (stage_name = "advanced_reasoning") then Some (fun st => inl (AdvancedReasoningStage st))
  else if decide (stage_name = "basic_validation") then Some (fun st => inl (BasicValidationStage st))
  else if decide (stage_name = "multi_stage_validation") then Some (fun st => inl (MultiStageValidationStage st))
  else if decide (stage_name = "fact_checking") then Some (fun st => inl (FactCheckingStage st))
  else if decide (stage_name = "expert_validation") then Some (fun st => inl (ExpertValidationStage st))
  else if bool_decide (stage_name ∈
            ["knowledge_retrieval"; "multi_source_retrieval"; "tool_orchestration";
             "tool_planning"; "tool_execution"; "reasoning"; "result_integration";
             "validation"; "postprocessing"])
       then Some (external stage_name)
  else None.

(** The loop over [route_config['stages']]; an exception leaves it. *)
Fixpoint run_stages (names : list string) (st : t) : t + string :=
  match names with
  | [] => inl st
  | stage_name :: rest =>
      match stage_processors stage_name with
      | Some process =>
          match process st with
          | inl st' => run_stages rest st'
          | inr e => inr e
          end
      | None =>
          run_stages rest (add_error st (String.append "Unknown stage: " stage_name))
      end
  end.

Definition _handle_pipeline_failure (e : string) (processing_time : float)
    : ProcessingResult.t :=
  {| ProcessingResult.response := PStr (String.append "处理过程中出现错误: " e);
     ProcessingResult.confidence := PFloat 0;
     ProcessingResult.success := PBool false;
     ProcessingResult.processing_time := PFloat processing_time;
     ProcessingResult.knowledge_sources := PList [];
     ProcessingResult.tool_results := PDict [];
     ProcessingResult.validation_results := PDict [];
     ProcessingResult.metadata := PDict [];
     ProcessingResult.errors := PList [];
     ProcessingResult.error := PStr e |}.

Definition with_processing_time (r : ProcessingResult.t) (x : float) : ProcessingResult.t :=
  {| ProcessingResult.response := ProcessingResult.response r;
     ProcessingResult.confidence := ProcessingResult.confidence r;
     ProcessingResult.success := ProcessingResult.success r;
     ProcessingResult.processing_time := PFloat x;
     ProcessingResult.knowledge_sources := ProcessingResult.knowledge_sources r;
     ProcessingResult.tool_results := ProcessingResult.tool_results r;
     ProcessingResult.validation_results := ProcessingResult.validation_results r;
     ProcessingResult.metadata := ProcessingResult.metadata r;
     ProcessingResult.errors := ProcessingResult.errors r;
     ProcessingResult.error := ProcessingResult.error r |}.

Definition execute_pipeline (clk : clock) (question : string) (cfg : route_config)
    (context : list (string * pyval)) : ProcessingResult.t :=
  let pipeline_state := PipelineState.new question cfg context (at_state clk) in
  match run_stages (stages cfg) pipeline_state with
  | inl st =>
      with_processing_time (get_final_result st (at_final clk))
        (at_end clk - at_start clk)
  | inr e => _handle_pipeline_failure e (at_end clk - at_start clk)
  end.
End Stages.
End Pipeline.

(** ** [tools/calculator_tool.py] *)
Module CalculatorTool.
Local Open Scope float_scope.

(** A category of [conversion_factors]: factors to the base unit, or, for
    temperature, the unit names (their entries are functions that the
    conversion never calls). *)
Inductive unit_table :=
  | Factors (units : list (string * float))
  | Functions (units : list string).

Definition conversion_factors : list (string * unit_table) :=
  [("length", Factors [("m", lit 1.0); ("cm", lit 0.01); ("mm", lit 0.001);
                       ("km", lit 1000.0); ("inch", lit 0.0254);
                       ("ft", lit 0.3048); ("yard", lit 0.9144)]);
   ("weight", Factors [("kg", lit 1.0); ("g", lit 0.001);
                       ("lb", lit 0.453592); ("oz", lit 0.0283495)]);
   ("temperature", Functions ["celsius"; "fahrenheit"; "kelvin"])].

(** [unit in units] *)
Definition has_unit (u : string) (t : unit_table) : bool :=
  match t with
  | Factors units => od_mem u units
  | Functions units => bool_decide (u ∈ units)
  end.

(** [params.get(key, default)]; the entries read here are strings. *)
Definition param (params : list (string * string)) (key default : string) : string :=
  match od_get key params with Some v => v | None => default end.

Definition temperature (from_unit to_unit : string) (value : float) : float :=
  if String.eqb from_unit "celsius" && String.eqb to_unit "fahrenheit"
  then value * of_int 9 / of_int 5 + of_int 32
  else if String.eqb from_unit "fahrenheit" && String.eqb to_unit "celsius"
  then (value - of_int 32) * of_int 5 / of_int 9
  else if String.eqb from_unit "celsius" && String.eqb to_unit "kelvin"
  then value + lit 273.15
  else if String.eqb from_unit "kelvin" && String.eqb to_unit "celsius"
  then value - lit 273.15
  else value.

(** The body of the loop over the categories: the converted value and its
    category name, from the first category holding both units. *)
Fixpoint convert_in (tables : list (string * unit_table))
    (from_unit to_unit : string) (value : float) : option (float * string) :=
  match tables with
  | [] => None
  | (category, units) :: rest =>
      if has_unit from_unit units && has_unit to_unit units then
        match units with
        | Functions _ => Some (temperature from_unit to_unit value, category)
        | Factors fs =>
            match od_get from_unit fs, od_get to_unit fs with
            | Some from_factor, Some to_factor =>
                Some (value * from_factor / to_factor, category)
            | _, _ => None
            end
        end
      else convert_in rest from_unit to_unit value
  end.

Section Execute.
(** [float(expression)], and the two calculations that go through [eval]:
    each returns its value or the text of the exception it raises. *)
Variable py_float : string -> float + string.
Variable _basic_calculation : string -> float + string.
Variable _scientific_calculation : string -> float + string.

Definition _unit_conversion (expression : string) (params : list (string * string))
    : list (string * pyval) + string :=
  let from_unit := param params "from_unit" "" in
  let to_unit := param params "to_unit" "" in
  match py_float expression with
  | inr e => inr e
  | inl value =>
      match convert_in conversion_factors from_unit to_unit value with
      | Some (result, category) =>
          inl [("converted_value", PFloat result);
               ("original_value", PFloat value);
               ("from_unit", PStr from_unit);
               ("to_unit", PStr to_unit);
               ("category", PStr category)]
      | None =>
          inr (String.append "Unsupported unit conversion: "
                 (String.append from_unit (String.append " to " to_unit)))
      end
  end.

Definition number (r : float + string) : pyval + string :=
  match r with inl x => inl (PFloat x) | inr e => inr e end.

Definition execute (params : list (string * string)) : list (string * pyval) :=
  let expression := param params "expression" "" in
  let calculation_type := param params "type" "basic" in
  let result :=
    if String.eqb calculation_type "basic" then number (_basic_calculation expression)
    else if String.eqb calculation_type "scientific"
    then number (_scientific_calculation expression)
    else if String.eqb calculation_type "unit_conversion"
    then match _unit_conversion expression params with
         | inl d => inl (PDict d)
         | inr e => inr e
         end
    else number (_basic_calculation expression) in
  match result with
  | inl result =>
      [("result", result); ("expression", PStr expression);
       ("calculation_type", PStr calculation_type); ("status", PStr "success")]
  | inr e =>
      [("result", PNone); ("expression", PStr expression);
       ("error", PStr e); ("status", PStr "error")]
  end.
End Execute.

(** Both units occur together in some category table. *)
Definition same_category (from_unit to_unit : string) : bool :=
  existsb (fun ct => has_unit from_unit ct.2 && has_unit to_unit ct.2)
    conversion_factors.
End CalculatorTool.

(** ** [utils/cache_manager.py]: MemoryCache

    [time.time()] is an argument: every operation receives the clock
    readings it takes. *)
Module MemoryCache.
Section WithNum.
Context {F : Type} `{PyNum F}.

Record t := mk {
  max_size : Z;
  default_ttl : Z;
  cache : list (string * pyval);
  access_times : list (string * F);
  expiry_times : list (string * F)
}.

(** [MemoryCache(max_size, default_ttl)] *)
Definition new (max_size default_ttl : Z) : t :=
  {| max_size := max_size; default_ttl := default_ttl;
     cache := []; access_times := []; expiry_times := [] |}.

Definition _is_expired (c : t) (key : string) (now : F) : bool :=
  match od_get key (expiry_times c) with
  | None => true
  | Some expiry => fltb expiry now
  end.

(** [delete]: the cache afterwards, and the returned flag. *)
Definition delete (c : t) (key : string) : t * bool :=
  if od_mem key (cache c) then
    ({| max_size := max_size c; default_ttl := default_ttl c;
        cache := od_del key (cache c);
        access_times := od_del key (access_times c);
        expiry_times := od_del key (expiry_times c) |}, true)
  else (c, false).

(** [get]: [now] is read by [_is_expired], [now'] stamps the access. *)
Definition get (c : t) (key : string) (now now' : F) : t * option pyval :=
  if negb (od_mem key (cache c)) then (c, None)
  else if _is_expired c key now then ((delete c key).1, None)
  else ({| max_size := max_size c; default_ttl := default_ttl c;
           cache := cache c;
           access_times := od_set key now' (access_times c);
           expiry_times := expiry_times c |},
        od_get key (cache c)).

(** [min(d.keys(), key=lambda k: d[k])]: the first key with the least
    value. *)
Fixpoint min_key (best : string * F) (d : list (string * F)) : string :=
  match d with
  | [] => best.1
  | kv :: d' => min_key (if fltb kv.2 best.2 then kv else best) d'
  end.

Definition _evict_lru (c : t) : t :=
  match access_times c with
  | [] => c
  | kv :: rest => (delete c (min_key kv rest)).1
  end.

(** [ttl or self.default_ttl] *)
Definition effective_ttl (c : t) (ttl : option Z) : Z :=
  match ttl with
  | None => default_ttl c
  | Some ttl => if (ttl =? 0)%Z then default_ttl c else ttl
  end.

Definition set (c : t) (key : string) (value : pyval) (ttl : option Z) (now : F)
    : t * bool :=
  let c := if (max_size c <=? Z.of_nat (length (cache c)))%Z
              && negb (od_mem key (cache c))
           then _evict_lru c else c in
  let ttl := effective_ttl c ttl in
  ({| max_size := max_size c; default_ttl := default_ttl c;
      cache := od_set key value (cache c);
      access_times := od_set key now (access_times c);
      expiry_times := od_set key (fadd now (of_int ttl)) (expiry_times c) |}, true).
End WithNum.
Arguments t F : clear implicits.
End MemoryCache.

(** [len(x)] of a Python object, where it has one. *)
Definition py_len_of (v : pyval) : option nat :=
  match v with
  | PStr s => Some (py_len s)
  | PList l => Some (length l)
  | PDict d => Some (length d)
  | _ => None
  end.

(** [d.get(k, default)] *)
Definition dict_get_default (k : string) (default : pyval)
    (d : list (string * pyval)) : pyval :=
  match od_get k d with Some v => v | None => default end.

(** ** [core/scheduler.py]: the audit record *)
Module UnifiedScheduler.
Section WithNum.
Context {F : Type} `{PyNum F}.

(** The fields of InteractionData that [_create_interaction_data] sets. *)
Record InteractionData := mk {
  question : string;
  classification : list (string * pyval);
  processing_route : list (string * pyval);
  result : ProcessingResult.t;
  total_processing_time : F;
  complexity_level : pyval;
  user_satisfaction_score : F;
  resource_consumption : F;
  cost_per_interaction : F;
  error_count : Z;
  total_steps : Z;
  was_escalated : pyval
}.

(** [None] stands for the TypeError of [len] on an object without length. *)
Definition _calculate_resource_consumption (processing_route : list (string * pyval))
    : option F :=
  match py_len_of (dict_get_default "stages" (PList []) processing_route) with
  | None => None
  | Some n =>
      let base_consumption := fmul (of_int (Z.of_nat n)) (lit 0.1) in
      Some (if py_truthy (dict_get_default "parallel_execution" (PBool false) processing_route)
            then fmul base_consumption (lit 1.3)
            else base_consumption)
  end.

(** [cost_per_second.get(model, 0.001)]; the keys are the model names. *)
Definition cost_per_second (model : pyval) : F :=
  match model with
  | PStr "qwen-turbo" => lit 0.001
  | PStr "qwen-plus" => lit 0.002
  | PStr "qwen-max" => lit 0.005
  | _ => lit 0.001
  end.

Definition _calculate_cost (processing_route : list (string * pyval))
    (processing_time : F) : F :=
  let model := dict_get_default "model_preference" (PStr "qwen-turbo") processing_route in
  fmul (cost_per_second model) processing_time.

Definition _create_interaction_data (question : string)
    (classification processing_route : list (string * pyval))
    (result : ProcessingResult.t) (processing_time : F) : option InteractionData :=
  match _calculate_resource_consumption processing_route,
        py_len_of (dict_get_default "stages" (PList []) processing_route) with
  | Some consumption, Some steps =>
      Some {| question := question;
              classification := classification;
              processing_route := processing_route;
              result := result;
              total_processing_time := processing_time;
              complexity_level := dict_get_default "complexity_level" (PInt 0) classification;
              user_satisfaction_score := lit 0.8;
              resource_consumption := consumption;
              cost_per_interaction := _calculate_cost processing_route processing_time;
              error_count := if py_truthy (ProcessingResult.success result) then 0 else 1;
              total_steps := Z.of_nat steps;
              was_escalated := dict_get_default "escalated" (PBool false) processing_route |}
  | _, _ => None
  end.
End WithNum.
Arguments InteractionData F : clear implicits.
End UnifiedScheduler.

(** ** [data/data_structures.py]: ProcessingRoute

    Routes, their stage lists and their context mappings are mutable
    objects that several names can share, so they live in a store and are
    referred to by address.  The values of a context mapping are held as
    they are: no operation below changes a value in place. *)
Module ProcessingRoute.
Abbreviation addr := nat.

Record route := mk {
  stages : addr;               (* a list object *)
  parallel_execution : bool;
  timeout : float;
  model_preference : string;
  context : addr               (* a dict object *)
}.

Inductive cell :=
  | CRoute (r : route)
  | CList (l : list string)
  | CDict (d : list (string * pyval)).

Abbreviation store := (gmap nat cell).

(** A fresh address. *)
Definition alloc (h : store) (c : cell) : addr * store :=
  let a := fresh (dom h) in (a, <[a := c]> h).

Definition get_route (h : store) (a : addr) : option route :=
  match h !! a with Some (CRoute r) => Some r | _ => None end.
Definition get_list (h : store) (a : addr) : option (list string) :=
  match h !! a with Some (CList l) => Some l | _ => None end.
Definition get_dict (h : store) (a : addr) : option (list (string * pyval)) :=
  match h !! a with Some (CDict d) => Some d | _ => None end.

(** [ProcessingRoute(stages=..., ...)] from a list and a mapping given by
    value: both become new objects. *)
Definition new (h : store) (stage_names : list string) (parallel : bool)
    (timeout : float) (preference : string) (ctx : list (string * pyval))
    : addr * store :=
  let '(l, h) := alloc h (CList stage_names) in
  let '(d, h) := alloc h (CDict ctx) in
  alloc h (CRoute {| stages := l; parallel_execution := parallel;
                     timeout := timeout; model_preference := preference;
                     context := d |}).

(** [self.copy()]: [self.stages.copy()] and [self.context.copy()] are new
    objects with the same elements; the scalar fields are read. *)
Definition copy (h : store) (self : addr) : option (addr * store) :=
  r ← get_route h self;
  l ← get_list h (stages r);
  d ← get_dict h (context r);
  Some (new h l (parallel_execution r) (timeout r) (model_preference r) d).

Definition add_stage (h : store) (self : addr) (stage_name : string) : option store :=
  r ← get_route h self;
  l ← get_list h (stages r);
  Some (if bool_decide (stage_name ∈ l) then h
        else <[stages r := CList (l ++ [stage_name])]> h).

Definition remove_stage (h : store) (self : addr) (stage_name : string) : option store :=
  r ← get_route h self;
  l ← get_list h (stages r);
  Some (if bool_decide (stage_name ∈ l)
        then <[stages r := CList (list_remove stage_name l)]> h
        else h).

Definition add_context (h : store) (self : addr) (key : string) (value : pyval)
    : option store :=
  r ← get_route h self;
  d ← get_dict h (context r);
  Some (<[context r := CDict (od_set key value d)]> h).

(** Assignments to the scalar fields. *)
Definition set_timeout (h : store) (self : addr) (x : float) : option store :=
  r ← get_route h self;
  Some (<[self := CRoute {| stages := stages r;
                            parallel_execution := parallel_execution r;
                            timeout := x;
                            model_preference := model_preference r;
                            context := context r |}]> h).

Definition set_model_preference (h : store) (self : addr) (x : string) : option store :=
  r ← get_route h self;
  Some (<[self := CRoute {| stages := stages r;
                            parallel_execution := parallel_execution r;
                            timeout := timeout r;
                            model_preference := x;
                            context := context r |}]> h).

Definition set_parallel_execution (h : store) (self : addr) (x : bool) : option store :=
  r ← get_route h self;
  Some (<[self := CRoute {| stages := stages r;
                            parallel_execution := x;
                            timeout := timeout r;
                            model_preference := model_preference r;
                            context := context r |}]> h).

(** The operations a caller can apply to a route it holds. *)
Inductive op :=
  | AddStage (stage_name : string)
  | RemoveStage (stage_name : string)
  | AddContext (key : string) (value : pyval)
  | SetTimeout (x : float)
  | SetModelPreference (x : string)
  | SetParallelExecution (x : bool).

Definition apply (h : store) (self : addr) (o : op) : option store :=
  match o with
  | AddStage s => add_stage h self s
  | RemoveStage s => remove_stage h self s
  | AddContext k v => add_context h self k v
  | SetTimeout x => set_timeout h self x
  | SetModelPreference x => set_model_preference h self x
  | SetParallelExecution x => set_parallel_execution h self x
  end.

Fixpoint apply_all (h : store) (self : addr) (os : list op) : option store :=
  match os with
  | [] => Some h
  | o :: os' => h' ← apply h self o; apply_all h' self os'
  end.

(** What a reader of the route at [a] sees: the stage list, the context
    mapping, the timeout, the parallelism flag and the model preference. *)
Record view := mk_view {
  v_stages : list string;
  v_context : list (string * pyval);
  v_timeout : float;
  v_parallel_execution : bool;
  v_model_preference : string
}.

Definition observe (h : store) (a : addr) : option view :=
  r ← get_route h a;
  l ← get_list h (stages r);
  d ← get_dict h (context r);
  Some {| v_stages := l; v_context := d; v_timeout := timeout r;
          v_parallel_execution := parallel_execution r;
          v_model_preference := model_preference r |}.
End ProcessingRoute.

(** [v == s] for a string literal [s]: an object that is not a [str] is
    never equal to one. *)
Definition py_eq_str (v : pyval) (s : string) : bool :=
  match v with PStr s' => String.eqb s' s | _ => false end.

(** ** [core/router.py]: candidate routes *)
Module IntelligentRoutingEngine.
Import ProcessingRoute.

Definition _initialize_route_templates (h : store) : list (string * addr) * store :=
  let '(fast_track, h) :=
    new h ["preprocessing"; "simple_reasoning"; "basic_validation"]
      false 5%float "speed" [] in
  let '(standard, h) :=
    new h ["preprocessing"; "knowledge_retrieval"; "reasoning"; "validation"]
      true 15%float "balanced" [] in
  let '(comprehensive, h) :=
    new h ["preprocessing"; "multi_source_retrieval"; "tool_orchestration";
           "advanced_reasoning"; "multi_stage_validation"]
      true 30%float "quality" [] in
  let '(tool_assisted, h) :=
    new h ["preprocessing"; "tool_planning"; "tool_execution";
           "result_integration"; "validation"]
      true 25%float "balanced" [] in
  ([("fast_track", fast_track); ("standard", standard);
    ("comprehensive", comprehensive); ("tool_assisted", tool_assisted)], h).

Definition _create_speed_optimized_route (h : store) (base_route : addr)
    : option (addr * store) :=
  '(speed_route, h) ← copy h base_route;
  r ← get_route h speed_route;
  h ← set_timeout h speed_route (py_min (timeout r) 10%float);
  h ← set_model_preference h speed_route "speed";
  h ← remove_stage h speed_route "multi_stage_validation";
  Some (speed_route, h).

Definition _create_quality_optimized_route (h : store) (base_route : addr)
    : option (addr * store) :=
  '(quality_route, h) ← copy h base_route;
  h ← set_model_preference h quality_route "quality";
  h ← add_stage h quality_route "fact_checking";
  h ← add_stage h quality_route "expert_validation";
  Some (quality_route, h).

Definition _create_resource_efficient_route (h : store) (base_route : addr)
    : option (addr * store) :=
  '(efficient_route, h) ← copy h base_route;
  h ← set_parallel_execution h efficient_route false;
  h ← set_model_preference h efficient_route "speed";
  h ← remove_stage h efficient_route "multi_source_retrieval";
  Some (efficient_route, h).

(** One optional variant of the base route, appended to [routes]. *)
Definition add_variant (wanted : bool)
    (create : store -> addr -> option (addr * store))
    (base_route : addr) (acc : list addr * store) : option (list addr * store) :=
  if wanted then
    '(route, h) ← create acc.2 base_route; Some (acc.1 ++ [route], h)
  else Some acc.

(** [_generate_candidate_routes]; [is_high_load] is the answer of the
    resource manager, and a missing key or template ends the call. *)
Definition _generate_candidate_routes (h : store) (route_templates : list (string * addr))
    (classification_result : list (string * pyval)) (is_high_load : bool)
    : option (list addr * store) :=
  strategy ← od_get "recommended_strategy" classification_result;
  template ← match strategy with
             | PStr s => od_get s route_templates
             | _ => None
             end;
  '(base_route, h) ← copy h template;
  urgency ← od_get "urgency_level" classification_result;
  acc ← add_variant (py_eq_str urgency "high") _create_speed_optimized_route
          base_route ([base_route], h);
  domain ← od_get "domain_type" classification_result;
  acc ← add_variant
          (py_eq_str domain "professional" || py_eq_str domain "academic"
           || py_eq_str domain "technical")
          _create_quality_optimized_route base_route acc;
  add_variant is_high_load _create_resource_efficient_route base_route acc.

(** [_select_model] *)
Definition _select_model (preference : string) (complexity : Z) : string :=
  if String.eqb preference "speed" then "qwen-turbo"
  else if String.eqb preference "quality" then "qwen-max"
  else if (complexity <=? 2)%Z then "qwen-turbo"
  else if (complexity <=? 4)%Z then "qwen-plus"
  else "qwen-max".
End IntelligentRoutingEngine.

(** [sub in s], [s.startswith(p)], [s.count(sub)] and [s.lower()] on the
    UTF-8 bytes.  A byte-level match of well-formed UTF-8 text is a match of
    code points.  [lower] maps the ASCII letters; the key words searched
    for below contain none, and no other letter lowers to one of their
    characters. *)
Fixpoint str_contains (sub s : string) : bool :=
  String.prefix sub s ||
  match s with
  | EmptyString => false
  | String _ s' => str_contains sub s'
  end.

Definition startswith (s p : string) : bool := String.prefix p s.

(** Occurrences from left to right without overlap; [skip] bytes belong to
    the occurrence just counted. *)
Fixpoint str_count_from (skip : nat) (sub s : string) : nat :=
  match s with
  | EmptyString => 0
  | String _ s' =>
      match skip with
      | S k => str_count_from k sub s'
      | O => if String.prefix sub s
             then 1 + str_count_from (String.length sub - 1) sub s'
             else str_count_from 0 sub s'
      end
  end.

Definition str_count (sub s : string) : nat := str_count_from 0 sub s.

Definition lower_byte (c : ascii) : ascii :=
  let n := byte_val c in
  if ((65 <=? n) && (n <=? 90))%N then ascii_of_N (n + 32) else c.

Fixpoint lower (s : string) : string :=
  match s with
  | EmptyString => EmptyString
  | String c s' => String (lower_byte c) (lower s')
  end.

(** [sum(1 for x in xs if x in s)] *)
Definition count_present (xs : list string) (s : string) : nat :=
  length (filter (fun x => str_contains x s = true) xs).

(** [max(keys, key=...)]: the first key with the greatest score. *)
Fixpoint first_max (best : string * float) (d : list (string * float)) : string :=
  match d with
  | [] => best.1
  | kv :: d' => first_max (if PrimFloat.ltb best.2 kv.2 then kv else best) d'
  end.

Definition dominant (scores : list (string * float)) (otherwise : string) : string :=
  if existsb (fun kv => PrimFloat.ltb 0 kv.2) scores then
    match scores with
    | [] => otherwise
    | kv :: rest => first_max kv rest
    end
  else otherwise.

Definition scores_dict (scores : list (string * float)) : pyval :=
  PDict (map (fun kv => (kv.1, PFloat kv.2)) scores).

(** ** [analyzers/urgency_analyzer.py] *)
Module UrgencyAnalyzer.
Local Open Scope float_scope.

Definition urgency_keywords : list (string * (list string * float)) :=
  [("high",
    (["紧急"; "急需"; "立即"; "马上"; "现在"; "尽快"; "快速"; "迅速"; "即时";
      "实时"; "当前"; "正在"; "突发"; "紧急情况"; "危急"; "严重"; "重要";
      "关键"; "今天"; "现在就"; "必须"; "务必"; "刻不容缓"], lit 1.0));
   ("medium",
    (["尽量"; "希望"; "最好"; "应该"; "建议"; "推荐"; "明天"; "这周"; "近期";
      "最近"; "不久"; "很快"; "及时"; "适时"; "合适"; "方便时"; "有空时"],
     lit 0.6));
   ("low",
    (["有时间"; "方便的话"; "可以的话"; "随时"; "闲暇"; "空闲"; "未来"; "以后";
      "将来"; "长期"; "计划"; "考虑"; "思考"; "了解"; "学习"; "研究"; "探讨"],
     lit 0.3))].

Definition time_indicators : list (string * list string) :=
  [("immediate", ["现在"; "立即"; "马上"; "当前"; "此刻"; "正在"; "实时";
                  "即时"; "瞬间"; "立刻"]);
   ("today", ["今天"; "今日"; "当天"; "本日"; "今天内"]);
   ("this_week", ["这周"; "本周"; "这星期"; "本星期"; "周内"]);
   ("this_month", ["这个月"; "本月"; "月内"; "这月"]);
   ("future", ["以后"; "将来"; "未来"; "长期"; "远期"])].

Definition action_urgency : list (string * list string) :=
  [("critical", ["救命"; "求救"; "帮助"; "解决"; "修复"; "处理"; "停止";
                 "阻止"; "预防"; "避免"; "紧急处理"]);
   ("important", ["完成"; "实现"; "达成"; "执行"; "操作"; "运行"; "开始";
                  "启动"; "进行"; "继续"; "推进"]);
   ("routine", ["了解"; "学习"; "研究"; "探索"; "发现"; "查看"; "观察";
                "分析"; "思考"; "考虑"; "讨论"])].

Definition context_indicators : list (string * (list string * string)) :=
  [("problem_solving",
    (["问题"; "错误"; "失败"; "故障"; "不工作"; "无法"; "无效"], "high"));
   ("learning", (["学习"; "了解"; "知识"; "教程"; "指南"; "原理"], "low"));
   ("decision_making",
    (["选择"; "决定"; "比较"; "评估"; "建议"; "推荐"], "medium"));
   ("planning", (["计划"; "准备"; "安排"; "设计"; "规划"; "策略"], "medium"))].

Definition _calculate_keyword_urgency_weight (keyword question : string) : float :=
  let base_weight := lit 1.0 in
  let question_lower := lower question in
  let keyword_lower := lower keyword in
  let base_weight :=
    if startswith question_lower keyword_lower
    then base_weight + lit 0.5 else base_weight in
  let base_weight :=
    if (str_contains "?" question || str_contains "？" question)
       && bool_decide (keyword_lower ∈ ["现在"; "立即"; "马上"])
    then base_weight + lit 0.3 else base_weight in
  let base_weight :=
    if str_contains "!" question || str_contains "！" question
    then base_weight + lit 0.4 else base_weight in
  let keyword_count := str_count keyword_lower question_lower in
  if (1 <? keyword_count)%nat
  then base_weight + of_int (Z.of_nat keyword_count - 1) * lit 0.2
  else base_weight.

Definition _calculate_urgency_scores (question : string) : list (string * float) :=
  let question_lower := lower question in
  map (fun '(level, (keywords, weight)) =>
         (level,
          fold_left
            (fun score keyword =>
               if str_contains keyword question_lower
               then score + _calculate_keyword_urgency_weight keyword question * weight
               else score)
            keywords 0))
      urgency_keywords.

(** The score of one group of indicators: [1.0] for each one present. *)
Definition indicator_score (indicators : list string) (question_lower : string) : float :=
  fold_left
    (fun score indicator =>
       if str_contains indicator question_lower then score + lit 1.0 else score)
    indicators 0.

Record analysis := mk_analysis {
  a_dominant : string;
  a_scores : list (string * float);
  a_urgency_level : string
}.

Definition _analyze_time_sensitivity (question : string) : analysis :=
  let question_lower := lower question in
  let time_scores :=
    map (fun '(time_frame, indicators) =>
           (time_frame, indicator_score indicators question_lower))
        time_indicators in
  let dominant_time_frame := dominant time_scores "unspecified" in
  let urgency_mapping :=
    [("immediate", "high"); ("today", "high"); ("this_week", "medium");
     ("this_month", "medium"); ("future", "low"); ("unspecified", "medium")] in
  {| a_dominant := dominant_time_frame; a_scores := time_scores;
     a_urgency_level :=
       match od_get dominant_time_frame urgency_mapping with
       | Some u => u | None => "medium" end |}.

Definition _analyze_action_type (question : string) : analysis :=
  let question_lower := lower question in
  let action_scores :=
    map (fun '(action_level, actions) =>
           (action_level, indicator_score actions question_lower))
        action_urgency in
  let dominant_action := dominant action_scores "routine" in
  let urgency_mapping :=
    [("critical", "high"); ("important", "medium"); ("routine", "low")] in
  {| a_dominant := dominant_action; a_scores := action_scores;
     a_urgency_level :=
       match od_get dominant_action urgency_mapping with
       | Some u => u | None => "medium" end |}.

Definition _analyze_context_urgency (question : string) : analysis :=
  let question_lower := lower question in
  let context_scores :=
    map (fun '(context_type, (keywords, _)) =>
           (context_type, indicator_score keywords question_lower))
        context_indicators in
  let dominant_context := dominant context_scores "general" in
  {| a_dominant := dominant_context; a_scores := context_scores;
     a_urgency_level :=
       match od_get dominant_context context_indicators with
       | Some (_, urgency) => urgency | None => "medium" end |}.

Definition score_of (level : string) (scores : list (string * float)) : float :=
  match od_get level scores with Some s => s | None => 0 end.

Definition _determine_keyword_urgency_level (urgency_scores : list (string * float))
    : string :=
  if PrimFloat.ltb 0 (score_of "high" urgency_scores) then "high"
  else if PrimFloat.ltb (score_of "low" urgency_scores) (score_of "medium" urgency_scores)
  then "medium"
  else "low".

(** [urgency_points.get(level, 2)] *)
Definition urgency_points (level : string) : Z :=
  if String.eqb level "high" then 3
  else if String.eqb level "medium" then 2
  else if String.eqb level "low" then 1
  else 2.

Definition _calculate_overall_urgency (urgency_scores : list (string * float))
    (time_sensitivity action_type context_urgency : analysis) : string :=
  let keyword_urgency_level := _determine_keyword_urgency_level urgency_scores in
  let total_points :=
    of_int (urgency_points keyword_urgency_level) * lit 0.4
    + of_int (urgency_points (a_urgency_level time_sensitivity)) * lit 0.3
    + of_int (urgency_points (a_urgency_level action_type)) * lit 0.2
    + of_int (urgency_points (a_urgency_level context_urgency)) * lit 0.1 in
  if PrimFloat.leb (lit 2.5) total_points then "high"
  else if PrimFloat.leb (lit 1.5) total_points then "medium"
  else "low".

Definition _calculate_confidence (urgency_scores : list (string * float))
    (time_sensitivity : analysis) : float :=
  let total_keyword_score := py_sum (od_values urgency_scores) in
  let time_score := py_sum (od_values (a_scores time_sensitivity)) in
  let confidence := lit 0.5 in
  let confidence :=
    if PrimFloat.ltb 0 total_keyword_score
    then confidence + py_min (total_keyword_score * lit 0.1) (lit 0.3)
    else confidence in
  let confidence :=
    if PrimFloat.ltb 0 time_score
    then confidence + py_min (time_score * lit 0.1) (lit 0.2)
    else confidence in
  py_min confidence (lit 1.0).

Definition analysis_dict (kind scores : string) (a : analysis) : pyval :=
  PDict [(kind, PStr (a_dominant a)); (scores, scores_dict (a_scores a));
         ("urgency_level", PStr (a_urgency_level a))].

(** [analyze] returns a mapping, of which ['urgency_level'] is one entry. *)
Definition analyze (question : string) : pyval :=
  let urgency_scores := _calculate_urgency_scores question in
  let time_sensitivity := _analyze_time_sensitivity question in
  let action_type := _analyze_action_type question in
  let context_urgency := _analyze_context_urgency question in
  let overall_urgency :=
    _calculate_overall_urgency urgency_scores time_sensitivity action_type
      context_urgency in
  PDict [("urgency_level", PStr overall_urgency);
         ("urgency_scores", scores_dict urgency_scores);
         ("time_sensitivity", analysis_dict "time_frame" "time_scores" time_sensitivity);
         ("action_type", analysis_dict "action_type" "action_scores" action_type);
         ("context_urgency",
          analysis_dict "context_type" "context_scores" context_urgency);
         ("confidence", PFloat (_calculate_confidence urgency_scores time_sensitivity))].
End UrgencyAnalyzer.

(** ** [analyzers/complexity_analyzer.py] *)
Module ComplexityAnalyzer.
Local Open Scope float_scope.

Definition technical_terms : list string :=
  ["算法"; "数据结构"; "机器学习"; "深度学习"; "神经网络"; "分布式"; "微服务";
   "架构"; "系统设计"; "优化"; "量子"; "区块链"; "人工智能"; "云计算"; "大数据"].

Definition reasoning_indicators : list string :=
  ["因此"; "所以"; "由于"; "考虑到"; "基于"; "根据"; "假设"; "如果"; "那么";
   "推导"; "证明"; "论证"].

Definition domain_terms : list (string * list string) :=
  [("tech", ["编程"; "代码"; "软件"; "硬件"; "网络"; "数据库"]);
   ("science", ["实验"; "假设"; "理论"; "公式"; "计算"; "测量"]);
   ("business", ["市场"; "营销"; "管理"; "战略"; "投资"; "财务"]);
   ("medicine", ["诊断"; "治疗"; "症状"; "病理"; "药物"; "手术"]);
   ("law", ["法律"; "法规"; "条例"; "判决"; "诉讼"; "合同"])].

(** [n * x] for an int count [n]. *)
Definition times (n : nat) (x : float) : float := of_int (Z.of_nat n) * x.

Definition calculate_syntactic_complexity (question : string) : float :=
  let complexity_score := 0 in
  let clauses := (str_count "，" question + str_count "；" question + 1)%nat in
  let complexity_score := complexity_score + times clauses (lit 0.5) in
  let subordinate_count :=
    count_present ["因为"; "虽然"; "如果"; "当"; "由于"] question in
  let complexity_score := complexity_score + times subordinate_count (lit 1.0) in
  let question_count :=
    count_present ["什么"; "为什么"; "如何"; "哪个"; "何时"] question in
  let complexity_score := complexity_score + times question_count (lit 0.3) in
  py_min complexity_score (lit 8.0).

Definition _count_domain_specific_terms (question : string) : nat :=
  fold_left (fun count '(_, terms) => (count + count_present terms question)%nat)
    domain_terms 0%nat.

Definition calculate_semantic_complexity (question : string) : float :=
  let complexity_score := 0 in
  let technical_count := count_present technical_terms question in
  let complexity_score := complexity_score + times technical_count (lit 1.5) in
  let abstract_count :=
    count_present ["概念"; "理论"; "模型"; "框架"; "思想"; "原理"] question in
  let complexity_score := complexity_score + times abstract_count (lit 1.0) in
  let domain_specific := _count_domain_specific_terms question in
  let complexity_score := complexity_score + times domain_specific (lit 0.8) in
  py_min complexity_score (lit 10.0).

Definition estimate_reasoning_depth (question : string) : float :=
  let depth_score := 0 in
  let causal_count :=
    count_present ["为什么"; "原因"; "导致"; "影响"; "结果"] question in
  let depth_score := depth_score + times causal_count (lit 1.0) in
  let reasoning_count := count_present reasoning_indicators question in
  let depth_score := depth_score + times reasoning_count (lit 0.8) in
  let comparison_count :=
    count_present ["比较"; "对比"; "差异"; "相同"; "不同"] question in
  let depth_score := depth_score + times comparison_count (lit 1.2) in
  let evaluation_count :=
    count_present ["评估"; "判断"; "分析"; "优缺点"; "利弊"] question in
  let depth_score := depth_score + times evaluation_count (lit 1.5) in
  py_min depth_score (lit 8.0).

Definition estimate_knowledge_breadth (question : string) : float :=
  let breadth_score := 0 in
  let multi_domain_count :=
    count_present ["跨领域"; "综合"; "整体"; "全面"; "系统"] question in
  let breadth_score := breadth_score + times multi_domain_count (lit 1.5) in
  let interdisciplinary_count :=
    count_present ["交叉"; "融合"; "结合"; "应用于"; "相关性"] question in
  let breadth_score := breadth_score + times interdisciplinary_count (lit 1.2) in
  let scope_count :=
    count_present ["全球"; "国际"; "历史"; "未来"; "趋势"] question in
  let breadth_score := breadth_score + times scope_count (lit 0.8) in
  py_min breadth_score (lit 6.0).

Section Segmenter.
(** [jieba.lcut], the word segmenter of an external library. *)
Variable lcut : string -> list string.

Definition calculate_lexical_complexity (question : string) : float :=
  let word_count := length (lcut question) in
  if (word_count <=? 5)%nat then lit 1.0
  else if (word_count <=? 10)%nat then lit 2.0
  else if (word_count <=? 20)%nat then lit 4.0
  else lit 6.0.

Definition complexity_score (question : string) : float :=
  py_sum
    [calculate_lexical_complexity question * lit 0.1;
     calculate_syntactic_complexity question * lit 0.2;
     calculate_semantic_complexity question * lit 0.3;
     estimate_reasoning_depth question * lit 0.25;
     estimate_knowledge_breadth question * lit 0.15].

Definition analyze (question : string) : Z :=
  let complexity_score := complexity_score question in
  if PrimFloat.ltb complexity_score (lit 1.5) then 0
  else if PrimFloat.ltb complexity_score (lit 2.5) then 1
  else if PrimFloat.ltb complexity_score (lit 4.0) then 2
  else if PrimFloat.ltb complexity_score (lit 6.0) then 3
  else if PrimFloat.ltb complexity_score (lit 8.0) then 4
  else 5.
End Segmenter.
End ComplexityAnalyzer.

(** ** [core/classifier.py] *)
Module MultiDimensionalClassifier.

(** The mapping built by [classify_question]; each entry is what the
    analyzer of that dimension returned. *)
Record analysis_result := mk {
  complexity : Z;
  domain : pyval;
  urgency : pyval;
  tool_needs : list (string * pyval);
  freshness_need : list (string * pyval);
  user_profile : list (string * pyval)
}.

(** [None] stands for the KeyError of a missing ['required']. *)
Definition _determine_strategy (a : analysis_result) : option string :=
  if py_eq_str (urgency a) "high" && (complexity a <=? 2)%Z then Some "fast_track"
  else if (4 <=? complexity a)%Z then Some "comprehensive"
  else match od_get "required" (tool_needs a) with
       | None => None
       | Some required =>
           Some (if py_truthy required then "tool_assisted" else "standard")
       end.

Definition synthesize_routing_decision (a : analysis_result)
    : option (list (string * pyval)) :=
  requires_tools ← od_get "required" (tool_needs a);
  requires_fresh ← od_get "requires_fresh" (freshness_need a);
  user_expertise ← od_get "expertise_level" (user_profile a);
  strategy ← _determine_strategy a;
  Some [("complexity_level", PInt (complexity a));
        ("domain_type", domain a);
        ("urgency_level", urgency a);
        ("requires_tools", requires_tools);
        ("requires_fresh_data", requires_fresh);
        ("user_expertise", user_expertise);
        ("recommended_strategy", PStr strategy)].

Section Analyzers.
(** The word segmenter, and the four analyzers whose results are passed on
    or read by key only. *)
Variable lcut : string -> list string.
Variable domain_analyze : string -> pyval.
Variable tool_requirement_analyze : string -> list (string * pyval).
Variable freshness_analyze : string -> list (string * pyval).
Variable user_context_analyze :
  list (string * pyval) -> list pyval -> list (string * pyval).

Definition analyze_all (question : string) (user_context : list (string * pyval))
    (conversation_history : list pyval) : analysis_result :=
  {| complexity := ComplexityAnalyzer.analyze lcut question;
     domain := domain_analyze question;
     urgency := UrgencyAnalyzer.analyze question;
     tool_needs := tool_requirement_analyze question;
     freshness_need := freshness_analyze question;
     user_profile := user_context_analyze user_context conversation_history |}.

Definition classify_question (question : string) (user_context : list (string * pyval))
    (conversation_history : list pyval) : option (list (string * pyval)) :=
  synthesize_routing_decision (analyze_all question user_context conversation_history).
End Analyzers.
End MultiDimensionalClassifier.

(** ** [tools/tool_orchestrator.py]: dependency graph and execution plan *)
Module ToolOrchestrator.

(** [ToolRegistry()] holds the four default tools. *)
Definition registered_tools : list string :=
  ["web_search"; "rag_retrieval"; "calculator"; "translator"].

(** [self.tool_registry.get_tool(name)] finds a tool. *)
Definition get_tool (tool_name : string) : bool :=
  bool_decide (tool_name ∈ registered_tools).

(** [ToolDependencyAnalyzer.analyze_input_dependencies] *)
Definition analyze_input_dependencies (tool_name : string) : list string :=
  let dependency_rules :=
    [("calculator", ["web_search"; "rag_retrieval"]);
     ("data_analyzer", ["web_search"; "rag_retrieval"; "file_manager"]);
     ("code_executor", ["rag_retrieval"]);
     ("translator", []);
     ("web_search", []);
     ("rag_retrieval", [])] in
  match od_get tool_name dependency_rules with Some deps => deps | None => [] end.

(** [ToolDependencyAnalyzer.analyze_output_dependencies] *)
Definition analyze_output_dependencies (tool_name : string)
    (tool_requirements : list string) : list string :=
  let other_tools :=
    filter (fun name => name <> tool_name) tool_requirements in
  let output_rules :=
    [("web_search", ["calculator"; "data_analyzer"]);
     ("rag_retrieval", ["calculator"; "data_analyzer"; "code_executor"]);
     ("calculator", []); ("translator", []); ("data_analyzer", []);
     ("code_executor", [])] in
  let potential_outputs :=
    match od_get tool_name output_rules with Some o => o | None => [] end in
  filter (fun name => name ∈ other_tools) potential_outputs.

(** A node of [ToolDependencyGraph.nodes]. *)
Record node := mk_node {
  input_deps : list string;
  output_deps : list string;
  status : string
}.

Definition add_tool (nodes : list (string * node)) (tool_name : string)
    (input_deps output_deps : list string) : list (string * node) :=
  od_set tool_name
    {| input_deps := input_deps; output_deps := output_deps; status := "pending" |}
    nodes.

(** The loop of [analyze_tool_dependencies] over the names of the
    requirements, from the graph built so far; [all_requirements] is the
    whole list, which the output dependencies read. *)
Definition add_requirements (all_requirements : list string)
    (nodes : list (string * node)) (tool_requirements : list string)
    : list (string * node) :=
  fold_left
    (fun nodes tool_name =>
       if get_tool tool_name
       then add_tool nodes tool_name (analyze_input_dependencies tool_name)
              (analyze_output_dependencies tool_name all_requirements)
       else nodes)
    tool_requirements nodes.

Definition analyze_tool_dependencies (tool_requirements : list string)
    : list (string * node) :=
  add_requirements tool_requirements [] tool_requirements.

(** One ready tool leaves [temp_graph] and the dependency lists of the
    tools that remain. *)
Definition release (temp_graph : list (string * list string)) (tool_name : string)
    : list (string * list string) :=
  map (fun '(remaining_tool, deps) =>
         (remaining_tool,
          if bool_decide (tool_name ∈ deps)
          then list_remove tool_name deps else deps))
      (od_del tool_name temp_graph).

(** The [while temp_graph] loop; [None] when [fuel] rounds did not empty
    the graph. *)
Fixpoint topological_loop (fuel : nat) (temp_graph : list (string * list string))
    (result : list string) : option (list string) :=
  match temp_graph with
  | [] => Some result
  | _ :: _ =>
      match fuel with
      | O => None
      | S fuel' =>
          let ready :=
            od_keys (filter (fun kv => kv.2 = []) temp_graph) in
          match ready with
          | [] => Some (result ++ od_keys temp_graph)
          | _ :: _ =>
              topological_loop fuel'
                (fold_left release ready temp_graph) (result ++ ready)
          end
      end
  end.

Definition topological_sort (nodes : list (string * node)) : option (list string) :=
  topological_loop (length nodes)
    (map (fun kv => (kv.1, input_deps kv.2)) nodes) [].

Definition max_parallel_tools : nat := 3.

(** The [for tool_name in remaining_tools] loop of one round: the group it
    collects.  [None] stands for the KeyError of a name without node. *)
Fixpoint collect_group (nodes : list (string * node)) (remaining_tools : list string)
    (todo : list string) (current_group : list string) : option (list string) :=
  match todo with
  | [] => Some current_group
  | tool_name :: todo' =>
      match od_get tool_name nodes with
      | None => None
      | Some tool_node =>
          let dependencies_satisfied :=
            forallb (fun dep => negb (bool_decide (dep ∈ remaining_tools)))
              (input_deps tool_node) in
          collect_group nodes remaining_tools todo'
            (if dependencies_satisfied
                && (length current_group <? max_parallel_tools)
             then current_group ++ [tool_name] else current_group)
      end
  end.

(** The [while remaining_tools] loop: the groups in the order in which
    they are appended. *)
Fixpoint group_loop (fuel : nat) (nodes : list (string * node))
    (remaining_tools : list string) : option (list (list string)) :=
  match remaining_tools with
  | [] => Some []
  | first :: _ =>
      match fuel with
      | O => None
      | S fuel' =>
          current_group ← collect_group nodes remaining_tools remaining_tools [];
          let current_group :=
            match current_group with [] => [first] | _ => current_group end in
          groups ← group_loop fuel' nodes (remove_all current_group remaining_tools);
          Some (current_group :: groups)
      end
  end.

Definition _identify_parallel_groups (execution_order : list string)
    (nodes : list (string * node)) : option (list (list string)) :=
  group_loop (length execution_order) nodes execution_order.

(** [generate_execution_plan]: the tool names of the tasks, stage by
    stage. *)
Definition generate_execution_plan (nodes : list (string * node))
    : option (list (list string)) :=
  execution_order ← topological_sort nodes;
  _identify_parallel_groups execution_order nodes.
End ToolOrchestrator.

(** ** Invariants and sample inputs used in the proofs *)

(** All scores of a check mapping lie between 0 and 1. *)
Definition unit_scores (d : list (string * Q)) : Prop :=
  Forall (fun kv => (0 <= kv.2 <= 1)%Q) d.

(** What [add_check] maintains. *)
Definition scored (vr : ValidationResult.t Q) : Prop :=
  unit_scores (ValidationResult.checks vr) /\
  (0 <= ValidationResult.overall_score vr <= 1)%Q.

(** [float] on the two numerals of the conversion examples; anything else
    is taken not to be a number. *)
Definition decimal_examples (s : string) : float + string :=
  if String.eqb s "100" then inl 100%float
  else if String.eqb s "32" then inl 32%float
  else inr (String.append "could not convert string to float: " s).

(** The route at [a] is well formed in [h], with the given cells. *)
Definition holds (h : gmap nat ProcessingRoute.cell) (a : nat)
    (r : ProcessingRoute.route) (l : list string) (d : list (string * pyval)) : Prop :=
  h !! a = Some (ProcessingRoute.CRoute r) /\
  h !! ProcessingRoute.stages r = Some (ProcessingRoute.CList l) /\
  h !! ProcessingRoute.context r = Some (ProcessingRoute.CDict d).

(** Two well-formed routes that share neither list nor mapping. *)
Definition separate (h : gmap nat ProcessingRoute.cell) (a b : nat) : Prop :=
  exists ra la da rb lb db,
    holds h a ra la da /\ holds h b rb lb db /\
    a <> b /\ ProcessingRoute.stages ra <> ProcessingRoute.stages rb /\
    ProcessingRoute.context ra <> ProcessingRoute.context rb.

(** A way of deriving a route that leaves every existing route as it is. *)
Definition preserves
    (create : gmap nat ProcessingRoute.cell -> nat ->
              option (nat * gmap nat ProcessingRoute.cell)) : Prop :=
  forall h base c h', create h base = Some (c, h') ->
    forall b w, ProcessingRoute.observe h b = Some w ->
                ProcessingRoute.observe h' b = Some w.

(** ** [core/router.py]: choosing among the evaluated routes *)
Module RouteSelection.
Section WithNum.
Context {F : Type} `{PyNum F} {R : Type}.

(** One step of the loop of [_select_optimal_route]: [best] is
    [(best_route, best_score)]. *)
Definition consider (best : option R * F) (candidate : R * F) : option R * F :=
  if fltb best.2 candidate.2 then (Some candidate.1, candidate.2) else best.

(** [_select_optimal_route]: the routes come with their
    [evaluation.overall_score]. *)
Definition _select_optimal_route (evaluated_routes : list (R * F)) : option R :=
  (fold_left consider evaluated_routes (None, of_int (-1))).1.
End WithNum.
End RouteSelection.

(** ** [utils/cache_manager.py]: sequences of cache operations *)
Module MemoryCacheOps.
Section WithNum.
Context {F : Type} `{PyNum F}.

(** [clear] *)
Definition clear (c : MemoryCache.t F) : MemoryCache.t F :=
  {| MemoryCache.max_size := MemoryCache.max_size c;
     MemoryCache.default_ttl := MemoryCache.default_ttl c;
     MemoryCache.cache := []; MemoryCache.access_times := [];
     MemoryCache.expiry_times := [] |}.

(** A call on the cache, with the clock readings it takes. *)
Inductive call :=
  | Get (key : string) (now now' : F)
  | Set_ (key : string) (value : pyval) (ttl : option Z) (now : F)
  | Delete (key : string)
  | Clear.

Definition step (c : MemoryCache.t F) (o : call) : MemoryCache.t F :=
  match o with
  | Get key now now' => (MemoryCache.get c key now now').1
  | Set_ key value ttl now => (MemoryCache.set c key value ttl now).1
  | Delete key => (MemoryCache.delete c key).1
  | Clear => clear c
  end.

Definition run (c : MemoryCache.t F) (calls : list call) : MemoryCache.t F :=
  fold_left step calls c.

(** The three mappings of the cache have the same keys, each once. *)
Definition aligned (c : MemoryCache.t F) : Prop :=
  od_keys (MemoryCache.access_times c) = od_keys (MemoryCache.cache c) /\
  od_keys (MemoryCache.expiry_times c) = od_keys (MemoryCache.cache c) /\
  NoDup (od_keys (MemoryCache.cache c)).
End WithNum.
End MemoryCacheOps.

(** ** [data/data_structures.py]: RouteEvaluation *)
Module RouteEvaluation.
Section WithNum.
Context {F : Type} `{PyNum F}.

Record t := mk {
  predicted_quality : F;
  estimated_time : F;
  resource_cost : F;
  risk_assessment : F;
  user_satisfaction_prediction : F;
  overall_score : F
}.

(** One round of the loop of [_validate_scores]:
    [if not 0.0 <= value <= 1.0: value = max(0.0, min(1.0, value))]. *)
Definition validated (value : F) : F :=
  if negb (fleb (lit 0) value && fleb value (lit 1)) then clamp01 value else value.

Definition _validate_scores (e : t) : t :=
  {| predicted_quality := validated (predicted_quality e);
     estimated_time := estimated_time e;
     resource_cost := resource_cost e;
     risk_assessment := validated (risk_assessment e);
     user_satisfaction_prediction := validated (user_satisfaction_prediction e);
     overall_score := validated (overall_score e) |}.

(** [RouteEvaluation(...)]: the generated [__init__] stores the arguments
    and calls [__post_init__]. *)
Definition new (predicted_quality estimated_time resource_cost risk_assessment
    user_satisfaction_prediction overall_score : F) : t :=
  _validate_scores
    (mk predicted_quality estimated_time resource_cost risk_assessment
        user_satisfaction_prediction overall_score).

(** [RouteEvaluation()] *)
Definition default : t :=
  new (lit 0) (lit 0) (lit 0) (lit 0) (lit 0) (lit 0).
End WithNum.
Arguments t F : clear implicits.
End RouteEvaluation.

(** [abs(x)] of a float. *)
Class PyAbs (F : Type) := fabs : F -> F.
#[export] Instance float_abs : PyAbs float := PrimFloat.abs.
#[export] Instance Q_abs : PyAbs Q := Qabs.

(** ** [utils/metrics.py]: QualityPredictor

    What the predictor and the routing engine read of a route: its stage
    names, flags and timeout. *)
Module QualityPredictor.
Section WithNum.
Context {F : Type} `{PyNum F} `{PyAbs F}.

Record route := mk_route {
  stages : list string;
  parallel_execution : bool;
  timeout : F;
  model_preference : string
}.

Definition feature_weights : list (string * F) :=
  [("complexity_match", lit 0.3); ("model_performance", lit 0.25);
   ("resource_adequacy", lit 0.2); ("historical_success", lit 0.25)].

Definition _estimate_route_complexity (r : route) : F :=
  let stage_count := length (stages r) in
  if (stage_count <=? 2)%nat then lit 1
  else if (stage_count <=? 4)%nat then lit 2.5
  else lit 4.

Definition _get_model_performance_score (model_preference : string) : F :=
  match od_get model_preference
          [("speed", lit 0.7); ("quality", lit 0.9); ("balanced", lit 0.8)] with
  | Some score => score
  | None => lit 0.75
  end.

(** [complexity_level] is [classification_result.get('complexity_level', 2)],
    an integer. *)
Definition _extract_quality_features (r : route) (complexity_level : Z)
    : list (string * F) :=
  let route_complexity := _estimate_route_complexity r in
  let complexity_match :=
    fsub (lit 1)
         (fdiv (fabs (fsub (of_int complexity_level) route_complexity)) (lit 5)) in
  let features := od_set "complexity_match" complexity_match [] in
  let features :=
    od_set "model_performance"
           (_get_model_performance_score (model_preference r)) features in
  let features :=
    od_set "resource_adequacy" (py_min (fdiv (timeout r) (lit 30)) (lit 1)) features in
  od_set "historical_success" (lit 0.8) features.

(** The loop of [_calculate_quality_score] over [features.items()]. *)
Definition accumulate (acc : F * F) (feature : string * F) : F * F :=
  match od_get feature.1 feature_weights with
  | Some weight => (fadd acc.1 (fmul feature.2 weight), fadd acc.2 weight)
  | None => acc
  end.

Definition _calculate_quality_score (features : list (string * F)) : F :=
  let '(total_score, total_weight) :=
    fold_left accumulate features (lit 0, lit 0) in
  if fltb (of_int 0) total_weight then fdiv total_score total_weight else lit 0.5.

Definition predict_quality (r : route) (complexity_level : Z) : F :=
  let features := _extract_quality_features r complexity_level in
  let quality_score := _calculate_quality_score features in
  py_min (py_max quality_score (lit 0)) (lit 1).
End WithNum.
Arguments route F : clear implicits.
End QualityPredictor.

(** ** [core/router.py]: the evaluation of a candidate route

    Of [classification_result] the evaluation reads [complexity_level] and
    [expected_time] (with its default), of [system_status] the
    [load_factor] (with its default). *)
Module RouteScoring.
Import QualityPredictor.
Section WithNum.
Context {F : Type} `{PyNum F} `{PyAbs F}.

Definition _estimate_processing_time (r : route F) (load_factor : option F) : F :=
  let base_time := fmul (of_int (Z.of_nat (length (stages r)))) (lit 2) in
  fmul base_time (default (lit 1) load_factor).

Definition _calculate_resource_cost (r : route F) : F :=
  let base_cost := fmul (of_int (Z.of_nat (length (stages r)))) (lit 0.1) in
  if parallel_execution r then fmul base_cost (lit 1.5) else base_cost.

Definition _assess_risk (r : route F) (complexity_level : Z) : F :=
  let risk_score := lit 0 in
  let risk_score :=
    if fltb (timeout r) (lit 10) then fadd risk_score (lit 0.2) else risk_score in
  let risk_score :=
    if (3 <? complexity_level)%Z && String.eqb (model_preference r) "speed"
    then fadd risk_score (lit 0.3) else risk_score in
  py_min risk_score (lit 1).

Definition _predict_user_satisfaction (r : route F) (expected_time : option F) : F :=
  let satisfaction := lit 0.8 in
  let satisfaction :=
    if String.eqb (model_preference r) "quality"
    then fadd satisfaction (lit 0.1) else satisfaction in
  let satisfaction :=
    if fleb (timeout r) (default (lit 15) expected_time)
    then fadd satisfaction (lit 0.1) else satisfaction in
  py_min satisfaction (lit 1).

Definition _calculate_overall_score (e : RouteEvaluation.t F) : F :=
  fadd (fadd (fadd (fadd
    (fmul (RouteEvaluation.predicted_quality e) (lit 0.3))
    (fmul (fsub (lit 1) (py_min (fdiv (RouteEvaluation.estimated_time e) (lit 30)) (lit 1)))
          (lit 0.25)))
    (fmul (fsub (lit 1) (py_min (RouteEvaluation.resource_cost e) (lit 1))) (lit 0.2)))
    (fmul (fsub (lit 1) (RouteEvaluation.risk_assessment e)) (lit 0.1)))
    (fmul (RouteEvaluation.user_satisfaction_prediction e) (lit 0.15)).

(** [_evaluate_route]: the fields are assigned one by one after
    [RouteEvaluation()], so [_validate_scores] does not see them. *)
Definition _evaluate_route (r : route F) (complexity_level : Z)
    (expected_time load_factor : option F) : RouteEvaluation.t F :=
  let e := RouteEvaluation.default in
  let e := {| RouteEvaluation.predicted_quality := predict_quality r complexity_level;
              RouteEvaluation.estimated_time := _estimate_processing_time r load_factor;
              RouteEvaluation.resource_cost := _calculate_resource_cost r;
              RouteEvaluation.risk_assessment := _assess_risk r complexity_level;
              RouteEvaluation.user_satisfaction_prediction :=
                _predict_user_satisfaction r expected_time;
              RouteEvaluation.overall_score := RouteEvaluation.overall_score e |} in
  {| RouteEvaluation.predicted_quality := RouteEvaluation.predicted_quality e;
     RouteEvaluation.estimated_time := RouteEvaluation.estimated_time e;
     RouteEvaluation.resource_cost := RouteEvaluation.resource_cost e;
     RouteEvaluation.risk_assessment := RouteEvaluation.risk_assessment e;
     RouteEvaluation.user_satisfaction_prediction :=
       RouteEvaluation.user_satisfaction_prediction e;
     RouteEvaluation.overall_score := _calculate_overall_score e |}.

(** The loop of [create_processing_pipeline] that evaluates the candidates,
    followed by the selection. *)
Definition evaluate_all (candidate_routes : list (route F)) (complexity_level : Z)
    (expected_time load_factor : option F) : list (route F * F) :=
  map (fun r => (r, RouteEvaluation.overall_score
                      (_evaluate_route r complexity_level expected_time load_factor)))
      candidate_routes.

Definition select_route (candidate_routes : list (route F)) (complexity_level : Z)
    (expected_time load_factor : option F) : option (route F) :=
  RouteSelection._select_optimal_route
    (evaluate_all candidate_routes complexity_level expected_time load_factor).
End WithNum.
End RouteScoring.

(** A binary64 value between 0 and 1, by the comparisons of binary64: not a
    NaN in particular. *)
Definition unit_float (x : float) : Prop :=
  (0 <=? x)%float = true /\ (x <=? 1)%float = true.

(** ** [core/scheduler.py]: the improvement of a response

    [_improve_response] receives the attribute mapping of the processing
    route ([processing_route.__dict__]).  No [ProcessingResult] has an
    attribute [original_question], so the question of the second run is the
    fixed text; [strategy] is the mapping built by
    [_plan_improvement_strategy]. *)
Module ResponseImprovement.
Import PipelineState.

(** The route mapping after the three conditional changes. *)
Definition improvement_route (strategy : list (string * pyval))
    (processing_route : route_config) : route_config :=
  let route := processing_route in
  let route :=
    if od_mem "fact_verification" strategy
    then mk_config (stages route ++ ["additional_fact_check"]) (options route)
    else route in
  let route :=
    if od_mem "enhancement" strategy
    then mk_config (stages route ++ ["information_gathering"]) (options route)
    else route in
  if od_mem "reasoning" strategy
  then mk_config (stages route)
         (od_set "model_preference" (PStr "quality") (options route))
  else route.

Section WithPipeline.
Variable external : string -> PipelineState.t -> PipelineState.t + string.

(** [execute_pipeline] catches every exception of its stages, so the
    [except] branch of [_improve_response] is not taken. *)
Definition _improve_response (clk : Pipeline.clock) (result : ProcessingResult.t)
    (strategy : list (string * pyval)) (processing_route : route_config)
    : ProcessingResult.t :=
  Pipeline.execute_pipeline external clk "重新处理的问题"
    (improvement_route strategy processing_route) [].
End WithPipeline.

(** The same changes on the objects themselves.  [processing_route] is the
    attribute mapping of a route object, its [copy()] a new mapping with the
    same values: the stage list is the one of the route. *)
Import ProcessingRoute.

Definition dict_copy (h : store) (self : addr) : option (addr * store) :=
  r ← get_route h self;
  Some (alloc h (CRoute r)).

(** [route['stages'].append(stage_name)] *)
Definition append_stage (h : store) (self : addr) (stage_name : string) : option store :=
  r ← get_route h self;
  l ← get_list h (ProcessingRoute.stages r);
  Some (<[ProcessingRoute.stages r := CList (l ++ [stage_name])]> h).

Definition append_if (wanted : bool) (h : store) (self : addr) (stage_name : string)
    : option store :=
  if wanted then append_stage h self stage_name else Some h.

Definition improve_route (h : store) (processing_route : addr)
    (strategy : list (string * pyval)) : option (addr * store) :=
  '(improvement_route, h) ← dict_copy h processing_route;
  h ← append_if (od_mem "fact_verification" strategy) h improvement_route
        "additional_fact_check";
  h ← append_if (od_mem "enhancement" strategy) h improvement_route
        "information_gathering";
  h ← (if od_mem "reasoning" strategy
       then set_model_preference h improvement_route "quality" else Some h);
  Some (improvement_route, h).

(** The stage names that [_improve_response] appends. *)
Definition appended (strategy : list (string * pyval)) : list string :=
  (if od_mem "fact_verification" strategy then ["additional_fact_check"] else []) ++
  (if od_mem "enhancement" strategy then ["information_gathering"] else []).
End ResponseImprovement.

(** ** [core/quality_controller.py]: the validation of a response

    [any(char.isdigit() for char in response)] and the fact checker are
    taken as given. *)
Module AdaptiveQualityController.
Section WithNum.
Context {F : Type} `{PyNum F}.
Variable has_digit : string -> bool.
Variable verify_facts : string -> pyval -> F.

Definition _check_basic_quality (response : string) : F :=
  if String.eqb response "" || (py_len (strip response) <? 10)%nat then lit 0
  else
    let quality_score := lit 0 in
    let quality_score :=
      if (50 <=? py_len response)%nat
      then fadd quality_score (lit 0.3) else quality_score in
    let sentences := S (str_count "。" response) in
    let quality_score :=
      if (2 <=? sentences)%nat
      then fadd quality_score (lit 0.3) else quality_score in
    let quality_score :=
      if has_digit response
      then fadd quality_score (lit 0.2) else quality_score in
    let quality_score :=
      if str_contains "因为" response || str_contains "由于" response
         || str_contains "所以" response
      then fadd quality_score (lit 0.2) else quality_score in
    py_min quality_score (lit 1).

(** ConsistencyVerifier *)
Definition check_consistency (response : string)
    (retrieved_knowledge tool_results : pyval) : F :=
  let consistency_score := lit 1 in
  let consistency_score :=
    if py_truthy retrieved_knowledge
    then py_min consistency_score (lit 0.85) else consistency_score in
  if py_truthy tool_results
  then py_min consistency_score (lit 0.9) else consistency_score.

(** CompletenessAssessor *)
Definition _analyze_question_aspects (question : string) : list string :=
  let aspects := [] in
  let aspects :=
    if str_contains "什么" question || str_contains "是什么" question
    then aspects ++ ["definition"] else aspects in
  let aspects :=
    if str_contains "为什么" question || str_contains "原因" question
    then aspects ++ ["reason"] else aspects in
  let aspects :=
    if str_contains "如何" question || str_contains "怎样" question
    then aspects ++ ["method"] else aspects in
  let aspects :=
    if str_contains "何时" question || str_contains "什么时候" question
    then aspects ++ ["time"] else aspects in
  let aspects :=
    if str_contains "哪里" question || str_contains "在哪" question
    then aspects ++ ["location"] else aspects in
  match aspects with [] => ["general"] | _ => aspects end.

Definition is_covered (response aspect : string) : bool :=
  if String.eqb aspect "definition"
     && (str_contains "是" response || str_contains "指" response) then true
  else if String.eqb aspect "reason"
     && (str_contains "因为" response || str_contains "由于" response) then true
  else if String.eqb aspect "method"
     && (str_contains "通过" response || str_contains "方法" response) then true
  else if String.eqb aspect "time"
     && existsb (fun time_word => str_contains time_word response)
          ["时"; "年"; "月"; "日"] then true
  else if String.eqb aspect "location"
     && (str_contains "在" response || str_contains "位于" response) then true
  else String.eqb aspect "general".

Definition _analyze_covered_aspects (response : string) (question_aspects : list string)
    : list string :=
  List.filter (is_covered response) question_aspects.

Definition assess_completeness (question response : string) : F :=
  let question_aspects := _analyze_question_aspects question in
  let covered_aspects := _analyze_covered_aspects response question_aspects in
  match question_aspects with
  | [] => lit 0.8
  | _ => fdiv (of_int (Z.of_nat (length covered_aspects)))
              (of_int (Z.of_nat (length question_aspects)))
  end.

Definition _calculate_escalation_level (weak_aspects : list string) : Z :=
  if (3 <=? length weak_aspects)%nat then 3
  else if (length weak_aspects =? 2)%nat then 2
  else 1.

Definition _plan_improvement_strategy (validation_result : ValidationResult.t F)
    : list (string * pyval) :=
  let weak_aspects := ValidationResult.get_weak_aspects validation_result in
  let improvement_strategy := [] in
  let improvement_strategy :=
    if bool_decide ("fact_accuracy" ∈ weak_aspects)
    then od_set "fact_verification" (PStr "use_additional_sources") improvement_strategy
    else improvement_strategy in
  let improvement_strategy :=
    if bool_decide ("completeness" ∈ weak_aspects)
    then od_set "enhancement" (PStr "gather_more_information") improvement_strategy
    else improvement_strategy in
  let improvement_strategy :=
    if bool_decide ("consistency" ∈ weak_aspects)
    then od_set "reasoning" (PStr "use_stronger_model") improvement_strategy
    else improvement_strategy in
  [("action", PStr "improve"); ("strategy", PDict improvement_strategy);
   ("escalation_level", PInt (_calculate_escalation_level weak_aspects))].

Definition _decide_improvement_action (validation_result : ValidationResult.t F)
    (processing_context : list (string * pyval)) : list (string * pyval) :=
  let overall_score := ValidationResult.get_overall_score validation_result in
  let confidence := ValidationResult.confidence validation_result in
  if fltb overall_score (lit 0.6) || fltb confidence (lit 0.7)
  then _plan_improvement_strategy validation_result
  else if fltb overall_score (lit 0.8)
          && py_truthy (dict_get_default "allows_enhancement" (PBool true)
                          processing_context)
  then [("action", PStr "enhance"); ("strategy", PStr "add_details")]
  else [("action", PStr "approve"); ("strategy", PNone)].

Definition validate_response (question response : string)
    (processing_context : list (string * pyval)) : ValidationResult.t F :=
  let validation_result := ValidationResult.new in
  let basic_quality := _check_basic_quality response in
  let validation_result :=
    ValidationResult.add_check validation_result "basic_quality" basic_quality in
  let validation_result :=
    if py_truthy (dict_get_default "requires_fact_checking" (PBool false)
                    processing_context)
    then ValidationResult.add_check validation_result "fact_accuracy"
           (verify_facts response
              (dict_get_default "knowledge_sources" (PList []) processing_context))
    else validation_result in
  let consistency :=
    check_consistency response
      (dict_get_default "retrieved_knowledge" (PDict []) processing_context)
      (dict_get_default "tool_results" (PDict []) processing_context) in
  let validation_result :=
    ValidationResult.add_check validation_result "consistency" consistency in
  let completeness := assess_completeness question response in
  let validation_result :=
    ValidationResult.add_check validation_result "completeness" completeness in
  let confidence :=
    ConfidenceCalculator.calculate_confidence response processing_context
      validation_result in
  let validation_result := ValidationResult.set_confidence validation_result confidence in
  let improvement_decision :=
    _decide_improvement_action validation_result processing_context in
  ValidationResult.set_improvement_action validation_result improvement_decision.
End WithNum.
End AdaptiveQualityController.

(** ** [utils/metrics.py]: ResourceManager

    Of an entry of [usage_history] the [total_load] is kept, which is all
    that is read again. *)
Module ResourceManager.
Section WithNum.
Context {F : Type} `{PyNum F}.

Definition resource_limits : list (string * F) :=
  [("cpu_cores", of_int 8); ("memory_gb", of_int 32);
   ("concurrent_requests", of_int 100); ("api_calls_per_minute", of_int 1000)].

Record t := mk {
  current_usage : list (string * F);
  usage_history : list F;
  load_factor : F
}.

Definition new : t :=
  {| current_usage :=
       [("cpu_cores", of_int 0); ("memory_gb", of_int 0);
        ("concurrent_requests", of_int 0); ("api_calls_per_minute", of_int 0)];
     usage_history := [];
     load_factor := lit 1 |}.

(** [deque(maxlen=100).append] *)
Definition history_append (history : list F) (entry : F) : list F :=
  let history := history ++ [entry] in
  if (100 <? length history)%nat then tail history else history.

Definition _record_usage (rm : t) : t :=
  let total_load :=
    fold_left
      (fun total_load (rl : string * F) =>
         match od_get rl.1 (current_usage rm) with
         | Some usage =>
             if fltb (of_int 0) rl.2 then fadd total_load (fdiv usage rl.2)
             else total_load
         | None => total_load
         end)
      resource_limits (of_int 0) in
  {| current_usage := current_usage rm;
     usage_history :=
       history_append (usage_history rm)
         (fdiv total_load (of_int (Z.of_nat (length (resource_limits)))));
     load_factor := load_factor rm |}.

(** One round of the loop of [_update_usage]. *)
Definition update_one (multiplier : Z) (usage : list (string * F)) (ra : string * F)
    : list (string * F) :=
  match od_get ra.1 usage with
  | Some current =>
      od_set ra.1
        (py_max (of_int 0) (fadd current (fmul ra.2 (of_int multiplier)))) usage
  | None => usage
  end.

Definition _update_usage (rm : t) (resources : list (string * F)) (operation : string)
    : t :=
  let multiplier := if String.eqb operation "allocate" then 1%Z else (-1)%Z in
  _record_usage
    {| current_usage := fold_left (update_one multiplier) resources (current_usage rm);
       usage_history := usage_history rm;
       load_factor := load_factor rm |}.

Definition _can_allocate (rm : t) (required : list (string * F)) : bool :=
  forallb
    (fun ra : string * F =>
       match od_get ra.1 resource_limits with
       | Some limit =>
           let available :=
             fsub limit (default (of_int 0) (od_get ra.1 (current_usage rm))) in
           negb (fltb available ra.2)
       | None => true
       end)
    required.

(** [allocate_resources]: the manager afterwards and the [allocated]
    flag of the answer. *)
Definition allocate_resources (rm : t) (request : list (string * F)) : t * bool :=
  let required_resources :=
    [("cpu_cores", default (of_int 1) (od_get "cpu_cores" request));
     ("memory_gb", default (of_int 2) (od_get "memory_gb" request));
     ("estimated_time", default (lit 5) (od_get "estimated_time" request))] in
  if _can_allocate rm required_resources
  then (_update_usage rm required_resources "allocate", true)
  else (rm, false).

Definition release_resources (rm : t) (used_resources : list (string * F)) : t :=
  _update_usage rm used_resources "release".

Definition is_high_load (rm : t) : bool :=
  let '(total_load, resource_count) :=
    fold_left
      (fun (acc : F * Z) (rl : string * F) =>
         match od_get rl.1 (current_usage rm) with
         | Some usage => (fadd acc.1 (fdiv usage rl.2), (acc.2 + 1)%Z)
         | None => acc
         end)
      resource_limits (of_int 0, 0%Z) in
  if (resource_count =? 0)%Z then false
  else fltb (lit 0.8) (fdiv total_load (of_int resource_count)).

(** The calls that change a manager. *)
Inductive call :=
  | Allocate (request : list (string * F))
  | Release (used_resources : list (string * F)).

Definition step (rm : t) (c : call) : t :=
  match c with
  | Allocate request => (allocate_resources rm request).1
  | Release used_resources => release_resources rm used_resources
  end.

Definition run (rm : t) (calls : list call) : t := fold_left step calls rm.

(** No release names a negative amount. *)
Definition releases_nonnegative (fle : F -> F -> Prop) (calls : list call) : Prop :=
  forall used_resources, Release used_resources ∈ calls ->
    forall resource amount, (resource, amount) ∈ used_resources ->
      fle (of_int 0) amount.
End WithNum.
Arguments t F : clear implicits.
Arguments call F : clear implicits.
End ResourceManager.
(** What allocations and releases maintain, in exact arithmetic: the
    processor and memory usage lie within their limits, and the other two
    resources are not in use. *)
Definition within_limits (usage : list (string * Q)) : Prop :=
  exists c m r a : Q,
    usage = [("cpu_cores", c); ("memory_gb", m);
             ("concurrent_requests", r); ("api_calls_per_minute", a)] /\
    (0 <= c <= 8)%Q /\ (0 <= m <= 32)%Q /\ (r == 0)%Q /\ (a == 0)%Q.

(** ** [tools/tool_registry.py]: performance tracking *)
Module ToolPerformance.
Section WithNum.
Context {F : Type} `{PyNum F}.

Record perf := mk {
  average_execution_time : F;
  success_rate : F;
  error_count : Z;
  total_executions : Z
}.

(** [_initialize_performance_tracking_for_tool] stores this entry. *)
Definition initial : perf :=
  {| average_execution_time := lit 0; success_rate := lit 1;
     error_count := 0; total_executions := 0 |}.

(** The changes that [update_tool_performance] makes to the entry. *)
Definition updated (p : perf) (execution_time : F) (success : bool) : perf :=
  let total_execs := (total_executions p + 1)%Z in
  let average :=
    if success
    then fdiv (fadd (fmul (average_execution_time p) (of_int (total_execs - 1)))
                    execution_time)
              (of_int total_execs)
    else average_execution_time p in
  let errors := if success then error_count p else (error_count p + 1)%Z in
  {| average_execution_time := average;
     success_rate := fdiv (of_int (total_execs - errors)) (of_int total_execs);
     error_count := errors;
     total_executions := total_execs |}.

(** [self._tool_performance] is a mapping from tool names to entries. *)
Definition update_tool_performance (tool_performance : list (string * perf))
    (tool_name : string) (execution_time : F) (success : bool)
    : list (string * perf) :=
  let tool_performance :=
    if od_mem tool_name tool_performance then tool_performance
    else od_set tool_name initial tool_performance in
  match od_get tool_name tool_performance with
  | Some p => od_set tool_name (updated p execution_time success) tool_performance
  | None => tool_performance
  end.

Definition get_tool_performance (tool_performance : list (string * perf))
    (tool_name : string) : perf :=
  default initial (od_get tool_name tool_performance).

(** A sequence of reports [(tool_name, execution_time, success)]. *)
Definition record_all (tool_performance : list (string * perf))
    (reports : list (string * F * bool)) : list (string * perf) :=
  fold_left (fun tp r => update_tool_performance tp r.1.1 r.1.2 r.2)
    reports tool_performance.

(** The execution times and the number of failures reported for a tool. *)
Definition times_of (tool_name : string) (reports : list (string * F * bool)) : list F :=
  map (fun r => r.1.2) (filter (fun r => r.1.1 = tool_name) reports).

Definition failures_of (tool_name : string) (reports : list (string * F * bool)) : nat :=
  length (filter (fun r => r.1.1 = tool_name /\ r.2 = false) reports).
End WithNum.
Arguments perf F : clear implicits.
End ToolPerformance.

(** ** [tools/tool_orchestrator.py]: ResultIntegrator *)
Module ResultIntegrator.

(** [isinstance(result, dict) and result.get('success', False)] *)
Definition is_success (result : pyval) : bool :=
  match result with
  | PDict d => py_truthy (dict_get_default "success" (PBool false) d)
  | _ => false
  end.

(** One round of the loop of [integrate_tool_results]: the accumulator is
    [(successful_results, failed_results)]. *)
Definition sort_result (acc : list (string * pyval) * list (string * pyval))
    (entry : string * pyval) : list (string * pyval) * list (string * pyval) :=
  if is_success entry.2
  then (od_set entry.1
          (match entry.2 with
           | PDict d => dict_get_default "result" (PDict []) d
           | _ => PNone
           end) acc.1, acc.2)
  else (acc.1, od_set entry.1 entry.2 acc.2).

Definition sort_results (execution_results : list (string * pyval))
    : list (string * pyval) * list (string * pyval) :=
  fold_left sort_result execution_results ([], []).

Section WithNum.
Context {F : Type} `{PyNum F}.

(** [sum(1 for tool in critical_tools if test(tool))] *)
Definition count_if (test : string -> bool) (tools : list string) : Z :=
  Z.of_nat (length (List.filter test tools)).

Definition _calculate_integration_confidence
    (successful failed : list (string * pyval)) : F :=
  let total_tools := Z.of_nat (length successful + length failed) in
  if (total_tools =? 0)%Z then lit 0
  else
    let success_rate :=
      fdiv (of_int (Z.of_nat (length successful))) (of_int total_tools) in
    let critical_tools := ["web_search"; "rag_retrieval"] in
    let critical_success :=
      count_if (fun tool => od_mem tool successful) critical_tools in
    let critical_total :=
      count_if (fun tool => od_mem tool successful || od_mem tool failed)
        critical_tools in
    if (0 <? critical_total)%Z
    then
      let critical_success_rate :=
        fdiv (of_int critical_success) (of_int critical_total) in
      fadd (fmul success_rate (lit 0.6)) (fmul critical_success_rate (lit 0.4))
    else success_rate.

(** The ['confidence'] entry of [integrate_tool_results]. *)
Definition integration_confidence (execution_results : list (string * pyval)) : F :=
  let '(successful_results, failed_results) := sort_results execution_results in
  _calculate_integration_confidence successful_results failed_results.
End WithNum.
End ResultIntegrator.

(** * Theorems *)

(** ** ValidationResult *)
Section ValidationResultFacts.
Import ValidationResult.
Context {F : Type} `{PyNum F}.

Lemma od_set_not_nil {V} (k : string) (v : V) d : od_set k v d <> [].
Proof. destruct d as [|[k' v'] d]; simpl; [done|]. by destruct (decide (k = k')). Qed.

Lemma add_check_checks (vr : t F) n s :
  checks (add_check vr n s) = od_set n (clamp01 s) (checks vr).
Proof.
  unfold add_check, _recalculate_overall_score; simpl.
  by destruct (od_set n (clamp01 s) (checks vr)).
Qed.

Lemma add_check_overall_score (vr : t F) n s :
  overall_score (add_check vr n s) = mean (checks (add_check vr n s)).
Proof.
  rewrite add_check_checks.
  unfold add_check, _recalculate_overall_score; simpl.
  pose proof (od_set_not_nil n (clamp01 s) (checks vr)) as Hne.
  by destruct (od_set n (clamp01 s) (checks vr)).
Qed.

Lemma add_check_status (vr : t F) n s :
  status (add_check vr n s) = status_of (overall_score (add_check vr n s)).
Proof.
  unfold add_check, _recalculate_overall_score; simpl.
  pose proof (od_set_not_nil n (clamp01 s) (checks vr)) as Hne.
  by destruct (od_set n (clamp01 s) (checks vr)).
Qed.

Lemma weak_aspects_spec (vr : t F) k :
  k ∈ get_weak_aspects vr <->
  exists v, (k, v) ∈ checks vr /\ fltb v (lit 0.6) = true.
Proof.
  unfold get_weak_aspects. rewrite list_elem_of_fmap. split.
  - intros [[k' v] [-> Hin]]. apply list_elem_of_filter in Hin as [Hlt Hin].
    by exists v.
  - intros (v & Hin & Hlt). exists (k, v). split; [done|].
    by apply list_elem_of_filter.
Qed.
End ValidationResultFacts.

(** Three differently named checks scored 0.9, 0.9 and 0.3, on binary64. *)
Lemma three_checks_example (n1 n2 n3 : string) :
  NoDup [n1; n2; n3] ->
  let vr := ValidationResult.add_check
              (ValidationResult.add_check
                 (ValidationResult.add_check ValidationResult.new n1 (lit 0.9))
                 n2 (lit 0.9))
              n3 (lit 0.3) in
  ValidationResult.overall_score vr = 0.7000000000000001%float /\
  ValidationResult.status vr = ValidationResult.WARNING /\
  ValidationResult.get_weak_aspects vr = [n3].
Proof.
  intros Hnd.
  apply NoDup_cons in Hnd as [Hn1 Hnd]. apply NoDup_cons in Hnd as [Hn2 _].
  apply not_elem_of_cons in Hn1 as [H12 Hn1]. apply not_elem_of_cons in Hn1 as [H13 _].
  apply not_elem_of_cons in Hn2 as [H23 _].
  unfold ValidationResult.add_check, ValidationResult._recalculate_overall_score,
    ValidationResult.get_weak_aspects; simpl.
  rewrite !(decide_False (P := n2 = n1)) by done. simpl.
  rewrite !(decide_False (P := n3 = n1)) by done.
  rewrite !(decide_False (P := n3 = n2)) by done. simpl.
  repeat split; vm_compute; reflexivity.
Qed.

(** C3: every [add_check] stores the clamped score, recomputes
    [overall_score] as the arithmetic mean of all stored scores, sets the
    status to passed from 0.8, warning from 0.6 and failed below, and
    [get_weak_aspects] lists exactly the checks below 0.6; with scores
    0.9, 0.9, 0.3 the overall score is within 1e-9 of 0.7, the status is
    warning and the only weak aspect is the third check. *)
Theorem validation_result_add_check :
  (forall (F : Type) (N : PyNum F) (vr : ValidationResult.t F) (n : string) (s : F),
     let vr' := ValidationResult.add_check vr n s in
     ValidationResult.checks vr' =
       od_set n (py_max (lit 0) (py_min (lit 1) s)) (ValidationResult.checks vr) /\
     ValidationResult.overall_score vr' =
       fdiv (py_sum (map snd (ValidationResult.checks vr')))
            (of_int (Z.of_nat (length (ValidationResult.checks vr')))) /\
     ValidationResult.status vr' =
       (if fleb (lit 0.8) (ValidationResult.overall_score vr')
        then ValidationResult.PASSED
        else if fleb (lit 0.6) (ValidationResult.overall_score vr')
             then ValidationResult.WARNING
             else ValidationResult.FAILED) /\
     (forall k, k ∈ ValidationResult.get_weak_aspects vr' <->
        exists v, (k, v) ∈ ValidationResult.checks vr' /\ fltb v (lit 0.6) = true)) /\
  (forall n1 n2 n3 : string,
     NoDup [n1; n2; n3] ->
     let vr := ValidationResult.add_check
                 (ValidationResult.add_check
                    (ValidationResult.add_check ValidationResult.new n1 (lit 0.9))
                    n2 (lit 0.9))
                 n3 (lit 0.3) in
     PrimFloat.leb
       (PrimFloat.abs (ValidationResult.overall_score vr - lit 0.7)) (lit 1e-9) = true /\
     ValidationResult.status vr = ValidationResult.WARNING /\
     ValidationResult.get_weak_aspects vr = [n3]).
Proof.
  split.
  - intros F N vr n s vr'. subst vr'. split; [apply add_check_checks|].
    split; [apply add_check_overall_score|].
    split; [apply add_check_status|]. apply weak_aspects_spec.
  - intros n1 n2 n3 Hnd vr.
    destruct (three_checks_example n1 n2 n3 Hnd) as (Hs & Hst & Hw).
    fold vr in Hs, Hst, Hw. rewrite Hs. by repeat split.
Qed.

Lemma validation_result_add_check_witness :
  NoDup ["basic_quality"; "consistency"; "completeness"] /\
  ValidationResult.get_weak_aspects
    (ValidationResult.add_check
       (ValidationResult.add_check
          (ValidationResult.add_check (F := float) ValidationResult.new
             "basic_quality" (lit 0.9))
          "consistency" (lit 0.9))
       "completeness" (lit 0.3)) = ["completeness"].
Proof.
  assert (Hnd : NoDup ["basic_quality"; "consistency"; "completeness"])
    by (apply (bool_decide_unpack _); vm_compute; exact I).
  split; [exact Hnd|].
  exact (proj2 (proj2 (proj2 validation_result_add_check _ _ _ Hnd))).
Defined.

(** ** ConfidenceCalculator, in exact arithmetic *)
Section ConfidenceBounds.
Import ValidationResult.
Local Open Scope Q_scope.

Lemma Q_fltb_true (a b : Q) : fltb a b = true <-> a < b.
Proof.
  simpl. rewrite negb_true_iff, <- not_true_iff_false, Qle_bool_iff.
  split; [apply Qnot_le_lt | apply Qlt_not_le].
Qed.

Lemma Q_fltb_false (a b : Q) : fltb a b = false <-> b <= a.
Proof. simpl. rewrite negb_false_iff. apply Qle_bool_iff. Qed.

Lemma clamp01_range (x : Q) : 0 <= clamp01 x <= 1.
Proof.
  unfold clamp01, py_max, py_min.
  destruct (fltb x (lit 1)) eqn:E1.
  - apply Q_fltb_true in E1. destruct (fltb (lit 0) x) eqn:E0.
    + apply Q_fltb_true in E0. simpl in *. split; lra.
    + simpl. split; lra.
  - destruct (fltb (lit 0) (lit 1)) eqn:E0; simpl; split; lra.
Qed.

Lemma od_set_unit_scores k v d :
  0 <= v <= 1 -> unit_scores d -> unit_scores (od_set k v d).
Proof.
  intros Hv. unfold unit_scores.
  induction 1 as [|[k' v'] d Hkv Hd IH]; simpl.
  - constructor; [exact Hv | constructor].
  - destruct (decide (k = k')); constructor; auto.
Qed.

Lemma sum_unit_scores (xs : list Q) (a : Q) :
  Forall (fun x => 0 <= x <= 1) xs ->
  a <= fold_left Qplus xs a <= a + inject_Z (Z.of_nat (length xs)).
Proof.
  intros Hxs. revert a. induction Hxs as [|x xs Hx _ IH]; intros a.
  - cbn. change (inject_Z (Z.of_nat 0)) with 0. split; lra.
  - cbn [fold_left length]. specialize (IH (a + x)).
    rewrite Nat2Z.inj_succ. unfold Z.succ. rewrite inject_Z_plus.
    change (inject_Z 1) with 1. split; lra.
Qed.

Lemma mean_range (d : list (string * Q)) :
  d <> [] -> unit_scores d -> 0 <= mean d <= 1.
Proof.
  intros Hne Hd. unfold mean, py_sum, od_values. simpl.
  assert (Hs := sum_unit_scores (map snd d) 0).
  rewrite length_map in Hs.
  assert (Hf : Forall (fun x => 0 <= x <= 1) (map snd d)).
  { apply Forall_fmap. exact Hd. }
  specialize (Hs Hf).
  assert (Hn : 0 < inject_Z (Z.of_nat (length d))).
  { destruct d; [done|]. change 0 with (inject_Z 0). rewrite <- Zlt_Qlt.
    simpl length. lia. }
  change (inject_Z 0) with 0.
  split.
  - apply Qle_shift_div_l; [done|]. lra.
  - apply Qle_shift_div_r; [done|]. lra.
Qed.

Lemma new_scored : scored new.
Proof. split; [constructor|]. simpl. split; lra. Qed.

Lemma add_check_scored vr n s : scored vr -> scored (add_check vr n s).
Proof.
  intros [Hc _].
  assert (Hc' : unit_scores (checks (add_check vr n s))).
  { rewrite add_check_checks. apply od_set_unit_scores; [apply clamp01_range|done]. }
  split; [done|].
  rewrite add_check_overall_score. apply mean_range; [|done].
  rewrite add_check_checks. apply od_set_not_nil.
Qed.

Lemma recorded_scored cs : scored (recorded cs).
Proof.
  unfold recorded. generalize (new_scored). generalize (@new Q _).
  induction cs as [|[n s] cs IH]; intros vr Hvr; simpl; [done|].
  apply IH. by apply add_check_scored.
Qed.

Lemma base_confidence_range ctx (vr : t Q) :
  1 # 2 <= ConfidenceCalculator.base_confidence ctx vr <= 95 # 100.
Proof.
  unfold ConfidenceCalculator.base_confidence.
  destruct (fltb _ _), (py_truthy (dict_get "knowledge_sources" ctx)),
    (py_truthy (dict_get "tool_results" ctx)); simpl; split; lra.
Qed.
End ConfidenceBounds.

(** C10: for checks recorded through [add_check], the calculated
    confidence lies between 0 and 0.95, so 1.0 is never reached (exact
    arithmetic). *)
Theorem calculate_confidence_range :
  forall (response : string) (processing_context : list (string * pyval))
         (cs : list (string * Q)),
    let c := ConfidenceCalculator.calculate_confidence response processing_context
               (ValidationResult.recorded cs) in
    (0 <= c)%Q /\ (c <= 0.95)%Q /\ (c < 1)%Q.
Proof.
  intros response ctx cs c. subst c.
  unfold ConfidenceCalculator.calculate_confidence, ValidationResult.get_overall_score.
  destruct (recorded_scored cs) as [_ [Hlo Hhi]].
  destruct (base_confidence_range ctx (ValidationResult.recorded cs)) as [Hb0 Hb1].
  set (b := ConfidenceCalculator.base_confidence ctx (ValidationResult.recorded cs)) in *.
  set (s := ValidationResult.overall_score (ValidationResult.recorded cs)) in *.
  assert (Hp0 : (0 <= fmul b s)%Q) by (simpl; apply Qmult_le_0_compat; lra).
  assert (Hp1 : (fmul b s <= 0.95)%Q).
  { simpl. apply Qle_trans with (b * 1)%Q; [|lra].
    apply Qmult_le_l; lra. }
  unfold py_min. destruct (fltb (lit 1) (fmul b s)) eqn:E.
  - apply Q_fltb_true in E. simpl in *. lra.
  - simpl in *. repeat split; lra.
Qed.

(** On binary64 the largest base confidence is the literal 0.95 itself, and
    multiplying it by a perfect score returns it unchanged. *)
Lemma base_confidence_max_binary64 :
  let vr := ValidationResult.add_check (F := float) ValidationResult.new
              "basic_quality" (lit 1) in
  let ctx := [("knowledge_sources", PList [PStr "rag"]);
              ("tool_results", PDict [("calculator", PInt 1)])] in
  ConfidenceCalculator.base_confidence ctx vr = lit 0.95 /\
  ConfidenceCalculator.calculate_confidence "" ctx vr = lit 0.95.
Proof. split; vm_compute; reflexivity. Qed.

(** ** Pipeline *)
Section PipelineFacts.
Import PipelineState Pipeline.
Variable external : string -> PipelineState.t -> PipelineState.t + string.

Lemma py_len_app (a b : string) : py_len (String.append a b) = py_len a + py_len b.
Proof. induction a as [|c a IH]; simpl; [done|]. rewrite IH. lia. Qed.

Lemma run_stages_app l1 l2 st :
  run_stages external (l1 ++ l2) st =
  match run_stages external l1 st with
  | inl st1 => run_stages external l2 st1
  | inr e => inr e
  end.
Proof.
  revert st. induction l1 as [|n l1 IH]; intros st; simpl; [done|].
  destruct (stage_processors external n) as [p|]; [|apply IH].
  destruct (p st); [apply IH|done].
Qed.

(** The state after the fast-track stage list. *)
Lemma run_fast_track_stages question cfg context now :
  exists st,
    run_stages external ["preprocessing"; "simple_reasoning"; "basic_validation"]
      (PipelineState.new question cfg context now) = inl st /\
    response st = String.append "基于简单推理的回答: " (strip question) /\
    confidence st = lit 0.7 /\
    errors st = [] /\
    validation_results st = [("basic_check", PBool true)].
Proof.
  eexists. split; [|split; [|split; [|split]]].
  - cbn [run_stages].
    change (stage_processors external "preprocessing")
      with (Some (fun st => @inl _ string (PreprocessingStage st))).
    change (stage_processors external "simple_reasoning")
      with (Some (fun st => @inl _ string (SimpleReasoningStage st))).
    change (stage_processors external "basic_validation")
      with (Some (fun st => @inl _ string (BasicValidationStage st))).
    cbv beta iota. reflexivity.
  - unfold BasicValidationStage.
    match goal with |- context [if ?b then _ else _] => destruct b end; reflexivity.
  - unfold BasicValidationStage.
    match goal with |- context [if ?b then _ else _] => destruct b end;
      vm_compute; reflexivity.
  - unfold BasicValidationStage.
    match goal with |- context [if ?b then _ else _] => destruct b end; reflexivity.
  - unfold BasicValidationStage.
    assert (Hb : negb (String.eqb (response (SimpleReasoningStage
                   (PreprocessingStage (PipelineState.new question cfg context now)))) "")
                 && (10 <? py_len (response (SimpleReasoningStage
                   (PreprocessingStage (PipelineState.new question cfg context now))))) = true).
    { apply andb_true_intro. split.
      - reflexivity.
      - apply Nat.ltb_lt. cbn [SimpleReasoningStage response set_confidence set_response].
        rewrite py_len_app. change (py_len "基于简单推理的回答: ") with 11. lia. }
    rewrite Hb. reflexivity.
Qed.
End PipelineFacts.

(** C2: the stage list preprocessing, simple_reasoning, basic_validation
    yields success, confidence 0.7 > 0 and a response of more than 10
    characters for every question; a single unknown stage name yields
    failure with one recorded error; and an unknown name inside a stage
    list records its error and lets the following stages run. *)
Theorem pipeline_success_failure_contract :
  forall (external : string -> PipelineState.t -> PipelineState.t + string),
  (forall clk question opts context,
     let r := Pipeline.execute_pipeline external clk question
                (PipelineState.mk_config
                   ["preprocessing"; "simple_reasoning"; "basic_validation"] opts)
                context in
     ProcessingResult.success r = PBool true /\
     (exists c, ProcessingResult.confidence r = PFloat c /\
                PrimFloat.ltb 0 c = true) /\
     (exists s, ProcessingResult.response r = PStr s /\ 10 < py_len s)) /\
  (forall clk question opts context stage_name,
     Pipeline.stage_processors external stage_name = None ->
     let r := Pipeline.execute_pipeline external clk question
                (PipelineState.mk_config [stage_name] opts) context in
     ProcessingResult.success r = PBool false /\
     ProcessingResult.errors r =
       PList [PStr (String.append "Unknown stage: " stage_name)]) /\
  (forall before stage_name after st st1,
     Pipeline.stage_processors external stage_name = None ->
     Pipeline.run_stages external before st = inl st1 ->
     Pipeline.run_stages external (before ++ stage_name :: after) st =
     Pipeline.run_stages external after
       (PipelineState.add_error st1 (String.append "Unknown stage: " stage_name))).
Proof.
  intros external. split; [|split].
  - intros clk question opts context r. subst r.
    unfold Pipeline.execute_pipeline. cbn [PipelineState.stages].
    destruct (run_fast_track_stages external question
                (PipelineState.mk_config
                   ["preprocessing"; "simple_reasoning"; "basic_validation"] opts)
                context (Pipeline.at_state clk))
      as (st & -> & Hr & Hc & He & _).
    cbn. rewrite Hr, Hc, He. split; [reflexivity|]. split.
    + eexists. split; [reflexivity|]. vm_compute. reflexivity.
    + eexists. split; [reflexivity|].
      rewrite py_len_app. change (py_len "基于简单推理的回答: ") with 11. lia.
  - intros clk question opts context stage_name Hunknown r. subst r.
    unfold Pipeline.execute_pipeline. cbn [PipelineState.stages Pipeline.run_stages].
    rewrite Hunknown. split; reflexivity.
  - intros before stage_name after st st1 Hunknown Hbefore.
    rewrite run_stages_app, Hbefore. cbn [Pipeline.run_stages].
    by rewrite Hunknown.
Qed.

Lemma pipeline_success_failure_contract_witness :
  let external : string -> PipelineState.t -> PipelineState.t + string :=
    fun _ st => inl st in
  let r := Pipeline.execute_pipeline external
             (Pipeline.mk_clock 10 10 11 11) ""
             (PipelineState.mk_config ["invalid_stage"] []) [] in
  Pipeline.stage_processors external "invalid_stage" = None /\
  Pipeline.run_stages external ["preprocessing"] (PipelineState.new "" (PipelineState.mk_config [] []) [] 10)
    = inl (Pipeline.PreprocessingStage (PipelineState.new "" (PipelineState.mk_config [] []) [] 10)) /\
  ProcessingResult.success r = PBool false /\
  ProcessingResult.errors r = PList [PStr "Unknown stage: invalid_stage"] /\
  Pipeline.run_stages external (["preprocessing"] ++ "invalid_stage" :: ["simple_reasoning"])
    (PipelineState.new "" (PipelineState.mk_config [] []) [] 10) =
  Pipeline.run_stages external ["simple_reasoning"]
    (PipelineState.add_error
       (Pipeline.PreprocessingStage (PipelineState.new "" (PipelineState.mk_config [] []) [] 10))
       "Unknown stage: invalid_stage").
Proof.
  intros external r.
  assert (H1 : Pipeline.stage_processors external "invalid_stage" = None)
    by reflexivity.
  assert (H2 : Pipeline.run_stages external ["preprocessing"]
                 (PipelineState.new "" (PipelineState.mk_config [] []) [] 10)
               = inl (Pipeline.PreprocessingStage
                        (PipelineState.new "" (PipelineState.mk_config [] []) [] 10)))
    by reflexivity.
  split; [exact H1|]. split; [exact H2|].
  destruct (pipeline_success_failure_contract external) as (_ & Hu & Hc).
  split; [exact (proj1 (Hu (Pipeline.mk_clock 10 10 11 11) "" [] [] _ H1))|].
  split; [exact (proj2 (Hu (Pipeline.mk_clock 10 10 11 11) "" [] [] _ H1))|].
  exact (Hc ["preprocessing"] "invalid_stage" ["simple_reasoning"] _ _ H1 H2).
Defined.

(** The result of an unknown stage carries its message in [errors]; the
    [error] field keeps its default. *)
Lemma unknown_stage_error_field :
  ProcessingResult.error
    (Pipeline.execute_pipeline (fun _ st => inl st) (Pipeline.mk_clock 10 10 11 11) ""
       (PipelineState.mk_config ["invalid_stage"] []) []) = PNone.
Proof. reflexivity. Qed.

(** ** ProcessingResult *)

(** C9: [from_dict (to_dict r)] is [r], field for field, and [from_dict]
    gives a missing field its default: the empty string, 0.0, false, the
    empty list or mapping, and [None] for [error]. *)
Theorem processing_result_round_trip :
  (forall r : ProcessingResult.t,
     ProcessingResult.from_dict (ProcessingResult.to_dict r) = r) /\
  (forall data : gmap string pyval,
     let r := ProcessingResult.from_dict data in
     (data !! "response" = None -> ProcessingResult.response r = PStr "") /\
     (data !! "confidence" = None -> ProcessingResult.confidence r = PFloat 0) /\
     (data !! "success" = None -> ProcessingResult.success r = PBool false) /\
     (data !! "processing_time" = None -> ProcessingResult.processing_time r = PFloat 0) /\
     (data !! "knowledge_sources" = None -> ProcessingResult.knowledge_sources r = PList []) /\
     (data !! "tool_results" = None -> ProcessingResult.tool_results r = PDict []) /\
     (data !! "validation_results" = None -> ProcessingResult.validation_results r = PDict []) /\
     (data !! "metadata" = None -> ProcessingResult.metadata r = PDict []) /\
     (data !! "errors" = None -> ProcessingResult.errors r = PList []) /\
     (data !! "error" = None -> ProcessingResult.error r = PNone)) /\
  (forall (data : gmap string pyval) (key : string) (v : pyval),
     data !! key = Some v ->
     forall default, ProcessingResult.get data key default = v).
Proof.
  split; [|split].
  - intros [].
    unfold ProcessingResult.from_dict, ProcessingResult.to_dict, ProcessingResult.get.
    cbn [list_to_map foldr curry fst snd ProcessingResult.response
         ProcessingResult.confidence ProcessingResult.success
         ProcessingResult.processing_time ProcessingResult.knowledge_sources
         ProcessingResult.tool_results ProcessingResult.validation_results
         ProcessingResult.metadata ProcessingResult.errors ProcessingResult.error].
    by repeat (rewrite ?lookup_insert_eq; rewrite ?lookup_insert_ne by done).
  - intros data r. subst r.
    unfold ProcessingResult.from_dict, ProcessingResult.get. cbn.
    repeat split; intros ->; reflexivity.
  - intros data key v Hk default. unfold ProcessingResult.get. by rewrite Hk.
Qed.

Lemma processing_result_round_trip_witness :
  ProcessingResult.from_dict ∅ = ProcessingResult.new /\
  ProcessingResult.get {["success" := PBool true]} "success" (PBool false) = PBool true.
Proof.
  destruct processing_result_round_trip as (_ & Hd & Hg).
  split.
  - destruct (Hd ∅) as (H1 & H2 & H3 & H4 & H5 & H6 & H7 & H8 & H9 & H10).
    destruct (ProcessingResult.from_dict ∅) eqn:E. cbn in *.
    rewrite H1, H2, H3, H4, H5, H6, H7, H8, H9, H10 by apply lookup_empty.
    reflexivity.
  - apply Hg. apply lookup_singleton_eq.
Defined.

(** ** Calculator *)
Section CalculatorFacts.
Import CalculatorTool.
Variable py_float : string -> float + string.
Variable _basic_calculation : string -> float + string.
Variable _scientific_calculation : string -> float + string.

Lemma convert_in_unsupported from_unit to_unit value :
  same_category from_unit to_unit = false ->
  convert_in conversion_factors from_unit to_unit value = None.
Proof.
  unfold same_category. generalize conversion_factors.
  induction l as [|[category units] rest IH]; simpl; [done|].
  intros Hs. apply orb_false_elim in Hs as [-> Hs]. by apply IH.
Qed.
End CalculatorFacts.

(** C7: 100 km is converted to exactly 100000.0 m and 32 fahrenheit to
    exactly 0.0 celsius; two units that no category table holds together
    give an error result whose message names the unsupported conversion
    and whose result is [None]. *)
Theorem calculator_unit_conversion :
  forall (py_float basic scientific : string -> float + string),
  (py_float "100" = inl 100%float ->
   CalculatorTool.execute py_float basic scientific
     [("type", "unit_conversion"); ("expression", "100");
      ("from_unit", "km"); ("to_unit", "m")] =
   [("result", PDict [("converted_value", PFloat 100000.0);
                      ("original_value", PFloat 100);
                      ("from_unit", PStr "km"); ("to_unit", PStr "m");
                      ("category", PStr "length")]);
    ("expression", PStr "100");
    ("calculation_type", PStr "unit_conversion");
    ("status", PStr "success")]) /\
  (py_float "32" = inl 32%float ->
   CalculatorTool.execute py_float basic scientific
     [("type", "unit_conversion"); ("expression", "32");
      ("from_unit", "fahrenheit"); ("to_unit", "celsius")] =
   [("result", PDict [("converted_value", PFloat 0.0);
                      ("original_value", PFloat 32);
                      ("from_unit", PStr "fahrenheit"); ("to_unit", PStr "celsius");
                      ("category", PStr "temperature")]);
    ("expression", PStr "32");
    ("calculation_type", PStr "unit_conversion");
    ("status", PStr "success")]) /\
  (forall params value,
     CalculatorTool.param params "type" "basic" = "unit_conversion" ->
     py_float (CalculatorTool.param params "expression" "") = inl value ->
     CalculatorTool.same_category
       (CalculatorTool.param params "from_unit" "")
       (CalculatorTool.param params "to_unit" "") = false ->
     CalculatorTool.execute py_float basic scientific params =
     [("result", PNone);
      ("expression", PStr (CalculatorTool.param params "expression" ""));
      ("error", PStr (String.append "Unsupported unit conversion: "
                        (String.append (CalculatorTool.param params "from_unit" "")
                           (String.append " to "
                              (CalculatorTool.param params "to_unit" "")))));
      ("status", PStr "error")]) /\
  (forall params,
     CalculatorTool.param params "type" "basic" = "unit_conversion" ->
     CalculatorTool.same_category
       (CalculatorTool.param params "from_unit" "")
       (CalculatorTool.param params "to_unit" "") = false ->
     let r := CalculatorTool.execute py_float basic scientific params in
     od_get "result" r = Some PNone /\ od_get "status" r = Some (PStr "error")).
Proof.
  intros py_float basic scientific. split; [|split; [|split]].
  - intros Hf. vm_compute. vm_compute in Hf. rewrite Hf. reflexivity.
  - intros Hf. vm_compute. vm_compute in Hf. rewrite Hf. reflexivity.
  - intros params value Ht Hf Hs.
    unfold CalculatorTool.execute, CalculatorTool._unit_conversion.
    rewrite Ht, Hf. cbn [String.eqb Ascii.eqb Bool.eqb].
    by rewrite (convert_in_unsupported _ _ value Hs).
  - intros params Ht Hs r. subst r.
    unfold CalculatorTool.execute, CalculatorTool._unit_conversion.
    rewrite Ht. cbn [String.eqb Ascii.eqb Bool.eqb].
    destruct (py_float _) as [value|e]; [|by split].
    by rewrite (convert_in_unsupported _ _ value Hs).
Qed.

Lemma calculator_unit_conversion_witness :
  let exec := CalculatorTool.execute decimal_examples decimal_examples decimal_examples in
  decimal_examples "100" = inl 100%float /\
  decimal_examples "32" = inl 32%float /\
  CalculatorTool.same_category "km" "kg" = false /\
  od_get "result"
    (exec [("type", "unit_conversion"); ("expression", "100");
           ("from_unit", "km"); ("to_unit", "m")]) =
    Some (PDict [("converted_value", PFloat 100000.0);
                 ("original_value", PFloat 100);
                 ("from_unit", PStr "km"); ("to_unit", PStr "m");
                 ("category", PStr "length")]) /\
  od_get "result"
    (exec [("type", "unit_conversion"); ("expression", "32");
           ("from_unit", "fahrenheit"); ("to_unit", "celsius")]) =
    Some (PDict [("converted_value", PFloat 0.0);
                 ("original_value", PFloat 32);
                 ("from_unit", PStr "fahrenheit"); ("to_unit", PStr "celsius");
                 ("category", PStr "temperature")]) /\
  od_get "error"
    (exec [("type", "unit_conversion"); ("expression", "100");
           ("from_unit", "km"); ("to_unit", "kg")]) =
    Some (PStr "Unsupported unit conversion: km to kg") /\
  od_get "status"
    (exec [("type", "unit_conversion"); ("expression", "abc");
           ("from_unit", "km"); ("to_unit", "kg")]) = Some (PStr "error").
Proof.
  intros exec. subst exec.
  destruct (calculator_unit_conversion decimal_examples decimal_examples decimal_examples)
    as (Hkm & Hf & Hu & He).
  assert (H100 : decimal_examples "100" = inl 100%float) by reflexivity.
  assert (H32 : decimal_examples "32" = inl 32%float) by reflexivity.
  assert (Hcat : CalculatorTool.same_category "km" "kg" = false) by reflexivity.
  split; [exact H100|]. split; [exact H32|]. split; [exact Hcat|].
  split; [rewrite (Hkm H100); reflexivity|].
  split; [rewrite (Hf H32); reflexivity|].
  split.
  - rewrite (Hu [("type", "unit_conversion"); ("expression", "100");
                 ("from_unit", "km"); ("to_unit", "kg")] 100%float
               eq_refl H100 Hcat). reflexivity.
  - exact (proj2 (He [("type", "unit_conversion"); ("expression", "abc");
                      ("from_unit", "km"); ("to_unit", "kg")] eq_refl Hcat)).
Defined.

(** ** MemoryCache *)
Section ODictFacts.
Context {V : Type}.

Lemma od_get_set_eq (k : string) (v : V) d : od_get k (od_set k v d) = Some v.
Proof.
  induction d as [|[k' v'] d IH]; simpl.
  - by rewrite decide_True.
  - destruct (decide (k = k')) as [->|Hne]; simpl.
    + by rewrite decide_True.
    + by rewrite decide_False.
Qed.

Lemma od_mem_set_eq (k : string) (v : V) d : od_mem k (od_set k v d) = true.
Proof. unfold od_mem. rewrite od_get_set_eq. by apply bool_decide_eq_true. Qed.
End ODictFacts.

Section MemoryCacheFacts.
Import MemoryCache.

(** A TTL of 0 is replaced by the default TTL, like an absent one. *)
Lemma set_ttl_zero_is_default {F} `{PyNum F} (c : t F) key value now :
  set c key value (Some 0%Z) now = set c key value None now.
Proof. reflexivity. Qed.

(** An entry whose expiry lies before the clock reading is reported absent
    and dropped from the cache by that [get]. *)
Lemma get_expired {F} `{PyNum F} (c : t F) key now now' :
  od_mem key (cache c) = true ->
  _is_expired c key now = true ->
  get c key now now' = ((delete c key).1, None) /\
  cache (get c key now now').1 = od_del key (cache c).
Proof.
  intros Hm He. unfold get, delete. rewrite Hm, He. by split.
Qed.

(** In exact arithmetic: an entry set with a negative TTL is absent at
    every later clock reading. *)
Lemma get_after_negative_ttl (c : t Q) key value (ttl : Z) (now later later' : Q) :
  (ttl < 0)%Z -> (now <= later)%Q ->
  (get (set c key value (Some ttl) now).1 key later later').2 = None.
Proof.
  intros Httl Hle. unfold set, get. cbn [fst snd cache].
  rewrite od_mem_set_eq. cbn [negb]. unfold _is_expired. cbn [expiry_times].
  rewrite od_get_set_eq.
  assert (E : effective_ttl
                (if (max_size c <=? Z.of_nat (length (cache c)))%Z
                    && negb (od_mem key (cache c))
                 then _evict_lru c else c) (Some ttl) = ttl).
  { unfold effective_ttl. destruct (Z.eqb_spec ttl 0); [lia|done]. }
  rewrite E.
  assert (Hlt : fltb (fadd now (of_int ttl)) later = true).
  { apply Q_fltb_true. simpl.
    assert (inject_Z ttl < 0)%Q by (change 0%Q with (inject_Z 0); by rewrite <- Zlt_Qlt).
    lra. }
  by rewrite Hlt.
Qed.
End MemoryCacheFacts.

(** C4 (the code does otherwise): a key set with TTL 0 at clock reading
    1000.0 in a cache with default TTL 3600 is still returned by [get] at
    1001.0, because [ttl or self.default_ttl] turns 0 into the default; its
    expiry is 4600.0. *)
Theorem memory_cache_ttl_zero_kept :
  let c0 := MemoryCache.new (F := float) 500 3600 in
  let c1 := (MemoryCache.set c0 "k" (PStr "v") (Some 0%Z) 1000%float).1 in
  (MemoryCache.get c1 "k" 1001%float 1001%float).2 = Some (PStr "v") /\
  od_get "k" (MemoryCache.expiry_times c1) = Some 4600%float.
Proof. split; vm_compute; reflexivity. Qed.

(** ** ProcessingRoute *)
Section RouteFacts.
Import ProcessingRoute.

Lemma observe_holds h a v :
  observe h a = Some v <->
  exists r, holds h a r (v_stages v) (v_context v) /\
    v_timeout v = timeout r /\ v_parallel_execution v = parallel_execution r /\
    v_model_preference v = model_preference r.
Proof.
  unfold observe, holds, get_route, get_list, get_dict. split.
  - intros Ho. destruct (h !! a) as [[r| |]|] eqn:Ea; simplify_eq/=.
    destruct (h !! stages r) as [[|l|]|] eqn:El; simplify_eq/=.
    destruct (h !! context r) as [[| |d]|] eqn:Ed; simplify_eq/=.
    by exists r.
  - intros (r & (Ea & El & Ed) & Ht & Hp & Hm). rewrite Ea. simpl.
    rewrite El. simpl. rewrite Ed. simpl. destruct v; simpl in *. by subst.
Qed.

Lemma holds_observe h a r l d :
  holds h a r l d ->
  observe h a = Some (mk_view l d (timeout r) (parallel_execution r) (model_preference r)).
Proof. intros Hh. apply observe_holds. by exists r. Qed.

Lemma separate_sym h a b : separate h a b -> separate h b a.
Proof.
  intros (ra & la & da & rb & lb & db & Ha & Hb & Hab & Hs & Hc).
  exists rb, lb, db, ra, la, da.
  split; [done|]. split; [done|]. repeat split; congruence.
Qed.

(** One operation on [a] succeeds, keeps [a] separate from [b], and leaves
    every cell of [b] as it was. *)
Lemma apply_separate h a b o :
  separate h a b ->
  exists h', apply h a o = Some h' /\ separate h' a b /\ observe h' b = observe h b.
Proof.
  intros (ra & la & da & rb & lb & db & Ha & Hb & Hab & Hs & Hc).
  destruct Ha as (Ea & Ela & Eda), Hb as (Eb & Elb & Edb).
  assert (Hk1 : stages ra <> a) by (intros E; rewrite E in Ela; congruence).
  assert (Hk2 : context ra <> a) by (intros E; rewrite E in Eda; congruence).
  assert (Hk3 : stages ra <> context ra) by (intros E; rewrite E in Ela; congruence).
  assert (Hk4 : stages ra <> b) by (intros E; rewrite E in Ela; congruence).
  assert (Hk5 : context ra <> b) by (intros E; rewrite E in Eda; congruence).
  assert (Hk6 : stages ra <> context rb) by (intros E; rewrite E in Ela; congruence).
  assert (Hk7 : context ra <> stages rb) by (intros E; rewrite E in Eda; congruence).
  assert (Hk8 : a <> stages rb) by (intros E; rewrite E in Ea; congruence).
  assert (Hk9 : a <> context rb) by (intros E; rewrite E in Ea; congruence).
  assert (Hob : forall h' : store,
            h' !! b = h !! b -> h' !! stages rb = h !! stages rb ->
            h' !! context rb = h !! context rb -> observe h' b = observe h b).
  { intros h' E1 E2 E3. unfold observe, get_route, get_list, get_dict.
    rewrite E1, Eb. simpl. by rewrite E2, E3. }
  destruct o as [s|s|k v|x|x|x]; simpl;
    unfold add_stage, remove_stage, add_context, set_timeout,
      set_model_preference, set_parallel_execution, get_route, get_list, get_dict;
    rewrite Ea; simpl; rewrite ?Ela, ?Eda; simpl.
  - destruct (bool_decide (s ∈ la)).
    + eexists; split; [done|]. split; [|done].
      exists ra, la, da, rb, lb, db. by repeat split.
    + eexists; split; [done|]. split.
      * exists ra, (la ++ [s]), da, rb, lb, db.
        unfold holds. rewrite lookup_insert_eq, !lookup_insert_ne by done.
        by repeat split.
      * apply Hob; by rewrite lookup_insert_ne.
  - destruct (bool_decide (s ∈ la)).
    + eexists; split; [done|]. split.
      * exists ra, (list_remove s la), da, rb, lb, db.
        unfold holds. rewrite lookup_insert_eq, !lookup_insert_ne by done.
        by repeat split.
      * apply Hob; by rewrite lookup_insert_ne.
    + eexists; split; [done|]. split; [|done].
      exists ra, la, da, rb, lb, db. by repeat split.
  - eexists; split; [done|]. split.
    + exists ra, la, (od_set k v da), rb, lb, db.
      unfold holds. rewrite lookup_insert_eq, !lookup_insert_ne by done.
      by repeat split.
    + apply Hob; by rewrite lookup_insert_ne.
  - eexists; split; [done|]. split.
    + eexists _, la, da, rb, lb, db.
      split; [split; [apply lookup_insert_eq|]; simpl;
              by rewrite !lookup_insert_ne by done|].
      split; [unfold holds; by rewrite !lookup_insert_ne by done|].
      simpl. by repeat split.
    + apply Hob; by rewrite lookup_insert_ne.
  - eexists; split; [done|]. split.
    + eexists _, la, da, rb, lb, db.
      split; [split; [apply lookup_insert_eq|]; simpl;
              by rewrite !lookup_insert_ne by done|].
      split; [unfold holds; by rewrite !lookup_insert_ne by done|].
      simpl. by repeat split.
    + apply Hob; by rewrite lookup_insert_ne.
  - eexists; split; [done|]. split.
    + eexists _, la, da, rb, lb, db.
      split; [split; [apply lookup_insert_eq|]; simpl;
              by rewrite !lookup_insert_ne by done|].
      split; [unfold holds; by rewrite !lookup_insert_ne by done|].
      simpl. by repeat split.
    + apply Hob; by rewrite lookup_insert_ne.
Qed.

Lemma apply_all_separate h a b os :
  separate h a b ->
  exists h', apply_all h a os = Some h' /\ separate h' a b /\ observe h' b = observe h b.
Proof.
  revert h. induction os as [|o os IH]; intros h Hsep; simpl.
  - by exists h.
  - destruct (apply_separate h a b o Hsep) as (h1 & -> & Hsep1 & Hob1). simpl.
    destruct (IH h1 Hsep1) as (h2 & -> & Hsep2 & Hob2).
    exists h2. split; [done|]. split; [done|]. by rewrite Hob2.
Qed.

(** [copy] builds a route out of new cells: it shows the view of the
    original, and every route of the old store keeps its view and is
    separate from the copy. *)
Lemma copy_fresh h a v :
  observe h a = Some v ->
  exists c h', copy h a = Some (c, h') /\ observe h' c = Some v /\
    forall b w, observe h b = Some w -> observe h' b = Some w /\ separate h' c b.
Proof.
  intros Ho. apply observe_holds in Ho as (r & (Ea & El & Ed) & Ht & Hp & Hm).
  unfold copy, get_route, get_list, get_dict. rewrite Ea. simpl.
  rewrite El. simpl. rewrite Ed. simpl. unfold new, alloc.
  set (l1 := fresh (dom h)).
  set (h1 := <[l1 := CList (v_stages v)]> h).
  set (d1 := fresh (dom h1)).
  set (h2 := <[d1 := CDict (v_context v)]> h1).
  set (c := fresh (dom h2)).
  set (rc := {| stages := l1; parallel_execution := parallel_execution r;
                timeout := timeout r; model_preference := model_preference r;
                context := d1 |}).
  assert (Hl1 : h !! l1 = None) by (apply not_elem_of_dom, is_fresh).
  assert (Hd1 : h1 !! d1 = None) by (apply not_elem_of_dom, is_fresh).
  assert (Hc : h2 !! c = None) by (apply not_elem_of_dom, is_fresh).
  assert (Hd1l : d1 <> l1).
  { intros E. rewrite E in Hd1. unfold h1 in Hd1. by rewrite lookup_insert_eq in Hd1. }
  assert (Hd1h : h !! d1 = None).
  { unfold h1 in Hd1. by rewrite lookup_insert_ne in Hd1. }
  assert (Hcd : c <> d1).
  { intros E. rewrite E in Hc. unfold h2 in Hc. by rewrite lookup_insert_eq in Hc. }
  assert (Hcl : c <> l1).
  { intros E. rewrite E in Hc. unfold h2, h1 in Hc.
    by rewrite lookup_insert_ne, lookup_insert_eq in Hc. }
  assert (Hch : h !! c = None).
  { unfold h2, h1 in Hc. by rewrite !lookup_insert_ne in Hc. }
  assert (Hold : forall x cl, h !! x = Some cl -> <[c := CRoute rc]> h2 !! x = Some cl).
  { intros x cl Hx. unfold h2, h1.
    rewrite !lookup_insert_ne; [done| | |]; intros E; subst x; congruence. }
  assert (Hhc : holds (<[c := CRoute rc]> h2) c rc (v_stages v) (v_context v)).
  { unfold holds. simpl. rewrite lookup_insert_eq. split; [done|]. split.
    - rewrite lookup_insert_ne by done. unfold h2.
      rewrite lookup_insert_ne by done. unfold h1. by rewrite lookup_insert_eq.
    - rewrite lookup_insert_ne by done. unfold h2. by rewrite lookup_insert_eq. }
  exists c, (<[c := CRoute rc]> h2). split; [reflexivity|]. split.
  - apply observe_holds. exists rc. split; [exact Hhc|]. by simpl.
  - intros b w Hb.
    apply observe_holds in Hb as (rb & (Eb & Elb & Edb) & Hbt & Hbp & Hbm).
    assert (Hhb : holds (<[c := CRoute rc]> h2) b rb (v_stages w) (v_context w)).
    { unfold holds. by rewrite !(Hold _ _ Eb), !(Hold _ _ Elb), !(Hold _ _ Edb). }
    split.
    + apply observe_holds. exists rb. by split.
    + exists rc, (v_stages v), (v_context v), rb, (v_stages w), (v_context w).
      split; [exact Hhc|]. split; [exact Hhb|]. simpl.
      split; [intros E; congruence|]. split; intros E; congruence.
Qed.
End RouteFacts.

(** C8: [r.copy()] is a route of its own with the same stage list,
    context, timeout, parallelism flag and model preference as [r];
    whatever stages are added or removed, context entries added or fields
    assigned on the copy, [r] shows what it showed before, and whatever is
    done to [r], the copy shows what it showed when it was made. *)
Theorem route_copy_independent :
  forall (h : gmap nat ProcessingRoute.cell) (r : nat) (v : ProcessingRoute.view),
    ProcessingRoute.observe h r = Some v ->
    exists c h1,
      ProcessingRoute.copy h r = Some (c, h1) /\ c <> r /\
      ProcessingRoute.observe h1 c = Some v /\
      ProcessingRoute.observe h1 r = Some v /\
      (forall os, exists h2,
         ProcessingRoute.apply_all h1 c os = Some h2 /\
         ProcessingRoute.observe h2 r = Some v) /\
      (forall os, exists h2,
         ProcessingRoute.apply_all h1 r os = Some h2 /\
         ProcessingRoute.observe h2 c = Some v).
Proof.
  intros h r v Ho.
  destruct (copy_fresh h r v Ho) as (c & h1 & Hcopy & Hc & Hold).
  destruct (Hold r v Ho) as [Hr Hsep].
  exists c, h1. split; [done|]. split.
  { destruct Hsep as (? & ? & ? & ? & ? & ? & _ & _ & Hne & _). exact Hne. }
  split; [done|]. split; [done|]. split.
  - intros os. destruct (apply_all_separate h1 c r os Hsep) as (h2 & E & _ & Ho2).
    exists h2. split; [done|]. by rewrite Ho2.
  - intros os.
    destruct (apply_all_separate h1 r c os (separate_sym _ _ _ Hsep)) as (h2 & E & _ & Ho2).
    exists h2. split; [done|]. by rewrite Ho2.
Qed.

Lemma route_copy_independent_witness :
  let fast_track :=
    ProcessingRoute.new ∅ ["preprocessing"; "simple_reasoning"; "basic_validation"]
      false 5%float "speed" [] in
  let v := ProcessingRoute.mk_view
             ["preprocessing"; "simple_reasoning"; "basic_validation"] []
             5%float false "speed" in
  ProcessingRoute.observe fast_track.2 fast_track.1 = Some v /\
  exists c h1,
    ProcessingRoute.copy fast_track.2 fast_track.1 = Some (c, h1) /\
    exists h2,
      ProcessingRoute.apply_all h1 c
        [ProcessingRoute.SetModelPreference "quality";
         ProcessingRoute.AddStage "fact_checking";
         ProcessingRoute.RemoveStage "preprocessing";
         ProcessingRoute.AddContext "selected_model" (PStr "qwen-max")] = Some h2 /\
      ProcessingRoute.observe h2 fast_track.1 = Some v.
Proof.
  intros fast_track v.
  assert (Hobs : ProcessingRoute.observe fast_track.2 fast_track.1 = Some v)
    by (vm_compute; reflexivity).
  split; [exact Hobs|].
  destruct (route_copy_independent _ _ _ Hobs) as (c & h1 & Hc & _ & _ & _ & Hops & _).
  exists c, h1. split; [exact Hc|]. apply Hops.
Defined.

(** ** Routing engine: the templates are never changed *)
Section RouterFacts.
Import ProcessingRoute IntelligentRoutingEngine.

Lemma copy_observed h a c h1 :
  copy h a = Some (c, h1) -> exists v, observe h a = Some v.
Proof.
  unfold copy, observe. intros Hc.
  destruct (get_route h a) as [r|]; simpl in *; [|done].
  destruct (get_list h (stages r)) as [l|]; simpl in *; [|done].
  destruct (get_dict h (context r)) as [d|]; simpl in *; [|done].
  by eexists.
Qed.

(** Operations on a fresh copy leave every route of the old store alone. *)
Lemma copy_then_ops h base c h1 os h2 :
  copy h base = Some (c, h1) ->
  apply_all h1 c os = Some h2 ->
  forall b w, observe h b = Some w -> observe h2 b = Some w.
Proof.
  intros Hcopy Hops b w Hb.
  destruct (copy_observed _ _ _ _ Hcopy) as [v Hv].
  destruct (copy_fresh h base v Hv) as (c' & h1' & Hcopy' & _ & Hold).
  rewrite Hcopy in Hcopy'. injection Hcopy' as <- <-.
  destruct (Hold b w Hb) as [Hb1 Hsep].
  destruct (apply_all_separate h1 c b os Hsep) as (h2' & E & _ & Ho).
  rewrite Hops in E. injection E as <-. by rewrite Ho.
Qed.

Lemma speed_optimized_preserves : preserves _create_speed_optimized_route.
Proof.
  intros h base c h' Hcr. unfold _create_speed_optimized_route in Hcr.
  destruct (copy h base) as [[c1 h1]|] eqn:Hcopy; simpl in Hcr; [|done].
  destruct (get_route h1 c1) as [r|]; simpl in Hcr; [|done].
  destruct (set_timeout h1 c1 _) as [h2|] eqn:E1; simpl in Hcr; [|done].
  destruct (set_model_preference h2 c1 _) as [h3|] eqn:E2; simpl in Hcr; [|done].
  destruct (remove_stage h3 c1 _) as [h4|] eqn:E3; simpl in Hcr; [|done].
  injection Hcr as <- <-.
  apply (copy_then_ops h base c1 h1
           [SetTimeout (py_min (timeout r) 10%float); SetModelPreference "speed";
            RemoveStage "multi_stage_validation"] h4 Hcopy).
  simpl. rewrite E1. simpl. rewrite E2. simpl. by rewrite E3.
Qed.

Lemma quality_optimized_preserves : preserves _create_quality_optimized_route.
Proof.
  intros h base c h' Hcr. unfold _create_quality_optimized_route in Hcr.
  destruct (copy h base) as [[c1 h1]|] eqn:Hcopy; simpl in Hcr; [|done].
  destruct (set_model_preference h1 c1 _) as [h2|] eqn:E1; simpl in Hcr; [|done].
  destruct (add_stage h2 c1 "fact_checking") as [h3|] eqn:E2; simpl in Hcr; [|done].
  destruct (add_stage h3 c1 _) as [h4|] eqn:E3; simpl in Hcr; [|done].
  injection Hcr as <- <-.
  apply (copy_then_ops h base c1 h1
           [SetModelPreference "quality"; AddStage "fact_checking";
            AddStage "expert_validation"] h4 Hcopy).
  simpl. rewrite E1. simpl. rewrite E2. simpl. by rewrite E3.
Qed.

Lemma resource_efficient_preserves : preserves _create_resource_efficient_route.
Proof.
  intros h base c h' Hcr. unfold _create_resource_efficient_route in Hcr.
  destruct (copy h base) as [[c1 h1]|] eqn:Hcopy; simpl in Hcr; [|done].
  destruct (set_parallel_execution h1 c1 _) as [h2|] eqn:E1; simpl in Hcr; [|done].
  destruct (set_model_preference h2 c1 _) as [h3|] eqn:E2; simpl in Hcr; [|done].
  destruct (remove_stage h3 c1 _) as [h4|] eqn:E3; simpl in Hcr; [|done].
  injection Hcr as <- <-.
  apply (copy_then_ops h base c1 h1
           [SetParallelExecution false; SetModelPreference "speed";
            RemoveStage "multi_source_retrieval"] h4 Hcopy).
  simpl. rewrite E1. simpl. rewrite E2. simpl. by rewrite E3.
Qed.

Lemma add_variant_preserves wanted create base acc acc' :
  preserves create ->
  add_variant wanted create base acc = Some acc' ->
  forall b w, observe acc.2 b = Some w -> observe acc'.2 b = Some w.
Proof.
  intros Hp Ha b w Hb. unfold add_variant in Ha. destruct wanted.
  - destruct (create acc.2 base) as [[c h']|] eqn:E; simpl in Ha; [|done].
    injection Ha as <-. simpl. by eapply Hp.
  - by injection Ha as <-.
Qed.

(** Whatever the classification, generating the candidate routes leaves
    every route that existed before, the templates among them, with the
    view it had. *)
Lemma candidate_routes_preserve_templates h templates classification load routes h' :
  _generate_candidate_routes h templates classification load = Some (routes, h') ->
  forall b w, observe h b = Some w -> observe h' b = Some w.
Proof.
  intros Hg b w Hb. unfold _generate_candidate_routes in Hg.
  destruct (od_get "recommended_strategy" classification) as [strategy|];
    simpl in Hg; [|done].
  destruct (match strategy with PStr s => od_get s templates | _ => None end)
    as [template|]; simpl in Hg; [|done].
  destruct (copy h template) as [[base h1]|] eqn:Hcopy; simpl in Hg; [|done].
  destruct (od_get "urgency_level" classification) as [urgency|]; simpl in Hg; [|done].
  destruct (add_variant _ _create_speed_optimized_route base _) as [acc1|] eqn:E1;
    simpl in Hg; [|done].
  destruct (od_get "domain_type" classification) as [domain|]; simpl in Hg; [|done].
  destruct (add_variant _ _create_quality_optimized_route base _) as [acc2|] eqn:E2;
    simpl in Hg; [|done].
  pose proof (copy_then_ops h template base h1 [] h1 Hcopy eq_refl b w Hb) as H1.
  pose proof (add_variant_preserves _ _ _ _ _ speed_optimized_preserves E1 b w H1) as H2.
  pose proof (add_variant_preserves _ _ _ _ _ quality_optimized_preserves E2 b w H2) as H3.
  exact (add_variant_preserves _ _ _ _ _ resource_efficient_preserves Hg b w H3).
Qed.
End RouterFacts.

(** ** Scheduler: the audit record *)
Section SchedulerFacts.
Import UnifiedScheduler.
Context {F : Type} `{PyNum F}.

(** Resource consumption is [stage_count * 0.1], times 1.3 for a parallel
    route. *)
Lemma resource_consumption_formula (route : list (string * pyval))
    (stage_names : list pyval) (parallel : bool) :
  od_get "stages" route = Some (PList stage_names) ->
  od_get "parallel_execution" route = Some (PBool parallel) ->
  _calculate_resource_consumption route =
  Some (if parallel
        then fmul (fmul (of_int (Z.of_nat (length stage_names))) (lit 0.1)) (lit 1.3)
        else fmul (of_int (Z.of_nat (length stage_names))) (lit 0.1)).
Proof.
  intros Hs Hp. unfold _calculate_resource_consumption, dict_get_default.
  rewrite Hs, Hp. reflexivity.
Qed.

(** The rate table is keyed by model name and read with the route's
    [model_preference]; for each of the three preference tags the routing
    engine uses, the rate is the default 0.001. *)
Lemma cost_of_preference_tag (route : list (string * pyval)) (tag : string)
    (processing_time : F) :
  od_get "model_preference" route = Some (PStr tag) ->
  tag ∈ ["speed"; "balanced"; "quality"] ->
  _calculate_cost route processing_time = fmul (lit 0.001) processing_time.
Proof.
  intros Hm Ht. unfold _calculate_cost, dict_get_default. rewrite Hm.
  repeat (apply elem_of_cons in Ht as [->|Ht]; [reflexivity|]).
  by apply elem_of_nil in Ht.
Qed.

(** With a model name in that field the rate follows the tier. *)
Lemma cost_of_model_name (route : list (string * pyval)) (processing_time : F) :
  (od_get "model_preference" route = Some (PStr "qwen-turbo") ->
   _calculate_cost route processing_time = fmul (lit 0.001) processing_time) /\
  (od_get "model_preference" route = Some (PStr "qwen-plus") ->
   _calculate_cost route processing_time = fmul (lit 0.002) processing_time) /\
  (od_get "model_preference" route = Some (PStr "qwen-max") ->
   _calculate_cost route processing_time = fmul (lit 0.005) processing_time).
Proof.
  unfold _calculate_cost, dict_get_default.
  repeat split; intros ->; reflexivity.
Qed.
End SchedulerFacts.

(** C5 (the code does otherwise): for the comprehensive route, whose model
    is qwen-max, and a processing time of 2.0 the audit record has
    resource consumption 5 * 0.1 * 1.3 = 0.65 as stated, but a cost of
    0.001 * 2.0 = 0.002 instead of 0.005 * 2.0 = 0.01: the rate is looked
    up under the preference tag 'quality', which is no key of the table. *)
Theorem interaction_cost_ignores_model_tier :
  let route :=
    [("stages", PList [PStr "preprocessing"; PStr "multi_source_retrieval";
                       PStr "tool_orchestration"; PStr "advanced_reasoning";
                       PStr "multi_stage_validation"]);
     ("parallel_execution", PBool true);
     ("timeout", PFloat 30);
     ("model_preference", PStr "quality");
     ("context", PDict [("selected_model",
                         PStr (IntelligentRoutingEngine._select_model "quality" 4))])] in
  let data := UnifiedScheduler._create_interaction_data (F := float)
                "q" [("complexity_level", PInt 4)] route ProcessingResult.new 2%float in
  IntelligentRoutingEngine._select_model "quality" 4 = "qwen-max" /\
  UnifiedScheduler.resource_consumption <$> data = Some 0.65%float /\
  UnifiedScheduler.cost_per_interaction <$> data = Some 0.002%float /\
  PrimFloat.mul (lit 0.005) 2 = 0.01%float.
Proof. repeat split; vm_compute; reflexivity. Qed.

(** ** Classifier *)
Section ClassifierFacts.
Import MultiDimensionalClassifier.
Variable lcut : string -> list string.
Variable domain_analyze : string -> pyval.
Variable tool_requirement_analyze : string -> list (string * pyval).
Variable freshness_analyze : string -> list (string * pyval).
Variable user_context_analyze :
  list (string * pyval) -> list pyval -> list (string * pyval).

(** The strategy when the urgency entry is a mapping, as [analyze] returns
    it: the comparison with ['high'] is false, and the first branch is
    never taken. *)
Lemma determine_strategy_of_mapping (a : analysis_result) d :
  urgency a = PDict d ->
  _determine_strategy a =
  if (4 <=? complexity a)%Z then Some "comprehensive"
  else match od_get "required" (tool_needs a) with
       | None => None
       | Some required =>
           Some (if py_truthy required then "tool_assisted" else "standard")
       end.
Proof. intros Hu. unfold _determine_strategy. by rewrite Hu. Qed.

(** No question is ever classified as fast_track. *)
Lemma classify_never_fast_track question user_context conversation_history decision :
  classify_question lcut domain_analyze tool_requirement_analyze freshness_analyze
    user_context_analyze question user_context conversation_history = Some decision ->
  od_get "recommended_strategy" decision <> Some (PStr "fast_track").
Proof.
  unfold classify_question, synthesize_routing_decision. intros Hc.
  set (a := analyze_all _ _ _ _ _ _ _ _) in Hc.
  rewrite (determine_strategy_of_mapping a _ eq_refl) in Hc.
  destruct (od_get "required" (tool_needs a)) as [required|]; [|done].
  destruct (od_get "requires_fresh" (freshness_need a)); [|done].
  destruct (od_get "expertise_level" (user_profile a)); [|done].
  destruct (4 <=? complexity a)%Z, (py_truthy required);
    injection Hc as <-; intros E; vm_compute in E; discriminate E.
Qed.

Lemma urgent_question_complexity :
  ComplexityAnalyzer.analyze lcut "紧急问题，马上解决" = 0%Z.
Proof.
  unfold ComplexityAnalyzer.analyze, ComplexityAnalyzer.complexity_score,
    ComplexityAnalyzer.calculate_lexical_complexity.
  destruct (length (lcut "紧急问题，马上解决") <=? 5);
    [|destruct (length (lcut "紧急问题，马上解决") <=? 10);
      [|destruct (length (lcut "紧急问题，马上解决") <=? 20)]];
    vm_compute; reflexivity.
Qed.
End ClassifierFacts.

(** C1 (the code does otherwise): for the question "紧急问题，马上解决" the
    urgency analysis is high and the complexity level is 0, yet the
    recommended strategy is tool_assisted or standard, as the tool analyzer
    decides, and not fast_track: [analyze] returns a mapping, and the
    strategy compares that mapping itself with ['high']. *)
Theorem urgent_simple_question_not_fast_track :
  forall (lcut : string -> list string) (domain_analyze : string -> pyval)
         (tool_requirement_analyze freshness_analyze : string -> list (string * pyval))
         (user_context_analyze :
            list (string * pyval) -> list pyval -> list (string * pyval)),
    let question := "紧急问题，马上解决" in
    let a := MultiDimensionalClassifier.analyze_all lcut domain_analyze
               tool_requirement_analyze freshness_analyze user_context_analyze
               question [] [] in
    dict_get "urgency_level" (match MultiDimensionalClassifier.urgency a with
                              | PDict d => d | _ => [] end) = PStr "high" /\
    MultiDimensionalClassifier.complexity a = 0%Z /\
    MultiDimensionalClassifier._determine_strategy a =
      match od_get "required" (tool_requirement_analyze question) with
      | None => None
      | Some required =>
          Some (if py_truthy required then "tool_assisted" else "standard")
      end /\
    MultiDimensionalClassifier._determine_strategy a <> Some "fast_track".
Proof.
  intros lcut domain_analyze tool_requirement_analyze freshness_analyze
    user_context_analyze question a.
  assert (Hc : MultiDimensionalClassifier.complexity a = 0%Z)
    by apply urgent_question_complexity.
  assert (Hs : MultiDimensionalClassifier._determine_strategy a =
               match od_get "required" (tool_requirement_analyze question) with
               | None => None
               | Some required =>
                   Some (if py_truthy required then "tool_assisted" else "standard")
               end).
  { rewrite (determine_strategy_of_mapping a _ eq_refl), Hc. reflexivity. }
  split; [vm_compute; reflexivity|]. split; [exact Hc|]. split; [exact Hs|].
  rewrite Hs. destruct (od_get "required" _) as [required|]; [|done].
  by destruct (py_truthy required).
Qed.

(** ** Tool orchestrator: execution plan *)
Section ListRemoveFacts.

Lemma list_remove_subset x t l : x ∈ list_remove t l -> x ∈ l.
Proof.
  induction l as [|y l IH]; simpl; [done|].
  destruct (decide (t = y)); [by right|].
  intros [->|Hx]%elem_of_cons; [left|right; auto].
Qed.

Lemma list_remove_other x t l : x ∈ l -> x <> t -> x ∈ list_remove t l.
Proof.
  induction l as [|y l IH]; simpl; [done|]. intros Hx Hne.
  destruct (decide (t = y)) as [->|Hty].
  - apply elem_of_cons in Hx as [->|Hx]; done.
  - apply elem_of_cons in Hx as [->|Hx]; [left|right; auto].
Qed.

Lemma list_remove_length_le t l : length (list_remove t l) <= length l.
Proof.
  induction l as [|y l IH]; simpl; [done|].
  destruct (decide (t = y)); simpl; lia.
Qed.

Lemma list_remove_length_lt t l : t ∈ l -> length (list_remove t l) < length l.
Proof.
  induction l as [|y l IH]; simpl; [by intros ?%elem_of_nil|].
  destruct (decide (t = y)) as [->|Hne]; simpl; [lia|].
  intros [->|Ht]%elem_of_cons; [done|]. specialize (IH Ht). lia.
Qed.

Lemma remove_all_subset x group remaining :
  x ∈ remove_all group remaining -> x ∈ remaining.
Proof.
  unfold remove_all. revert remaining.
  induction group as [|t group IH]; intros remaining; simpl; [done|].
  intros Hx. apply IH in Hx. by eapply list_remove_subset.
Qed.

Lemma remove_all_other x group remaining :
  x ∈ remaining -> x ∉ group -> x ∈ remove_all group remaining.
Proof.
  unfold remove_all. revert remaining.
  induction group as [|t group IH]; intros remaining; simpl; [done|].
  intros Hx Hn. apply not_elem_of_cons in Hn as [Hne Hn].
  apply IH; [|done]. by apply list_remove_other.
Qed.

Lemma remove_all_length_le group remaining :
  length (remove_all group remaining) <= length remaining.
Proof.
  unfold remove_all. revert remaining.
  induction group as [|t group IH]; intros remaining; simpl; [done|].
  etrans; [apply IH|]. apply list_remove_length_le.
Qed.

Lemma remove_all_length_lt t group remaining :
  t ∈ remaining -> length (remove_all (t :: group) remaining) < length remaining.
Proof.
  intros Ht. unfold remove_all. simpl.
  eapply Nat.le_lt_trans; [apply remove_all_length_le|].
  by apply list_remove_length_lt.
Qed.
End ListRemoveFacts.

Section GroupFacts.
Import ToolOrchestrator.
Variable nodes : list (string * node).
(** A tool [w] without input dependencies, and a tool [c] that depends on
    it. *)
Variables w c : string.
Hypothesis w_free : forall nd, od_get w nodes = Some nd -> input_deps nd = [].
Hypothesis c_needs_w : forall nd, od_get c nodes = Some nd -> w ∈ input_deps nd.

Lemma collect_group_grows remaining todo acc group :
  collect_group nodes remaining todo acc = Some group ->
  exists more, group = acc ++ more /\ forall x, x ∈ more -> x ∈ todo.
Proof using Type.
  revert acc. induction todo as [|t todo IH]; intros acc; simpl.
  - intros [= <-]. exists []. by rewrite app_nil_r.
  - destruct (od_get t nodes) as [nd|]; [|done]. intros Hg.
    apply IH in Hg as (more & -> & Hmore).
    destruct (_ && _).
    + exists (t :: more). rewrite <- app_assoc. split; [done|].
      intros x [->|Hx]%elem_of_cons; [left|right; auto].
    + exists more. split; [done|]. intros x Hx. right. auto.
Qed.

(** While [w] is still to be run, [c] is not collected. *)
Lemma collect_group_waits remaining todo acc group :
  collect_group nodes remaining todo acc = Some group ->
  w ∈ remaining -> c ∉ acc -> c ∉ group.
Proof using c_needs_w.
  intros Hg Hw. revert acc Hg. induction todo as [|t todo IH]; intros acc; simpl.
  - by intros [= <-].
  - destruct (od_get t nodes) as [nd|] eqn:Et; [|done]. intros Hg Hacc.
    apply IH in Hg; [done|].
    destruct (forallb _ _ && _) eqn:Eb; [|done].
    apply not_elem_of_app. split; [done|].
    intros ->%list_elem_of_singleton.
    apply andb_true_iff in Eb as [Ef _].
    rewrite forallb_forall in Ef.
    specialize (Ef w). rewrite <- list_elem_of_In in Ef.
    specialize (Ef (c_needs_w _ Et)).
    apply negb_true_iff, bool_decide_eq_false in Ef. done.
Qed.

(** A round that still has [w] to run collects something. *)
Lemma collect_group_nonempty remaining todo acc group :
  collect_group nodes remaining todo acc = Some group ->
  w ∈ todo \/ acc <> [] -> group <> [].
Proof using w_free.
  clear c_needs_w. revert acc. induction todo as [|t todo IH]; intros acc; simpl.
  - intros [= <-] [Hw|Hacc]; [by apply elem_of_nil in Hw|done].
  - destruct (od_get t nodes) as [nd|] eqn:Et; [|done]. intros Hg Hor.
    apply IH in Hg; [done|].
    destruct Hor as [[->|Hw]%elem_of_cons|Hacc].
    + right. rewrite (w_free _ Et). simpl.
      destruct (length acc <? max_parallel_tools) eqn:El.
      * by destruct acc.
      * apply Nat.ltb_ge in El. unfold max_parallel_tools in El.
        destruct acc; simpl in El; [lia|done].
    + by left.
    + right. destruct (_ && _); [by destruct acc|done].
Qed.
End GroupFacts.

Section GroupLoopFacts.
Import ToolOrchestrator.
Variable nodes : list (string * node).
Variables w c : string.
Hypothesis w_free : forall nd, od_get w nodes = Some nd -> input_deps nd = [].
Hypothesis c_needs_w : forall nd, od_get c nodes = Some nd -> w ∈ input_deps nd.

(** One round of [group_loop], spelled out. *)
Lemma group_loop_step fuel first rest groups :
  group_loop (S fuel) nodes (first :: rest) = Some groups ->
  exists collected group tail,
    collect_group nodes (first :: rest) (first :: rest) [] = Some collected /\
    group = match collected with [] => [first] | _ => collected end /\
    group_loop fuel nodes (remove_all group (first :: rest)) = Some tail /\
    groups = group :: tail.
Proof using Type.
  cbn [group_loop]. intros Hg.
  destruct (collect_group nodes (first :: rest) (first :: rest) [])
    as [collected|] eqn:Hc; [|done].
  cbn [mbind option_bind] in Hg.
  destruct (group_loop fuel nodes _) as [tail|] eqn:Ht; [|done].
  injection Hg as <-.
  exists collected, (match collected with [] => [first] | _ => collected end), tail.
  split; [done|]. split; [done|]. split; [exact Ht|done].
Qed.

Lemma first_group_subset first rest collected x :
  collect_group nodes (first :: rest) (first :: rest) [] = Some collected ->
  x ∈ match collected with [] => [first] | _ => collected end ->
  x ∈ first :: rest.
Proof using Type.
  intros Hc Hx. apply collect_group_grows in Hc as (more & -> & Hmore).
  destruct more as [|y more]; simpl in Hx.
  - apply list_elem_of_singleton in Hx as ->. left.
  - by apply Hmore.
Qed.

(** Every tool of a group was still to be run when the group was made. *)
Lemma group_loop_subset fuel remaining groups :
  group_loop fuel nodes remaining = Some groups ->
  forall group x, group ∈ groups -> x ∈ group -> x ∈ remaining.
Proof using Type.
  revert remaining groups. induction fuel as [|fuel IH]; intros remaining groups.
  - destruct remaining; simpl; [|done]. intros [= <-] group x Hg.
    by apply elem_of_nil in Hg.
  - destruct remaining as [|first rest]; [simpl; intros [= <-] group x Hg;
      by apply elem_of_nil in Hg|].
    intros (collected & group0 & tail & Hc & -> & Ht & ->)%group_loop_step group x.
    intros [->|Hg]%elem_of_cons Hx.
    + by eapply first_group_subset.
    + eapply remove_all_subset. by eapply IH.
Qed.

(** [w] is placed in a strictly earlier group than [c]. *)
Lemma group_loop_order fuel remaining groups :
  group_loop fuel nodes remaining = Some groups ->
  forall i j gi gj,
    groups !! i = Some gi -> groups !! j = Some gj ->
    w ∈ gi -> c ∈ gj -> i < j.
Proof using w_free c_needs_w.
  revert remaining groups. induction fuel as [|fuel IH]; intros remaining groups.
  - destruct remaining; simpl; [|done]. by intros [= <-] i j gi gj Hi.
  - destruct remaining as [|first rest]; [by simpl; intros [= <-] i j gi gj Hi|].
    intros Hloop.
    pose proof (group_loop_subset _ _ _ Hloop) as Hsub.
    apply group_loop_step in Hloop as (collected & group0 & tail & Hc & Hg0 & Ht & ->).
    (* when [w] is still to be run, the first group holds no [c] *)
    assert (Hfirst : w ∈ first :: rest -> c ∉ group0).
    { intros Hw. subst group0.
      pose proof (collect_group_nonempty nodes w w_free _ _ _ _ Hc (or_introl Hw)) as Hne.
      pose proof (collect_group_waits nodes w c c_needs_w _ _ _ _ Hc Hw
                    (not_elem_of_nil c)) as Hnc.
      by destruct collected. }
    intros i j gi gj Hi Hj Hwi Hcj.
    assert (Hw : w ∈ first :: rest).
    { eapply Hsub; [|exact Hwi]. by eapply list_elem_of_lookup_2. }
    destruct j as [|j].
    + simpl in Hj. injection Hj as <-. by destruct (Hfirst Hw).
    + destruct i as [|i]; [lia|]. simpl in Hi, Hj.
      specialize (IH _ _ Ht i j gi gj Hi Hj Hwi Hcj). lia.
Qed.

(** Every tool that was to be run is in some group. *)
Lemma group_loop_covers fuel remaining groups :
  group_loop fuel nodes remaining = Some groups ->
  forall x, x ∈ remaining -> exists i group, groups !! i = Some group /\ x ∈ group.
Proof using Type.
  revert remaining groups. induction fuel as [|fuel IH]; intros remaining groups.
  - destruct remaining; simpl; [|done]. intros _ x Hx. by apply elem_of_nil in Hx.
  - destruct remaining as [|first rest];
      [intros _ x Hx; by apply elem_of_nil in Hx|].
    intros (collected & group0 & tail & Hc & Hg0 & Ht & ->)%group_loop_step x Hx.
    destruct (decide (x ∈ group0)) as [Hin|Hout].
    + by exists 0, group0.
    + destruct (IH _ _ Ht x (remove_all_other _ _ _ Hx Hout)) as (i & group & Hi & Hxg).
      by exists (S i), group.
Qed.

(** With a round for every tool the loop comes to its end. *)
Lemma group_loop_total fuel remaining :
  (forall x, x ∈ remaining -> is_Some (od_get x nodes)) ->
  length remaining <= fuel ->
  is_Some (group_loop fuel nodes remaining).
Proof using Type.
  revert remaining. induction fuel as [|fuel IH]; intros remaining Hnodes Hlen.
  - destruct remaining; [by eexists|simpl in Hlen; lia].
  - destruct remaining as [|first rest]; [by eexists|].
    cbn [group_loop].
    assert (Hcol : forall todo acc, (forall x, x ∈ todo -> x ∈ first :: rest) ->
              is_Some (collect_group nodes (first :: rest) todo acc)).
    { induction todo as [|t todo IHt]; intros acc Hsub; simpl; [by eexists|].
      destruct (Hnodes t (Hsub t (list_elem_of_here _ _))) as [nd ->].
      apply IHt. intros x Hx. apply Hsub. by right. }
    destruct (Hcol (first :: rest) [] (fun _ H => H)) as [collected Hc].
    rewrite Hc. simpl.
    set (group0 := match collected with [] => [first] | _ => collected end).
    fold (remove_all group0 (first :: rest)).
    assert (Hlt : length (remove_all group0 (first :: rest)) < length (first :: rest)).
    { assert (Hg : exists t more, group0 = t :: more /\ t ∈ first :: rest).
      { subst group0. destruct collected as [|t more] eqn:E.
        - exists first, []. split; [done|left].
        - exists t, more. split; [done|].
          eapply (first_group_subset first rest collected); [by subst|].
          subst. left. }
      destruct Hg as (t & more & -> & Ht). by apply remove_all_length_lt. }
    destruct (IH (remove_all group0 (first :: rest))) as [tail ->].
    + intros x Hx. apply Hnodes. by eapply remove_all_subset.
    + simpl in Hlt, Hlen. lia.
    + by eexists.
Qed.
End GroupLoopFacts.

Section ODictKeyFacts.
Context {V : Type}.
Implicit Types d : list (string * V).

Lemma od_keys_get x d : x ∈ od_keys d <-> is_Some (od_get x d).
Proof.
  unfold od_keys. induction d as [|[k v] d IH]; simpl.
  - split; [by intros ?%elem_of_nil|by intros [? ?]].
  - destruct (decide (x = k)) as [->|Hne].
    + split; [by eexists|left].
    + rewrite elem_of_cons, IH. split; [intros [?|?]; done|by right].
Qed.

Lemma od_get_set_ne x k (v : V) d : x <> k -> od_get x (od_set k v d) = od_get x d.
Proof.
  intros Hne. induction d as [|[k' v'] d IH]; simpl.
  - by rewrite decide_False.
  - destruct (decide (k = k')) as [->|Hk]; simpl.
    + by rewrite !decide_False.
    + destruct (decide (x = k')); [done|apply IH].
Qed.

Lemma od_del_keys_subset x t d : x ∈ od_keys (od_del t d) -> x ∈ od_keys d.
Proof.
  unfold od_keys. induction d as [|[k v] d IH]; simpl; [done|].
  destruct (decide (t = k)); [by right|]. simpl.
  intros [->|Hx]%elem_of_cons; [left|right; auto].
Qed.

Lemma od_del_keys_other x t d :
  x ∈ od_keys d -> x <> t -> x ∈ od_keys (od_del t d).
Proof.
  unfold od_keys. induction d as [|[k v] d IH]; simpl; [done|]. intros Hx Hne.
  destruct (decide (t = k)) as [->|Hk].
  - apply elem_of_cons in Hx as [->|Hx]; done.
  - simpl. apply elem_of_cons in Hx as [->|Hx]; [left|right; auto].
Qed.

Lemma od_del_length_le t d : length (od_del t d) <= length d.
Proof.
  induction d as [|[k v] d IH]; simpl; [done|].
  destruct (decide (t = k)); simpl; lia.
Qed.

Lemma od_del_length_lt t d : t ∈ od_keys d -> length (od_del t d) < length d.
Proof.
  unfold od_keys. induction d as [|[k v] d IH]; simpl; [by intros ?%elem_of_nil|].
  destruct (decide (t = k)) as [->|Hne]; simpl; [lia|].
  intros [->|Ht]%elem_of_cons; [done|]. specialize (IH Ht). lia.
Qed.
End ODictKeyFacts.

Section TopologicalFacts.
Import ToolOrchestrator.
Implicit Types temp : list (string * list string).

Lemma release_keys temp t : od_keys (release temp t) = od_keys (od_del t temp).
Proof.
  unfold release, od_keys. rewrite map_map. apply map_ext. by intros [k deps].
Qed.

Lemma release_length temp t : length (release temp t) = length (od_del t temp).
Proof. unfold release. by rewrite length_map. Qed.

Lemma released_keys_subset x ready temp :
  x ∈ od_keys (fold_left release ready temp) -> x ∈ od_keys temp.
Proof.
  revert temp. induction ready as [|t ready IH]; intros temp; simpl; [done|].
  intros Hx%IH. rewrite release_keys in Hx. by eapply od_del_keys_subset.
Qed.

Lemma released_keys_other x ready temp :
  x ∈ od_keys temp -> x ∉ ready -> x ∈ od_keys (fold_left release ready temp).
Proof.
  revert temp. induction ready as [|t ready IH]; intros temp; simpl; [done|].
  intros Hx [Hne Hn]%not_elem_of_cons. apply IH; [|done].
  rewrite release_keys. by apply od_del_keys_other.
Qed.

Lemma released_length_le ready temp :
  length (fold_left release ready temp) <= length temp.
Proof.
  revert temp. induction ready as [|t ready IH]; intros temp; simpl; [done|].
  etrans; [apply IH|]. rewrite release_length. apply od_del_length_le.
Qed.

Lemma released_length_lt t ready temp :
  t ∈ od_keys temp -> length (fold_left release (t :: ready) temp) < length temp.
Proof.
  intros Ht. simpl. eapply Nat.le_lt_trans; [apply released_length_le|].
  rewrite release_length. by apply od_del_length_lt.
Qed.

Lemma ready_subset x temp :
  x ∈ od_keys (filter (fun kv => kv.2 = []) temp) -> x ∈ od_keys temp.
Proof.
  unfold od_keys. rewrite !list_elem_of_fmap.
  intros (kv & -> & Hkv%list_elem_of_filter). exists kv. by destruct Hkv.
Qed.

(** The order holds the tools already placed and those of the graph, and
    no others. *)
Lemma topological_loop_elements fuel temp result order :
  topological_loop fuel temp result = Some order ->
  forall x, x ∈ order <-> x ∈ result \/ x ∈ od_keys temp.
Proof.
  revert temp result. induction fuel as [|fuel IH]; intros temp result.
  - destruct temp; simpl; [|done]. intros [= <-] x. unfold od_keys. simpl.
    rewrite elem_of_nil. tauto.
  - destruct temp as [|kv temp'] eqn:Etemp.
    { simpl. intros [= <-] x. unfold od_keys. simpl. rewrite elem_of_nil. tauto. }
    rewrite <- Etemp. cbn [topological_loop]. rewrite Etemp at 1.
    destruct (od_keys (filter (fun kv => kv.2 = []) temp)) as [|t ready] eqn:Er.
    + intros [= <-] x. by rewrite elem_of_app.
    + intros Hloop x. rewrite (IH _ _ Hloop x), elem_of_app, <- Er. split.
      * intros [[Hx|Hx]|Hx]; [by left|right|right].
        -- by apply ready_subset.
        -- by eapply released_keys_subset.
      * intros [Hx|Hx]; [by left; left|].
        destruct (decide (x ∈ od_keys (filter (fun kv => kv.2 = []) temp)));
          [by left; right|right].
        by apply released_keys_other.
Qed.

Lemma topological_loop_total fuel temp result :
  length temp <= fuel -> is_Some (topological_loop fuel temp result).
Proof.
  revert temp result. induction fuel as [|fuel IH]; intros temp result Hlen.
  - destruct temp; [by eexists|simpl in Hlen; lia].
  - destruct temp as [|kv temp'] eqn:Etemp; [by eexists|].
    rewrite <- Etemp. cbn [topological_loop]. rewrite Etemp at 1.
    destruct (od_keys (filter (fun kv => kv.2 = []) temp)) as [|t ready] eqn:Er;
      [by eexists|].
    apply IH.
    assert (Ht : t ∈ od_keys temp).
    { apply ready_subset. rewrite Er. left. }
    pose proof (released_length_lt t ready temp Ht) as Hlt.
    pose proof (f_equal length Etemp) as El. simpl in El, Hlen. lia.
Qed.
End TopologicalFacts.

Section PlanFacts.
Import ToolOrchestrator.

Lemma add_requirements_input_deps all_requirements tool_requirements nodes :
  (forall n nd, od_get n nodes = Some nd ->
     input_deps nd = analyze_input_dependencies n) ->
  forall n nd,
    od_get n (add_requirements all_requirements nodes tool_requirements) = Some nd ->
    input_deps nd = analyze_input_dependencies n.
Proof.
  unfold add_requirements. revert nodes.
  induction tool_requirements as [|t reqs IH]; intros nodes Hinv; simpl; [done|].
  apply IH. destruct (get_tool t); [|done].
  intros n nd. unfold add_tool. destruct (decide (n = t)) as [->|Hne].
  - rewrite od_get_set_eq. by intros [= <-].
  - rewrite od_get_set_ne by done. apply Hinv.
Qed.

Lemma add_requirements_keeps all_requirements tool_requirements nodes n :
  is_Some (od_get n nodes) ->
  is_Some (od_get n (add_requirements all_requirements nodes tool_requirements)).
Proof.
  unfold add_requirements. revert nodes.
  induction tool_requirements as [|t reqs IH]; intros nodes Hn; simpl; [done|].
  apply IH. destruct (get_tool t); [|done]. unfold add_tool.
  destruct (decide (n = t)) as [->|Hne].
  - rewrite od_get_set_eq. by eexists.
  - by rewrite od_get_set_ne.
Qed.

Lemma add_requirements_has all_requirements tool_requirements nodes n :
  n ∈ tool_requirements -> get_tool n = true ->
  is_Some (od_get n (add_requirements all_requirements nodes tool_requirements)).
Proof.
  revert nodes.
  induction tool_requirements as [|t reqs IH]; intros nodes Hn Hreg;
    [by apply elem_of_nil in Hn|].
  apply elem_of_cons in Hn as [->|Hn].
  - unfold add_requirements. simpl. rewrite Hreg.
    apply add_requirements_keeps. unfold add_tool. rewrite od_get_set_eq. by eexists.
  - unfold add_requirements. simpl. by apply IH.
Qed.

Lemma temp_graph_keys (nodes : list (string * node)) :
  od_keys (map (fun kv => (kv.1, input_deps kv.2)) nodes) = od_keys nodes.
Proof. unfold od_keys. rewrite map_map. by apply map_ext. Qed.
End PlanFacts.

(** C6: when web_search and calculator are both requested, an execution
    plan is produced, each of the two is in one of its groups, and every
    group holding web_search comes before every group holding calculator:
    never later, and never the same group either. *)
Theorem web_search_before_calculator :
  forall tool_requirements : list string,
    "web_search" ∈ tool_requirements ->
    "calculator" ∈ tool_requirements ->
    exists plan,
      ToolOrchestrator.generate_execution_plan
        (ToolOrchestrator.analyze_tool_dependencies tool_requirements) = Some plan /\
      (exists i gi, plan !! i = Some gi /\ "web_search" ∈ gi) /\
      (exists j gj, plan !! j = Some gj /\ "calculator" ∈ gj) /\
      (forall i j gi gj,
         plan !! i = Some gi -> plan !! j = Some gj ->
         "web_search" ∈ gi -> "calculator" ∈ gj -> i <= j /\ i <> j).
Proof.
  intros reqs Hw Hc.
  set (nodes := ToolOrchestrator.analyze_tool_dependencies reqs).
  assert (Hdeps : forall n nd, od_get n nodes = Some nd ->
            ToolOrchestrator.input_deps nd = ToolOrchestrator.analyze_input_dependencies n).
  { apply (add_requirements_input_deps reqs reqs []). by intros n nd. }
  assert (Hwn : is_Some (od_get "web_search" nodes))
    by (by apply (add_requirements_has reqs reqs [])).
  assert (Hcn : is_Some (od_get "calculator" nodes))
    by (by apply (add_requirements_has reqs reqs [])).
  unfold ToolOrchestrator.generate_execution_plan, ToolOrchestrator.topological_sort.
  destruct (topological_loop_total (length nodes)
              (map (fun kv => (kv.1, ToolOrchestrator.input_deps kv.2)) nodes) [])
    as [order Ho]; [by rewrite length_map|].
  rewrite Ho. simpl.
  pose proof (topological_loop_elements _ _ _ _ Ho) as Hel.
  assert (Hin : forall x, x ∈ order <-> is_Some (od_get x nodes)).
  { intros x. rewrite Hel, temp_graph_keys, od_keys_get, elem_of_nil. tauto. }
  unfold ToolOrchestrator._identify_parallel_groups.
  destruct (group_loop_total nodes (length order) order) as [plan Hp];
    [by intros x ?%Hin|done|].
  exists plan. split; [done|].
  split; [by apply (group_loop_covers nodes _ _ _ Hp), Hin|].
  split; [by apply (group_loop_covers nodes _ _ _ Hp), Hin|].
  intros i j gi gj Hi Hj Hwi Hcj.
  assert (i < j); [|lia].
  eapply (group_loop_order nodes "web_search" "calculator"); [| |done..].
  - intros nd Hnd. by rewrite (Hdeps _ _ Hnd).
  - intros nd Hnd. rewrite (Hdeps _ _ Hnd). left.
Qed.

Lemma web_search_before_calculator_witness :
  "web_search" ∈ ["calculator"; "web_search"] /\
  "calculator" ∈ ["calculator"; "web_search"] /\
  ToolOrchestrator.generate_execution_plan
    (ToolOrchestrator.analyze_tool_dependencies ["calculator"; "web_search"]) =
  Some [["web_search"]; ["calculator"]] /\
  exists plan,
    ToolOrchestrator.generate_execution_plan
      (ToolOrchestrator.analyze_tool_dependencies ["calculator"; "web_search"]) =
    Some plan /\
    forall i j gi gj,
      plan !! i = Some gi -> plan !! j = Some gj ->
      "web_search" ∈ gi -> "calculator" ∈ gj -> i <= j /\ i <> j.
Proof.
  assert (Hw : "web_search" ∈ ["calculator"; "web_search"])
    by (apply (bool_decide_unpack _); vm_compute; exact I).
  assert (Hc : "calculator" ∈ ["calculator"; "web_search"])
    by (apply (bool_decide_unpack _); vm_compute; exact I).
  split; [exact Hw|]. split; [exact Hc|]. split; [vm_compute; reflexivity|].
  destruct (web_search_before_calculator _ Hw Hc) as (plan & Hp & _ & _ & Ho).
  exists plan. by split.
Defined.

(** ** Execution plans of arbitrary dependency graphs *)
Section PlanShape.
Import ToolOrchestrator.

Lemma list_remove_perm t l : t ∈ l -> l ≡ₚ t :: list_remove t l.
Proof.
  induction l as [|y l IH]; simpl; [by intros ?%elem_of_nil|].
  destruct (decide (t = y)) as [->|Hne]; [done|].
  intros [->|Ht]%elem_of_cons; [done|].
  rewrite (IH Ht) at 1. apply Permutation_swap.
Qed.

Lemma remove_all_perm group remaining :
  group ⊆+ remaining -> remaining ≡ₚ group ++ remove_all group remaining.
Proof.
  unfold remove_all. revert remaining.
  induction group as [|t group IH]; intros remaining Hsub; simpl; [done|].
  assert (Ht : t ∈ remaining).
  { eapply elem_of_submseteq; [|exact Hsub]. left. }
  pose proof (list_remove_perm t remaining Ht) as Hp.
  assert (Hsub' : group ⊆+ list_remove t remaining).
  { rewrite Hp in Hsub. by apply (submseteq_app_inv_l _ _ [t]). }
  rewrite <- (IH _ Hsub'). done.
Qed.

Lemma collect_group_sublist nodes remaining todo acc group :
  collect_group nodes remaining todo acc = Some group ->
  exists more, group = acc ++ more /\ sublist more todo.
Proof.
  revert acc. induction todo as [|t todo IH]; intros acc; simpl.
  - intros [= <-]. exists []. by rewrite app_nil_r.
  - destruct (od_get t nodes) as [nd|]; [|done]. intros Hg.
    apply IH in Hg as (more & -> & Hmore).
    destruct (_ && _).
    + exists (t :: more). rewrite <- app_assoc. split; [done|].
      by apply sublist_skip.
    + exists more. split; [done|]. by apply sublist_cons.
Qed.

Lemma collect_group_length nodes remaining todo acc group :
  collect_group nodes remaining todo acc = Some group ->
  length acc <= max_parallel_tools -> length group <= max_parallel_tools.
Proof.
  revert acc. induction todo as [|t todo IH]; intros acc; simpl.
  - by intros [= <-].
  - destruct (od_get t nodes) as [nd|]; [|done]. intros Hg Hlen.
    apply IH in Hg; [done|].
    destruct (forallb _ _); simpl; [|done].
    destruct (length acc <? max_parallel_tools) eqn:El; [|done].
    apply Nat.ltb_lt in El. rewrite length_app. simpl. lia.
Qed.

(** The groups of a finished loop: a permutation of the tools to run, each
    group with at least one and at most three tools. *)
Lemma group_loop_shape fuel nodes remaining groups :
  group_loop fuel nodes remaining = Some groups ->
  concat groups ≡ₚ remaining /\
  Forall (fun group => 1 <= length group <= max_parallel_tools) groups.
Proof.
  revert remaining groups. induction fuel as [|fuel IH]; intros remaining groups.
  - destruct remaining; simpl; [|done]. by intros [= <-].
  - destruct remaining as [|first rest]; [by simpl; intros [= <-]|].
    intros (collected & group0 & tail & Hc & Hg0 & Ht & ->)%group_loop_step.
    destruct (IH _ _ Ht) as [Hperm Hsizes].
    pose proof (collect_group_sublist _ _ _ _ _ Hc) as (more & Hmore & Hsub).
    simpl in Hmore. subst collected.
    pose proof (collect_group_length _ _ _ _ _ Hc) as Hlen.
    assert (Hsub0 : group0 ⊆+ first :: rest).
    { subst group0. destruct more as [|y more'].
      - apply singleton_submseteq_l. left.
      - by apply sublist_submseteq. }
    split.
    + simpl. rewrite Hperm. symmetry. by apply remove_all_perm.
    + constructor; [|done]. subst group0. destruct more as [|y more'].
      * simpl. unfold max_parallel_tools. lia.
      * split; [simpl; lia|]. apply Hlen. simpl. lia.
Qed.

Lemma release_keys_remove temp t :
  od_keys (release temp t) = list_remove t (od_keys temp).
Proof.
  rewrite release_keys. unfold od_keys.
  induction temp as [|[k deps] temp IH]; simpl; [done|].
  destruct (decide (t = k)); [done|]. simpl. by rewrite IH.
Qed.

Lemma released_keys_remove_all ready temp :
  od_keys (fold_left release ready temp) = remove_all ready (od_keys temp).
Proof.
  unfold remove_all. revert temp.
  induction ready as [|t ready IH]; intros temp; simpl; [done|].
  by rewrite IH, release_keys_remove.
Qed.

Lemma ready_sublist (temp : list (string * list string)) :
  sublist (od_keys (filter (fun kv => kv.2 = []) temp)) (od_keys temp).
Proof.
  unfold od_keys. apply (fmap_sublist fst), sublist_filter.
Qed.

(** The order is a permutation of the tools already placed and those of
    the graph. *)
Lemma topological_loop_perm fuel temp result order :
  topological_loop fuel temp result = Some order ->
  order ≡ₚ result ++ od_keys temp.
Proof.
  revert temp result. induction fuel as [|fuel IH]; intros temp result.
  - destruct temp; simpl; [|done]. intros [= <-]. by rewrite app_nil_r.
  - destruct temp as [|kv temp'] eqn:Etemp.
    { simpl. intros [= <-]. by rewrite app_nil_r. }
    rewrite <- Etemp. cbn [topological_loop]. rewrite Etemp at 1.
    destruct (od_keys (filter (fun kv => kv.2 = []) temp)) as [|t ready] eqn:Er.
    + by intros [= <-].
    + intros Hloop. rewrite (IH _ _ Hloop), released_keys_remove_all, <- app_assoc.
      apply Permutation_app_head. symmetry. apply remove_all_perm.
      rewrite <- Er. apply sublist_submseteq, ready_sublist.
Qed.
End PlanShape.

Section PlanShapeTop.
Import ToolOrchestrator.

Lemma topological_loop_prefix fuel temp result order :
  topological_loop fuel temp result = Some order -> result `prefix_of` order.
Proof.
  revert temp result. induction fuel as [|fuel IH]; intros temp result.
  - destruct temp; simpl; [|done]. by intros [= <-].
  - destruct temp as [|kv temp'] eqn:Etemp; [by simpl; intros [= <-]|].
    rewrite <- Etemp. cbn [topological_loop]. rewrite Etemp at 1.
    destruct (od_keys (filter (fun kv => kv.2 = []) temp)) as [|t ready] eqn:Er.
    + intros [= <-]. by apply prefix_app_r.
    + intros Hloop%IH. etrans; [|exact Hloop]. by apply prefix_app_r.
Qed.
End PlanShapeTop.

(** Every graph has an order, a permutation of its tools. *)
Lemma topological_sort_order (nodes : list (string * ToolOrchestrator.node)) :
  exists order,
    ToolOrchestrator.topological_sort nodes = Some order /\ order ≡ₚ od_keys nodes.
Proof.
  unfold ToolOrchestrator.topological_sort.
  destruct (topological_loop_total (length nodes)
              (map (fun kv => (kv.1, ToolOrchestrator.input_deps kv.2)) nodes) [])
    as [order Ho]; [by rewrite length_map|].
  exists order. split; [done|].
  rewrite (topological_loop_perm _ _ _ _ Ho). simpl. by rewrite temp_graph_keys.
Qed.

(** X1: [topological_sort] ends for every graph, cyclic or not, and its
    order holds every tool of the graph exactly as often as the graph does;
    the tools without input dependencies come first, in graph order. *)
Theorem topological_sort_permutation :
  forall nodes : list (string * ToolOrchestrator.node),
    exists order,
      ToolOrchestrator.topological_sort nodes = Some order /\
      order ≡ₚ od_keys nodes /\
      od_keys (filter (fun kv => ToolOrchestrator.input_deps kv.2 = []) nodes)
        `prefix_of` order.
Proof.
  intros nodes. destruct (topological_sort_order nodes) as (order & Ho & Hperm).
  exists order. split; [done|]. split; [done|].
  unfold ToolOrchestrator.topological_sort in Ho.
  set (temp := map (fun kv => (kv.1, ToolOrchestrator.input_deps kv.2)) nodes) in Ho.
  assert (Hready : od_keys (filter (fun kv => kv.2 = []) temp) =
            od_keys (filter (fun kv => ToolOrchestrator.input_deps kv.2 = []) nodes)).
  { unfold temp, od_keys. clear.
    induction nodes as [|[k nd] nodes IH]; simpl; [done|].
    rewrite !filter_cons. simpl.
    destruct (decide (ToolOrchestrator.input_deps nd = [])); simpl; by rewrite IH. }
  rewrite <- Hready.
  destruct nodes as [|kv nodes'] eqn:En.
  { simpl in *. injection Ho as <-. done. }
  destruct temp as [|kv' temp'] eqn:Et; [done|].
  rewrite <- Et in *. simpl length in Ho. cbn [ToolOrchestrator.topological_loop] in Ho.
  rewrite Et in Ho at 1.
  destruct (od_keys (filter (fun kv => kv.2 = []) temp)) as [|t ready] eqn:Er.
  - apply prefix_nil.
  - by apply topological_loop_prefix in Ho.
Qed.

(** X2: for every dependency graph an execution plan is produced; its
    groups together hold every tool of the graph exactly as often as the
    graph does, and each group has at least one and at most three tools. *)
Theorem execution_plan_shape :
  forall nodes : list (string * ToolOrchestrator.node),
    exists plan,
      ToolOrchestrator.generate_execution_plan nodes = Some plan /\
      concat plan ≡ₚ od_keys nodes /\
      Forall (fun group => 1 <= length group <= 3) plan.
Proof.
  intros nodes. unfold ToolOrchestrator.generate_execution_plan.
  destruct (topological_sort_order nodes) as (order & -> & Hperm). simpl.
  unfold ToolOrchestrator._identify_parallel_groups.
  destruct (group_loop_total nodes (length order) order) as [plan Hp]; [|done|].
  { intros x Hx. apply od_keys_get. by rewrite <- Hperm. }
  exists plan. split; [done|].
  destruct (group_loop_shape _ _ _ _ Hp) as [Hc Hs]. split; [by rewrite Hc|done].
Qed.

(** X3: in the plan of any graph, a tool that has no input dependencies
    is placed in a strictly earlier group than every tool that names it
    as an input dependency. *)
Theorem plan_runs_free_dependency_first :
  forall (nodes : list (string * ToolOrchestrator.node)) (w c : string) ndw ndc plan,
    od_get w nodes = Some ndw -> ToolOrchestrator.input_deps ndw = [] ->
    od_get c nodes = Some ndc -> w ∈ ToolOrchestrator.input_deps ndc ->
    ToolOrchestrator.generate_execution_plan nodes = Some plan ->
    forall i j gi gj,
      plan !! i = Some gi -> plan !! j = Some gj -> w ∈ gi -> c ∈ gj -> i < j.
Proof.
  intros nodes w c ndw ndc plan Hw Hfree Hc Hdep Hplan.
  unfold ToolOrchestrator.generate_execution_plan in Hplan.
  destruct (ToolOrchestrator.topological_sort nodes) as [order|]; [|done].
  simpl in Hplan. unfold ToolOrchestrator._identify_parallel_groups in Hplan.
  apply (group_loop_order nodes w c) with (fuel := length order) (remaining := order).
  - intros nd Hnd. rewrite Hw in Hnd. by injection Hnd as <-.
  - intros nd Hnd. rewrite Hc in Hnd. by injection Hnd as <-.
  - done.
Qed.

Lemma plan_runs_free_dependency_first_witness :
  let nodes := ToolOrchestrator.analyze_tool_dependencies
                 ["translator"; "calculator"; "rag_retrieval"] in
  ToolOrchestrator.generate_execution_plan nodes =
    Some [["translator"; "rag_retrieval"]; ["calculator"]] /\
  forall i j gi gj,
    [["translator"; "rag_retrieval"]; ["calculator"]] !! i = Some gi ->
    [["translator"; "rag_retrieval"]; ["calculator"]] !! j = Some gj ->
    "rag_retrieval" ∈ gi -> "calculator" ∈ gj -> i < j.
Proof.
  intros nodes.
  assert (Hp : ToolOrchestrator.generate_execution_plan nodes =
               Some [["translator"; "rag_retrieval"]; ["calculator"]])
    by (vm_compute; reflexivity).
  split; [exact Hp|].
  apply (plan_runs_free_dependency_first nodes "rag_retrieval" "calculator"
           (ToolOrchestrator.mk_node [] ["calculator"] "pending")
           (ToolOrchestrator.mk_node ["web_search"; "rag_retrieval"] [] "pending")).
  - vm_compute; reflexivity.
  - reflexivity.
  - vm_compute; reflexivity.
  - apply (bool_decide_unpack _). vm_compute. exact I.
  - exact Hp.
Defined.

(** ** Routing engine: the candidates *)
Section CandidateFacts.
Import ProcessingRoute IntelligentRoutingEngine.

Lemma add_variant_routes wanted create base acc acc' :
  add_variant wanted create base acc = Some acc' ->
  exists extra, acc'.1 = acc.1 ++ extra /\ length extra <= 1.
Proof.
  unfold add_variant. destruct wanted.
  - destruct (create acc.2 base) as [[c h']|]; simpl; [|done].
    intros [= <-]. exists [c]. by simpl.
  - intros [= <-]. exists []. split; [by rewrite app_nil_r|simpl; lia].
Qed.
End CandidateFacts.

(** X4: [_generate_candidate_routes] leaves every route that existed
    before, the four templates among them, exactly as it was; the first
    candidate is a new route showing what the chosen template shows, still
    so after the variants were derived from it, and at most three variants
    follow it. *)
Theorem candidate_routes_frame :
  forall (h : gmap nat ProcessingRoute.cell) (templates : list (string * nat))
         (classification : list (string * pyval)) (is_high_load : bool) routes h',
    IntelligentRoutingEngine._generate_candidate_routes h templates classification
      is_high_load = Some (routes, h') ->
    (forall b w, ProcessingRoute.observe h b = Some w ->
                 ProcessingRoute.observe h' b = Some w) /\
    exists strategy template v base variants,
      od_get "recommended_strategy" classification = Some (PStr strategy) /\
      od_get strategy templates = Some template /\
      ProcessingRoute.observe h template = Some v /\
      routes = base :: variants /\ length variants <= 3 /\
      base <> template /\ h !! base = None /\
      ProcessingRoute.observe h' base = Some v.
Proof.
  intros h templates classification load routes h' Hg.
  split; [by eapply candidate_routes_preserve_templates|].
  unfold IntelligentRoutingEngine._generate_candidate_routes in Hg.
  destruct (od_get "recommended_strategy" classification) as [strategy|] eqn:Es;
    simpl in Hg; [|done].
  destruct strategy as [| | | |s| |]; simpl in Hg; try done.
  destruct (od_get s templates) as [template|] eqn:Et; simpl in Hg; [|done].
  destruct (ProcessingRoute.copy h template) as [[base h1]|] eqn:Hcopy;
    simpl in Hg; [|done].
  destruct (od_get "urgency_level" classification) as [urgency|]; simpl in Hg; [|done].
  destruct (IntelligentRoutingEngine.add_variant _
              IntelligentRoutingEngine._create_speed_optimized_route base _)
    as [acc1|] eqn:E1; simpl in Hg; [|done].
  destruct (od_get "domain_type" classification) as [domain|]; simpl in Hg; [|done].
  destruct (IntelligentRoutingEngine.add_variant _
              IntelligentRoutingEngine._create_quality_optimized_route base _)
    as [acc2|] eqn:E2; simpl in Hg; [|done].
  destruct (copy_observed _ _ _ _ Hcopy) as [v Hv].
  destruct (copy_fresh h template v Hv) as (c' & h1' & Hcopy' & Hbase & Hold).
  rewrite Hcopy in Hcopy'. injection Hcopy' as <- <-.
  destruct (Hold template v Hv) as [_ Hsep].
  pose proof (add_variant_preserves _ _ _ _ _ speed_optimized_preserves E1 base v Hbase) as H2.
  pose proof (add_variant_preserves _ _ _ _ _ quality_optimized_preserves E2 base v H2) as H3.
  pose proof (add_variant_preserves _ _ _ _ _ resource_efficient_preserves Hg base v H3) as H4.
  destruct (add_variant_routes _ _ _ _ _ E1) as (x1 & Hx1 & Hl1).
  destruct (add_variant_routes _ _ _ _ _ E2) as (x2 & Hx2 & Hl2).
  destruct (add_variant_routes _ _ _ _ _ Hg) as (x3 & Hx3 & Hl3).
  simpl in Hx1, Hx3, H4. rewrite Hx2, Hx1 in Hx3.
  exists s, template, v, base, (x1 ++ x2 ++ x3).
  split; [done|]. split; [done|]. split; [done|].
  split; [by rewrite Hx3, <- !app_assoc|].
  split; [rewrite !length_app; lia|].
  destruct Hsep as (rb & lb & db & rt & lt & dt & _ & _ & Hne & _).
  split; [done|]. split; [|done].
  (* the base route is a new cell *)
  unfold ProcessingRoute.copy in Hcopy.
  destruct (ProcessingRoute.get_route h template) as [r|]; simpl in Hcopy; [|done].
  destruct (ProcessingRoute.get_list h _) as [l|]; simpl in Hcopy; [|done].
  destruct (ProcessingRoute.get_dict h _) as [d|]; simpl in Hcopy; [|done].
  unfold ProcessingRoute.new, ProcessingRoute.alloc in Hcopy.
  injection Hcopy as <- _.
  set (l1 := fresh (dom h)).
  set (h1' := <[l1 := ProcessingRoute.CList l]> h).
  set (d1 := fresh (dom h1')).
  set (h2' := <[d1 := ProcessingRoute.CDict d]> h1').
  assert (Hc : h2' !! fresh (dom h2') = None) by (apply not_elem_of_dom, is_fresh).
  unfold h2', h1' in Hc.
  apply lookup_insert_None in Hc as [Hc _].
  by apply lookup_insert_None in Hc as [Hc _].
Qed.

Lemma candidate_routes_frame_witness :
  let init := IntelligentRoutingEngine._initialize_route_templates ∅ in
  let classification :=
    [("recommended_strategy", PStr "comprehensive");
     ("urgency_level", PStr "high"); ("domain_type", PStr "technical")] in
  exists routes h',
    IntelligentRoutingEngine._generate_candidate_routes init.2 init.1
      classification true = Some (routes, h') /\
    length routes = 4 /\
    forall b w, ProcessingRoute.observe init.2 b = Some w ->
                ProcessingRoute.observe h' b = Some w.
Proof.
  intros init classification.
  assert (Hrun : exists routes h',
            IntelligentRoutingEngine._generate_candidate_routes init.2 init.1
              classification true = Some (routes, h') /\ length routes = 4).
  { vm_compute. eexists _, _. split; reflexivity. }
  destruct Hrun as (routes & h' & Hg & Hlen).
  exists routes, h'. split; [exact Hg|]. split; [exact Hlen|].
  exact (proj1 (candidate_routes_frame _ _ _ _ _ _ Hg)).
Defined.

(** ** Route selection, in exact arithmetic *)
Section SelectionFacts.
Import RouteSelection.
Context {R : Type}.
Local Open Scope Q_scope.

(** What the loop maintains: the best score is at least the start score and
    at least every score seen; the best route, if any, was seen with the
    best score, which then exceeds the start score. *)
Lemma select_loop (l : list (R * Q)) (best : option R) (score start : Q)
    (seen : list (R * Q)) :
  start <= score ->
  (forall r s, (r, s) ∈ seen -> s <= score) ->
  (forall r, best = Some r -> start < score /\ exists s, (r, s) ∈ seen /\ s == score) ->
  (best = None -> score == start) ->
  let out := fold_left consider l (best, score) in
  start <= out.2 /\
  (forall r s, (r, s) ∈ seen ++ l -> s <= out.2) /\
  (forall r, out.1 = Some r ->
     start < out.2 /\ exists s, (r, s) ∈ seen ++ l /\ s == out.2) /\
  (out.1 = None -> out.2 == start).
Proof.
  revert best score seen. induction l as [|[r0 s0] l IH];
    intros best score seen Hstart Hseen Hbest Hnone; simpl.
  - rewrite app_nil_r. done.
  - destruct (Qlt_le_dec score s0) as [E|E].
    + assert (Hc : consider (best, score) (r0, s0) = (Some r0, s0)).
      { unfold consider. simpl.
        assert (Qle_bool s0 score = false) as ->; [|done].
        apply not_true_iff_false. rewrite Qle_bool_iff. by apply Qlt_not_le. }
      rewrite Hc.
      specialize (IH (Some r0) s0 (seen ++ [(r0, s0)])).
      rewrite <- app_assoc in IH. simpl in IH. apply IH.
      * lra.
      * intros r s [Hin|Hin%list_elem_of_singleton]%elem_of_app.
        -- specialize (Hseen r s Hin). lra.
        -- injection Hin as -> ->. lra.
      * intros r [= <-]. split; [lra|]. exists s0. split; [|reflexivity].
        apply elem_of_app. right. left.
      * done.
    + assert (Hc : consider (best, score) (r0, s0) = (best, score)).
      { unfold consider. simpl.
        assert (Qle_bool s0 score = true) as ->; [|done]. by apply Qle_bool_iff. }
      rewrite Hc.
      specialize (IH best score (seen ++ [(r0, s0)])).
      rewrite <- app_assoc in IH. simpl in IH. apply IH.
      * done.
      * intros r s [Hin|Hin%list_elem_of_singleton]%elem_of_app.
        -- by apply (Hseen r).
        -- by injection Hin as -> ->.
      * intros r Hr. destruct (Hbest r Hr) as [Hlt (s & Hin & Hs)].
        split; [done|]. exists s. split; [|done]. apply elem_of_app. by left.
      * done.
Qed.
End SelectionFacts.

(** X5: in exact arithmetic [_select_optimal_route] returns a route of the
    list whose score is above -1 and at least every score of the list; it
    returns nothing exactly when no score is above -1. *)
Theorem select_optimal_route_is_best :
  forall (R : Type) (evaluated : list (R * Q)),
    (forall r, RouteSelection._select_optimal_route evaluated = Some r ->
       exists s, (r, s) ∈ evaluated /\ (-1 < s)%Q /\
                 forall r' s', (r', s') ∈ evaluated -> (s' <= s)%Q) /\
    (RouteSelection._select_optimal_route evaluated = None <->
     forall r s, (r, s) ∈ evaluated -> (s <= -1)%Q).
Proof.
  intros R evaluated. unfold RouteSelection._select_optimal_route.
  destruct (select_loop evaluated None (-1) (-1) [])
    as (Hstart & Hmax & Hsome & Hnone).
  - apply Qle_refl.
  - intros r s Hin. by apply elem_of_nil in Hin.
  - done.
  - reflexivity.
  - simpl in *. change (of_int (-1)) with (-1)%Q. split.
    + intros r Hr. destruct (Hsome r Hr) as [Hlt (s & Hin & Hs)].
      exists s. split; [done|]. split; [by rewrite Hs|].
      intros r' s' Hin'. rewrite Hs. by eapply Hmax.
    + split.
      * intros Hn r s Hin. rewrite <- (Hnone Hn). by eapply Hmax.
      * intros Hall.
        destruct (fold_left RouteSelection.consider evaluated (None, (-1)%Q)).1
          as [r|] eqn:E; [|done].
        destruct (Hsome r eq_refl) as [Hlt (s & Hin & Hs)].
        specialize (Hall r s Hin). lra.
Qed.

Lemma select_optimal_route_is_best_witness :
  let evaluated := [("base", 0.5%Q); ("speed", 0.9%Q); ("quality", 0.9%Q)] in
  RouteSelection._select_optimal_route evaluated = Some "speed" /\
  exists s, ("speed", s) ∈ evaluated /\ (-1 < s)%Q /\
            forall r' s', (r', s') ∈ evaluated -> (s' <= s)%Q.
Proof.
  intros evaluated.
  assert (Hsel : RouteSelection._select_optimal_route evaluated = Some "speed")
    by reflexivity.
  split; [exact Hsel|].
  exact (proj1 (select_optimal_route_is_best string evaluated) "speed" Hsel).
Defined.

(** ** MemoryCache: alignment and capacity *)
Section ODictShape.
Context {V : Type}.
Implicit Types d : list (string * V).

Lemma od_keys_set k (v : V) d :
  od_keys (od_set k v d) =
  if decide (k ∈ od_keys d) then od_keys d else od_keys d ++ [k].
Proof.
  unfold od_keys. induction d as [|[k' v'] d IH]; simpl; [done|].
  destruct (decide (k = k')) as [->|Hne]; simpl.
  - rewrite decide_True; [done|left].
  - rewrite IH. destruct (decide (k ∈ map fst d)) as [Hin|Hout].
    + rewrite decide_True; [done|by right].
    + rewrite decide_False; [done|]. by intros [?|?]%elem_of_cons.
Qed.

Lemma od_keys_del k d : od_keys (od_del k d) = list_remove k (od_keys d).
Proof.
  unfold od_keys. induction d as [|[k' v'] d IH]; simpl; [done|].
  destruct (decide (k = k')); [done|]. simpl. by rewrite IH.
Qed.

Lemma od_keys_length d : length (od_keys d) = length d.
Proof. unfold od_keys. apply length_map. Qed.

Lemma od_mem_keys k d : od_mem k d = true <-> k ∈ od_keys d.
Proof. unfold od_mem. rewrite bool_decide_eq_true. symmetry. apply od_keys_get. Qed.
End ODictShape.

Lemma list_remove_NoDup t l : NoDup l -> NoDup (list_remove t l).
Proof.
  induction 1 as [|y l Hy Hl IH]; simpl; [constructor|].
  destruct (decide (t = y)); [done|]. constructor; [|done].
  intros Hin. apply Hy. by eapply list_remove_subset.
Qed.

Lemma list_remove_absent t l : NoDup l -> t ∉ list_remove t l.
Proof.
  induction 1 as [|y l Hy Hl IH]; simpl; [apply not_elem_of_nil|].
  destruct (decide (t = y)) as [->|Hne]; [done|].
  by apply not_elem_of_cons.
Qed.

Section MemoryCacheShape.
Import MemoryCache MemoryCacheOps.
Context {F : Type} `{PyNum F}.
Implicit Types c : MemoryCache.t F.

Lemma min_key_in (best : string * F) d :
  min_key best d ∈ best.1 :: od_keys d.
Proof.
  revert best. unfold od_keys. induction d as [|kv d IH]; intros best; simpl; [left|].
  specialize (IH (if fltb kv.2 best.2 then kv else best)).
  destruct (fltb kv.2 best.2).
  - right. exact IH.
  - apply elem_of_cons in IH as [->|IH]; [left|right; by right].
Qed.

Lemma delete_aligned c key : aligned c -> aligned (delete c key).1.
Proof.
  intros (Ha & He & Hnd). unfold delete. destruct (od_mem key (cache c)); [|done].
  unfold aligned. simpl. rewrite !od_keys_del, Ha, He.
  split; [done|]. split; [done|]. by apply list_remove_NoDup.
Qed.

Lemma evict_aligned c : aligned c -> aligned (_evict_lru c).
Proof.
  intros Hal. unfold _evict_lru. destruct (access_times c); [done|].
  by apply delete_aligned.
Qed.

Lemma insert_aligned c key value now expiry :
  aligned c ->
  aligned {| max_size := max_size c; default_ttl := default_ttl c;
             cache := od_set key value (cache c);
             access_times := od_set key now (access_times c);
             expiry_times := od_set key expiry (expiry_times c) |}.
Proof.
  intros (Ha & He & Hnd). unfold aligned. simpl.
  rewrite !od_keys_set, Ha, He. split; [done|]. split; [done|].
  destruct (decide (key ∈ od_keys (cache c))); [done|].
  apply NoDup_app. split; [done|]. split.
  - by intros x Hx ->%list_elem_of_singleton.
  - apply NoDup_singleton.
Qed.

Lemma step_aligned c o : aligned c -> aligned (step c o).
Proof.
  intros Hal. destruct o as [key now now'|key value ttl now|key|]; simpl.
  - unfold get. destruct (negb (od_mem key (cache c))) eqn:Em; [done|].
    destruct (_is_expired c key now); [by apply delete_aligned|].
    destruct Hal as (Ha & He & Hnd). unfold aligned. simpl.
    rewrite od_keys_set, Ha. apply negb_false_iff, od_mem_keys in Em.
    by rewrite decide_True.
  - unfold set. cbn [fst]. apply insert_aligned.
    destruct (_ && _); [by apply evict_aligned|done].
  - by apply delete_aligned.
  - unfold clear, aligned. simpl. split; [done|]. split; [done|]. constructor.
Qed.

Lemma delete_length c key :
  aligned c -> od_mem key (cache c) = true ->
  S (length (cache (delete c key).1)) = length (cache c).
Proof.
  intros _ Hm. unfold delete. rewrite Hm. simpl.
  apply od_mem_keys in Hm. pose proof (od_del_length_lt key (cache c) Hm) as Hlt.
  assert (Hle : length (cache c) <= S (length (od_del key (cache c)))).
  { clear. induction (cache c) as [|[k v] d IH]; simpl; [lia|].
    destruct (decide (key = k)); simpl; lia. }
  lia.
Qed.

Lemma delete_length_le c key : length (cache (delete c key).1) <= length (cache c).
Proof.
  unfold delete. destruct (od_mem key (cache c)); [|done]. simpl.
  apply od_del_length_le.
Qed.

Lemma set_length c key value ttl now :
  aligned c -> (1 <= max_size c)%Z ->
  (Z.of_nat (length (cache c)) <= max_size c)%Z ->
  (Z.of_nat (length (cache (set c key value ttl now).1)) <= max_size c)%Z.
Proof.
  intros Hal Hmax Hlen. unfold set. cbn [fst cache].
  assert (Hset : forall d : list (string * pyval),
            length (od_set key value d) =
            if decide (key ∈ od_keys d) then length d else S (length d)).
  { intros d. rewrite <- !od_keys_length, od_keys_set.
    destruct (decide (key ∈ od_keys d)); [done|]. rewrite length_app. simpl. lia. }
  rewrite Hset.
  destruct (od_mem key (cache c)) eqn:Em.
  - rewrite andb_false_r. apply od_mem_keys in Em. by rewrite decide_True.
  - rewrite andb_true_r.
    assert (Hout : key ∉ od_keys (cache c)).
    { intros Hin%od_mem_keys. congruence. }
    destruct (max_size c <=? Z.of_nat (length (cache c)))%Z eqn:Efull.
    + apply Z.leb_le in Efull.
      assert (Hev : S (length (cache (_evict_lru c))) = length (cache c) /\
                    key ∉ od_keys (cache (_evict_lru c))).
      { unfold _evict_lru. destruct Hal as (Ha & He & Hnd).
        destruct (access_times c) as [|kv rest] eqn:Eacc.
        - unfold od_keys in Ha. simpl in Ha.
          destruct (cache c); [simpl in *; lia|done].
        - pose proof (min_key_in kv rest) as Hin.
          change (kv.1 :: od_keys rest) with (od_keys (kv :: rest)) in Hin.
          rewrite Ha in Hin. split.
          + apply delete_length; [|by apply od_mem_keys].
            by rewrite <- Eacc in Ha.
          + unfold delete. apply od_mem_keys in Hin. rewrite Hin. simpl.
            rewrite od_keys_del. intros Hk. apply Hout.
            by eapply list_remove_subset. }
      destruct Hev as [Hev Hk]. rewrite decide_False by done.
      assert (Hd : max_size (_evict_lru c) = max_size c).
      { unfold _evict_lru, delete. destruct (access_times c); [done|].
        by destruct (od_mem (min_key _ _) _). }
      lia.
    + apply Z.leb_gt in Efull. rewrite decide_False by done. lia.
Qed.
End MemoryCacheShape.

Section MemoryCacheCapacity.
Import MemoryCache MemoryCacheOps.
Context {F : Type} `{PyNum F}.
Implicit Types c : MemoryCache.t F.

Lemma delete_max_size c key : max_size (delete c key).1 = max_size c.
Proof. unfold delete. by destruct (od_mem key (cache c)). Qed.

Lemma evict_max_size c : max_size (_evict_lru c) = max_size c.
Proof. unfold _evict_lru. destruct (access_times c); [done|apply delete_max_size]. Qed.

Lemma step_max_size c o : max_size (step c o) = max_size c.
Proof.
  destruct o as [key now now'|key value ttl now|key|]; simpl; [| |apply delete_max_size|done].
  - unfold get. destruct (negb _); [done|].
    destruct (_is_expired c key now); [apply delete_max_size|done].
  - unfold set. cbn [fst max_size]. destruct (_ && _); [apply evict_max_size|done].
Qed.

Lemma step_length c o :
  aligned c -> (1 <= max_size c)%Z ->
  (Z.of_nat (length (cache c)) <= max_size c)%Z ->
  (Z.of_nat (length (cache (step c o))) <= max_size c)%Z.
Proof.
  intros Hal Hmax Hlen.
  destruct o as [key now now'|key value ttl now|key|]; cbn [step].
  - unfold get. destruct (negb _); [done|].
    destruct (_is_expired c key now); [|done].
    cbn [fst]. pose proof (delete_length_le c key). lia.
  - by apply set_length.
  - pose proof (delete_length_le c key). lia.
  - unfold clear. simpl. lia.
Qed.

(** X6: a cache whose three dictionaries have the same keys, whose capacity
    is at least one and which holds at most [max_size] entries stays that
    way under every sequence of [get], [set], [delete] and [clear] calls:
    the dictionaries keep the same keys, the capacity is unchanged and the
    number of entries never exceeds it. *)
Theorem memory_cache_capacity c calls :
  aligned c -> (1 <= max_size c)%Z ->
  (Z.of_nat (length (cache c)) <= max_size c)%Z ->
  aligned (run c calls) /\
  max_size (run c calls) = max_size c /\
  (Z.of_nat (length (cache (run c calls))) <= max_size c)%Z.
Proof.
  unfold run. revert c. induction calls as [|o calls IH]; intros c Hal Hmax Hlen; simpl.
  - done.
  - pose proof (step_max_size c o) as Hm.
    destruct (IH (step c o)) as (Ha' & Hm' & Hl').
    + by apply step_aligned.
    + lia.
    + rewrite Hm. by apply step_length.
    + split; [done|]. split; [congruence|]. by rewrite <- Hm.
Qed.
End MemoryCacheCapacity.

Lemma memory_cache_capacity_witness :
  let c := MemoryCache.new (F := float) 2 3600 in
  let calls := [MemoryCacheOps.Set_ "a" (PInt 1) None 10%float;
                MemoryCacheOps.Set_ "b" (PInt 2) None 11%float;
                MemoryCacheOps.Get "a" 12%float 12%float;
                MemoryCacheOps.Set_ "c" (PInt 3) (Some 5%Z) 13%float] in
  od_keys (MemoryCache.cache (MemoryCacheOps.run c calls)) = ["a"; "c"] /\
  MemoryCacheOps.aligned (MemoryCacheOps.run c calls) /\
  MemoryCache.max_size (MemoryCacheOps.run c calls) = MemoryCache.max_size c /\
  (Z.of_nat (length (MemoryCache.cache (MemoryCacheOps.run c calls))) <=
   MemoryCache.max_size c)%Z.
Proof.
  intros c calls. split; [reflexivity|].
  apply (memory_cache_capacity c calls).
  - repeat split; simpl; constructor.
  - simpl. lia.
  - simpl. lia.
Defined.

Section MemoryCacheExact.
Import MemoryCache MemoryCacheOps.
Implicit Types c : MemoryCache.t Q.

Lemma evict_default_ttl {F} `{PyNum F} (c : MemoryCache.t F) :
  default_ttl (_evict_lru c) = default_ttl c.
Proof.
  unfold _evict_lru. destruct (access_times c); [done|].
  unfold delete. by destruct (od_mem (min_key _ _) _).
Qed.

(** X7: in exact arithmetic, a [get] of a key after a [set] of it returns
    the stored value exactly when the clock read by [get] is not past the
    time of the [set] plus the effective time to live ([ttl], or the
    default when [ttl] is missing or zero); later than that it returns
    nothing. This holds whatever the cache held before, also when the [set]
    had to evict an entry. *)
Theorem memory_cache_set_then_get c key value ttl now later later' :
  (get (set c key value ttl now).1 key later later').2 =
  if Qle_bool later (now + inject_Z (effective_ttl c ttl)) then Some value else None.
Proof.
  unfold set. cbn [fst].
  set (c' := if _ && _ then _evict_lru c else c).
  assert (Ht : effective_ttl c' ttl = effective_ttl c ttl).
  { unfold effective_ttl, c'. destruct (_ && _); [|done]. by rewrite evict_default_ttl. }
  rewrite Ht. unfold get. cbn [cache]. rewrite od_mem_set_eq. cbn [negb].
  unfold _is_expired. cbn [expiry_times]. rewrite od_get_set_eq.
  cbn [fltb fadd of_int Q_num].
  destruct (Qle_bool later _); cbn [negb snd].
  - apply od_get_set_eq.
  - unfold delete. by destruct (od_mem _ _).
Qed.
End MemoryCacheExact.

Section ODictLookup.
Context {V : Type}.
Implicit Types d : list (string * V).

Lemma od_get_elem_of k (v : V) d : od_get k d = Some v -> (k, v) ∈ d.
Proof.
  induction d as [|[k' v'] d IH]; simpl; [done|].
  destruct (decide (k = k')) as [->|Hne].
  - intros [= ->]. left.
  - intros Hg. right. by apply IH.
Qed.

Lemma elem_of_od_get k (v : V) d : NoDup (od_keys d) -> (k, v) ∈ d -> od_get k d = Some v.
Proof.
  unfold od_keys. induction d as [|[k' v'] d IH]; simpl; intros Hnd Hin.
  - by apply elem_of_nil in Hin.
  - apply NoDup_cons in Hnd as [Hk Hnd].
    apply elem_of_cons in Hin as [[= -> ->]|Hin].
    + by rewrite decide_True.
    + rewrite decide_False; [by apply IH|].
      intros ->. apply Hk. apply list_elem_of_fmap. by exists (k', v).
Qed.

Lemma od_get_del_ne x k d : x <> k -> od_get x (od_del k d) = od_get x d.
Proof.
  intros Hne. induction d as [|[k' v'] d IH]; simpl; [done|].
  destruct (decide (k = k')) as [->|Hk]; simpl.
  - by rewrite decide_False.
  - by rewrite IH.
Qed.

Lemma od_get_del_eq k d : NoDup (od_keys d) -> od_get k (od_del k d) = None.
Proof.
  intros Hnd. apply eq_None_not_Some. rewrite <- od_keys_get, od_keys_del.
  by apply list_remove_absent.
Qed.
End ODictLookup.

Section MemoryCacheLRU.
Import MemoryCache MemoryCacheOps.
Implicit Types c : MemoryCache.t Q.

Lemma min_key_least (best : string * Q) (d : list (string * Q)) :
  exists t : Q, (min_key best d, t) ∈ best :: d /\
                forall kv, kv ∈ best :: d -> (t <= kv.2)%Q.
Proof.
  revert best. induction d as [|kv d IH]; intros best; cbn [min_key].
  - exists best.2. split; [destruct best; left|].
    intros kv' ->%list_elem_of_singleton. apply Qle_refl.
  - destruct (IH (if fltb kv.2 best.2 then kv else best)) as (t & Hin & Hle).
    exists t. split.
    + apply elem_of_cons in Hin as [Heq|Hin]; [|right; by right].
      rewrite Heq. destruct (fltb kv.2 best.2); [right|]; left.
    + assert (Hb : (t <= (if fltb kv.2 best.2 then kv else best).2)%Q) by (apply Hle; left).
      intros x [->|[->|Hx]%elem_of_cons]%elem_of_cons.
      * destruct (fltb kv.2 best.2) eqn:E; [|done].
        apply Q_fltb_true in E. eapply Qle_trans; [exact Hb|]. by apply Qlt_le_weak.
      * destruct (fltb kv.2 best.2) eqn:E; [done|].
        apply Q_fltb_false in E. eapply Qle_trans; [exact Hb|done].
      * apply Hle. by right.
Qed.

(** X8: in exact arithmetic, a [set] of a new key into a cache that is full
    (and not empty, with its three dictionaries on the same keys) evicts
    exactly one entry, one whose last access time is least among all
    entries: afterwards that key is gone, the new key holds the new value,
    and every other key holds what it held before. *)
Theorem memory_cache_evicts_least_recent c key value ttl now :
  aligned c ->
  (max_size c <= Z.of_nat (length (cache c)))%Z ->
  cache c <> [] ->
  key ∉ od_keys (cache c) ->
  exists (lru : string) (t : Q),
    od_get lru (access_times c) = Some t /\
    (forall k t', od_get k (access_times c) = Some t' -> (t <= t')%Q) /\
    od_get lru (cache (set c key value ttl now).1) = None /\
    od_get key (cache (set c key value ttl now).1) = Some value /\
    forall k, k <> lru -> k <> key ->
      od_get k (cache (set c key value ttl now).1) = od_get k (cache c).
Proof.
  intros (Ha & He & Hnd) Hfull Hne Hkey.
  unfold set. cbn [fst cache].
  apply Z.leb_le in Hfull. rewrite Hfull.
  assert (Hm : od_mem key (cache c) = false).
  { apply not_true_is_false. by intros ?%od_mem_keys. }
  rewrite Hm. cbn [negb andb].
  unfold _evict_lru.
  destruct (access_times c) as [|kv rest] eqn:Eacc.
  { unfold od_keys in Ha. simpl in Ha. by destruct (cache c). }
  destruct (min_key_least kv rest) as (t & Hin & Hle).
  set (lru := min_key kv rest) in *.
  assert (Hlru : lru ∈ od_keys (cache c)).
  { rewrite <- Ha. unfold od_keys. apply list_elem_of_fmap. by exists (lru, t). }
  exists lru, t. split.
  { apply elem_of_od_get; [by rewrite Ha|done]. }
  split.
  { intros k t' Hk. apply od_get_elem_of in Hk. apply (Hle (k, t') Hk). }
  unfold delete. apply od_mem_keys in Hlru as Hmem. rewrite Hmem. cbn [fst cache].
  assert (Hkl : lru <> key) by (intros ->; done).
  split; [|split].
  - rewrite od_get_set_ne by done. by apply od_get_del_eq.
  - apply od_get_set_eq.
  - intros k Hk1 Hk2. rewrite od_get_set_ne by done. by apply od_get_del_ne.
Qed.
End MemoryCacheLRU.

Lemma memory_cache_evicts_least_recent_witness :
  let c : MemoryCache.t Q :=
    {| MemoryCache.max_size := 2; MemoryCache.default_ttl := 3600;
       MemoryCache.cache := [("a", PInt 1); ("b", PInt 2)];
       MemoryCache.access_times := [("a", 12%Q); ("b", 11%Q)];
       MemoryCache.expiry_times := [("a", 3610%Q); ("b", 3611%Q)] |} in
  od_keys (MemoryCache.cache (MemoryCache.set c "c" (PInt 3) None 13%Q).1) = ["a"; "c"] /\
  exists (lru : string) (t : Q),
    od_get lru (MemoryCache.access_times c) = Some t /\
    (forall k t', od_get k (MemoryCache.access_times c) = Some t' -> (t <= t')%Q) /\
    od_get lru (MemoryCache.cache (MemoryCache.set c "c" (PInt 3) None 13%Q).1) = None /\
    od_get "c" (MemoryCache.cache (MemoryCache.set c "c" (PInt 3) None 13%Q).1) = Some (PInt 3) /\
    forall k, k <> lru -> k <> "c" ->
      od_get k (MemoryCache.cache (MemoryCache.set c "c" (PInt 3) None 13%Q).1) =
      od_get k (MemoryCache.cache c).
Proof.
  intros c. split; [reflexivity|].
  apply (memory_cache_evicts_least_recent c "c" (PInt 3) None 13%Q).
  - repeat split; simpl; repeat constructor; vm_compute; intros Hin;
      repeat (apply elem_of_cons in Hin as [Hin|Hin]; [discriminate Hin|]);
      by apply elem_of_nil in Hin.
  - simpl. lia.
  - discriminate.
  - vm_compute. intros Hin.
    repeat (apply elem_of_cons in Hin as [Hin|Hin]; [discriminate Hin|]).
    by apply elem_of_nil in Hin.
Defined.

(** ** Clamping on binary64 *)
Lemma float_ltb_leb (x y : float) : (x <? y)%float = true -> (x <=? y)%float = true.
Proof.
  rewrite ltb_spec, leb_spec. unfold SFltb, SFleb.
  by destruct (SFcompare (Prim2SF x) (Prim2SF y)) as [[]|].
Qed.

Lemma clamp01_binary64 (x : float) : unit_float (clamp01 x).
Proof.
  unfold clamp01, py_max, py_min.
  change (lit 0) with 0%float. change (lit 1) with 1%float.
  cbn [fltb float_num].
  destruct (x <? 1)%float eqn:E1.
  - destruct (0 <? x)%float eqn:E0.
    + split; by apply float_ltb_leb.
    + by split.
  - by split.
Qed.

Lemma validated_binary64 (x : float) : unit_float (RouteEvaluation.validated x).
Proof.
  unfold RouteEvaluation.validated.
  destruct (fleb (lit 0) x && fleb x (lit 1)) eqn:E; cbn [negb].
  - by apply andb_prop in E.
  - apply clamp01_binary64.
Qed.

Lemma validated_in_range {F} `{PyNum F} (x : F) :
  fleb (lit 0) x = true -> fleb x (lit 1) = true -> RouteEvaluation.validated x = x.
Proof. intros H0 H1. unfold RouteEvaluation.validated. by rewrite H0, H1. Qed.

(** X9: on binary64, whatever six numbers a [RouteEvaluation] is built
    from (infinities and NaN included), its predicted quality, risk
    assessment, predicted user satisfaction and overall score lie between 0
    and 1 afterwards, and the estimated time and the resource cost are
    stored as given. *)
Theorem route_evaluation_scores_clamped (pq et rc ra us os : float) :
  let e := RouteEvaluation.new pq et rc ra us os in
  unit_float (RouteEvaluation.predicted_quality e) /\
  unit_float (RouteEvaluation.risk_assessment e) /\
  unit_float (RouteEvaluation.user_satisfaction_prediction e) /\
  unit_float (RouteEvaluation.overall_score e) /\
  RouteEvaluation.estimated_time e = et /\
  RouteEvaluation.resource_cost e = rc.
Proof.
  intros e. unfold e, RouteEvaluation.new, RouteEvaluation._validate_scores.
  cbn [RouteEvaluation.predicted_quality RouteEvaluation.risk_assessment
       RouteEvaluation.user_satisfaction_prediction RouteEvaluation.overall_score
       RouteEvaluation.estimated_time RouteEvaluation.resource_cost].
  repeat split; try apply validated_binary64.
Qed.

Lemma float_nan_ltb (x y : float) : PrimFloat.is_nan x = true -> (x <? y)%float = false.
Proof.
  unfold PrimFloat.is_nan. intros Hn%negb_true_iff. revert Hn.
  rewrite FloatAxioms.eqb_spec, ltb_spec. unfold SFeqb, SFltb.
  destruct (Prim2SF x) as [s|s| |s m e]; simpl; try done.
  - by destruct s.
  - rewrite Z.compare_refl, Pos.compare_cont_refl. by destruct s.
Qed.

(** X10: on binary64, [ValidationResult.add_check] records under the
    check's name a score between 0 and 1, and [set_confidence] (of a
    validation result and of a pipeline state) stores a confidence between 0
    and 1, for every number given.  A number that is not below 1 is turned
    into 1.0, and so is a NaN; a number below 1 that is not above 0 is
    turned into 0.0. *)
Theorem scores_clamped_binary64 (vr : ValidationResult.t float)
    (st : PipelineState.t) (check_name : string) (x : float) :
  (exists score,
     od_get check_name (ValidationResult.checks (ValidationResult.add_check vr check_name x))
       = Some score /\ unit_float score) /\
  unit_float (ValidationResult.confidence (ValidationResult.set_confidence vr x)) /\
  unit_float (PipelineState.confidence (PipelineState.set_confidence st x)) /\
  ((x <? 1)%float = false -> clamp01 x = 1%float) /\
  (PrimFloat.is_nan x = true -> clamp01 x = 1%float) /\
  ((x <? 1)%float = true -> (0 <? x)%float = false -> clamp01 x = 0%float).
Proof.
  assert (Hhigh : (x <? 1)%float = false -> clamp01 x = 1%float).
  { intros E. unfold clamp01, py_max, py_min.
    change (lit 0) with 0%float. change (lit 1) with 1%float.
    cbn [fltb float_num]. by rewrite E. }
  split; [|split; [|split; [|split; [|split]]]].
  - exists (clamp01 x). split; [|apply clamp01_binary64].
    rewrite add_check_checks. apply od_get_set_eq.
  - apply clamp01_binary64.
  - apply clamp01_binary64.
  - exact Hhigh.
  - intros Hnan. apply Hhigh. by apply float_nan_ltb.
  - intros E1 E0. unfold clamp01, py_max, py_min.
    change (lit 0) with 0%float. change (lit 1) with 1%float.
    cbn [fltb float_num]. by rewrite E1, E0.
Qed.

Lemma scores_clamped_binary64_witness :
  clamp01 nan = 1%float /\ clamp01 infinity = 1%float /\
  clamp01 (-0.5)%float = 0%float.
Proof.
  pose proof (scores_clamped_binary64 (ValidationResult.new (F := float))
                (PipelineState.new "q" (PipelineState.mk_config [] []) [] 0%float)
                "c") as Hx.
  split; [|split].
  - destruct (Hx nan) as (_ & _ & _ & _ & Hnan & _). apply Hnan. reflexivity.
  - destruct (Hx infinity) as (_ & _ & _ & Hhigh & _ & _). apply Hhigh. reflexivity.
  - destruct (Hx (-0.5)%float) as (_ & _ & _ & _ & _ & Hlow). apply Hlow; reflexivity.
Defined.

(** ** The evaluation of candidate routes, in exact arithmetic *)
Section RouteScores.
Import QualityPredictor RouteScoring.
Local Open Scope Q_scope.

Lemma Q_py_min_spec (a b : Q) :
  py_min a b <= a /\ py_min a b <= b /\ (py_min a b = a \/ py_min a b = b).
Proof.
  unfold py_min. destruct (fltb b a) eqn:E.
  - apply Q_fltb_true in E. split; [lra|]. split; [lra|by right].
  - apply Q_fltb_false in E. split; [lra|]. split; [lra|by left].
Qed.

Lemma Q_py_max_spec (a b : Q) :
  a <= py_max a b /\ b <= py_max a b /\ (py_max a b = a \/ py_max a b = b).
Proof.
  unfold py_max. destruct (fltb a b) eqn:E.
  - apply Q_fltb_true in E. split; [lra|]. split; [lra|by right].
  - apply Q_fltb_false in E. split; [lra|]. split; [lra|by left].
Qed.

Lemma predict_quality_range (r : route Q) (complexity_level : Z) :
  0 <= predict_quality r complexity_level <= 1.
Proof.
  unfold predict_quality.
  set (q := _calculate_quality_score _).
  destruct (Q_py_max_spec q (lit 0)) as (_ & H0 & _).
  destruct (Q_py_min_spec (py_max q (lit 0)) (lit 1)) as (_ & H1 & [E|E]).
  - rewrite E. change (lit 0) with 0 in *. change (lit 1) with 1 in *.
    rewrite E in H1. lra.
  - rewrite E. change (lit 1) with 1. lra.
Qed.

Lemma assess_risk_range (r : route Q) (complexity_level : Z) :
  0 <= _assess_risk r complexity_level <= 0.5.
Proof.
  unfold _assess_risk.
  destruct (fltb (timeout r) (lit 10)),
           ((3 <? complexity_level)%Z && String.eqb (model_preference r) "speed");
    vm_compute; split; discriminate.
Qed.

Lemma predict_user_satisfaction_range (r : route Q) (expected_time : option Q) :
  0.8 <= _predict_user_satisfaction r expected_time <= 1.
Proof.
  unfold _predict_user_satisfaction.
  destruct (String.eqb (model_preference r) "quality"),
           (fleb (timeout r) (default (lit 15) expected_time));
    vm_compute; split; discriminate.
Qed.

Lemma stage_count_nonneg (n : nat) : 0 <= inject_Z (Z.of_nat n).
Proof. change 0 with (inject_Z 0). rewrite <- Zle_Qle. lia. Qed.

Lemma route_score_lower (r : route Q) (complexity_level : Z)
    (expected_time load_factor : option Q) :
  0.17 <= RouteEvaluation.overall_score
            (_evaluate_route r complexity_level expected_time load_factor).
Proof.
  unfold _evaluate_route, _calculate_overall_score.
  cbn [RouteEvaluation.predicted_quality RouteEvaluation.estimated_time
       RouteEvaluation.resource_cost RouteEvaluation.risk_assessment
       RouteEvaluation.user_satisfaction_prediction RouteEvaluation.overall_score].
  pose proof (predict_quality_range r complexity_level) as Hq.
  pose proof (assess_risk_range r complexity_level) as Hr.
  pose proof (predict_user_satisfaction_range r expected_time) as Hs.
  destruct (Q_py_min_spec
              (fdiv (_estimate_processing_time r load_factor) (lit 30)) (lit 1))
    as (_ & Ht & _).
  destruct (Q_py_min_spec (_calculate_resource_cost r) (lit 1)) as (_ & Hc & _).
  revert Hq Hr Hs Ht Hc.
  generalize (predict_quality r complexity_level) (_assess_risk r complexity_level)
    (_predict_user_satisfaction r expected_time)
    (py_min (fdiv (_estimate_processing_time r load_factor) (lit 30)) (lit 1))
    (py_min (_calculate_resource_cost r) (lit 1)).
  intros q k s t c. cbn [lit fadd fsub fmul Q_num]. lra.
Qed.

(** X11: in exact arithmetic, for every route, complexity level and
    expected time, and every load factor that is not negative (the default
    1.0 when the system status has none), the evaluation of the route has a
    predicted quality between 0 and 1, a risk between 0 and 0.5, a predicted
    satisfaction between 0.8 and 1, and an overall score between 0.17 and
    1. *)
Theorem route_evaluation_score_range (r : route Q) (complexity_level : Z)
    (expected_time load_factor : option Q) :
  0 <= default 1 load_factor ->
  let e := _evaluate_route r complexity_level expected_time load_factor in
  0 <= RouteEvaluation.predicted_quality e <= 1 /\
  0 <= RouteEvaluation.risk_assessment e <= 0.5 /\
  0.8 <= RouteEvaluation.user_satisfaction_prediction e <= 1 /\
  0.17 <= RouteEvaluation.overall_score e <= 1.
Proof.
  intros Hload e.
  pose proof (route_score_lower r complexity_level expected_time load_factor) as Hlow.
  fold e in Hlow.
  pose proof (predict_quality_range r complexity_level) as Hq.
  pose proof (assess_risk_range r complexity_level) as Hr.
  pose proof (predict_user_satisfaction_range r expected_time) as Hs.
  split; [exact Hq|]. split; [exact Hr|]. split; [exact Hs|]. split; [exact Hlow|].
  unfold e, _evaluate_route, _calculate_overall_score.
  cbn [RouteEvaluation.predicted_quality RouteEvaluation.estimated_time
       RouteEvaluation.resource_cost RouteEvaluation.risk_assessment
       RouteEvaluation.user_satisfaction_prediction RouteEvaluation.overall_score].
  assert (Ht : 0 <= py_min (fdiv (_estimate_processing_time r load_factor) (lit 30)) (lit 1)).
  { assert (He : 0 <= fdiv (_estimate_processing_time r load_factor) (lit 30)).
    { unfold _estimate_processing_time. cbn [lit of_int fmul fdiv Q_num].
      pose proof (stage_count_nonneg (length (stages r))) as Hn.
      unfold Qdiv. apply Qmult_le_0_compat; [|by vm_compute].
      apply Qmult_le_0_compat; [|exact Hload].
      apply Qmult_le_0_compat; [exact Hn|by vm_compute]. }
    destruct (Q_py_min_spec (fdiv (_estimate_processing_time r load_factor) (lit 30)) (lit 1))
      as (_ & _ & [E|E]); rewrite E; [exact He|by vm_compute]. }
  assert (Hc : 0 <= py_min (_calculate_resource_cost r) (lit 1)).
  { assert (Hb : 0 <= _calculate_resource_cost r).
    { unfold _calculate_resource_cost. cbn [lit of_int fmul Q_num].
      pose proof (stage_count_nonneg (length (stages r))) as Hn.
      destruct (parallel_execution r); lra. }
    destruct (Q_py_min_spec (_calculate_resource_cost r) (lit 1))
      as (_ & _ & [E|E]); rewrite E; [exact Hb|by vm_compute]. }
  revert Hq Hr Hs Ht Hc.
  generalize (predict_quality r complexity_level) (_assess_risk r complexity_level)
    (_predict_user_satisfaction r expected_time)
    (py_min (fdiv (_estimate_processing_time r load_factor) (lit 30)) (lit 1))
    (py_min (_calculate_resource_cost r) (lit 1)).
  intros q k s t c. cbn [lit fadd fsub fmul Q_num]. lra.
Qed.

Lemma elem_of_scored {A B : Type} (f : A -> B) (l : list A) (a : A) (b : B) :
  (a, b) ∈ map (fun x => (x, f x)) l <-> a ∈ l /\ b = f a.
Proof.
  induction l as [|x l IH]; simpl.
  - split; [by intros ?%elem_of_nil|by intros [?%elem_of_nil _]].
  - rewrite !elem_of_cons, IH. split.
    + intros [Heq|[Hin ->]]; [|by split; [right|]].
      injection Heq as -> ->. by split; [left|].
    + intros [[->|Hin] ->]; [by left|by right].
Qed.

(** X12: in exact arithmetic, evaluating a non-empty list of candidate
    routes and selecting among them always yields a route ([None] is never
    returned): it is one of the candidates and no candidate has a higher
    overall score. *)
Theorem select_route_returns_best_candidate (candidate_routes : list (route Q))
    (complexity_level : Z) (expected_time load_factor : option Q) :
  candidate_routes <> [] ->
  exists best,
    select_route candidate_routes complexity_level expected_time load_factor = Some best /\
    best ∈ candidate_routes /\
    forall r, r ∈ candidate_routes ->
      RouteEvaluation.overall_score
        (_evaluate_route r complexity_level expected_time load_factor) <=
      RouteEvaluation.overall_score
        (_evaluate_route best complexity_level expected_time load_factor).
Proof.
  intros Hne. unfold select_route, RouteSelection._select_optimal_route.
  set (score := fun r => RouteEvaluation.overall_score
                 (_evaluate_route r complexity_level expected_time load_factor)).
  set (l := evaluate_all _ _ _ _).
  assert (Hlower : forall r, 0.17 <= score r).
  { intros r. apply route_score_lower. }
  assert (Hl : forall r s, (r, s) ∈ l <-> r ∈ candidate_routes /\ s = score r).
  { intros r s. apply (elem_of_scored score). }
  assert (Hscore : forall r, RouteEvaluation.overall_score
                        (_evaluate_route r complexity_level expected_time load_factor)
                      = score r) by reflexivity.
  clearbody l score.
  destruct (select_loop l None (of_int (-1)) (-1) []) as (_ & Hmax & Hsome & Hnone).
  { cbn [of_int Q_num]. change (inject_Z (-1)) with (-1). lra. }
  { intros r s Hin. by apply elem_of_nil in Hin. }
  { done. }
  { reflexivity. }
  cbn [app] in Hmax, Hsome, Hnone.
  destruct (fold_left RouteSelection.consider l (None, of_int (-1))) as [[best|] top] eqn:E;
    cbn [fst snd] in *.
  - destruct (Hsome best eq_refl) as (_ & s & Hin & Hs).
    apply Hl in Hin as [Hin ->].
    exists best. split; [done|]. split; [done|].
    intros r Hr. rewrite !Hscore.
    assert (Hle : score r <= top) by (apply (Hmax r), Hl; split; [exact Hr|reflexivity]).
    lra.
  - destruct candidate_routes as [|r rest]; [done|].
    pose proof (Hlower r) as Hlow.
    assert (Hr : score r <= top) by (apply (Hmax r), Hl; split; [left|reflexivity]).
    pose proof (Hnone eq_refl) as Htop. cbn [of_int Q_num] in Htop.
    change (inject_Z (-1)) with (-1) in Htop. lra.
Qed.
End RouteScores.

Lemma route_evaluation_score_range_witness :
  let r := QualityPredictor.mk_route
             ["preprocessing"; "knowledge_retrieval"; "reasoning"; "validation"]
             true 15%Q "balanced" in
  (RouteEvaluation.overall_score (RouteScoring._evaluate_route r 3 None None)
     == 547 # 750)%Q /\
  (0.17 <= RouteEvaluation.overall_score (RouteScoring._evaluate_route r 3 None None) <= 1)%Q.
Proof.
  intros r. split; [by vm_compute|].
  apply (route_evaluation_score_range r 3 None None). simpl. lra.
Defined.

Lemma select_route_returns_best_candidate_witness :
  let standard := QualityPredictor.mk_route
             ["preprocessing"; "knowledge_retrieval"; "reasoning"; "validation"]
             true 15%Q "balanced" in
  let speed := QualityPredictor.mk_route
             ["preprocessing"; "knowledge_retrieval"; "reasoning"; "validation"]
             true 10%Q "speed" in
  exists best,
    RouteScoring.select_route [standard; speed] 3 None None = Some best /\
    best ∈ [standard; speed] /\
    forall r, r ∈ [standard; speed] ->
      (RouteEvaluation.overall_score (RouteScoring._evaluate_route r 3 None None) <=
       RouteEvaluation.overall_score (RouteScoring._evaluate_route best 3 None None))%Q.
Proof.
  intros standard speed.
  apply (select_route_returns_best_candidate [standard; speed] 3 None None).
  discriminate.
Defined.

(** ** The improvement of a response *)
Section ImprovementFacts.
Import PipelineState ResponseImprovement.

Lemma improvement_route_stages strategy route :
  stages (improvement_route strategy route) = stages route ++ appended strategy.
Proof.
  unfold improvement_route, appended.
  destruct (od_mem "fact_verification" strategy), (od_mem "enhancement" strategy),
    (od_mem "reasoning" strategy); simpl; by rewrite <- ?app_assoc, ?app_nil_r.
Qed.

Lemma appended_unknown external strategy st :
  Pipeline.run_stages external (appended strategy) st =
  inl (fold_left (fun st name => add_error st (String.append "Unknown stage: " name))
         (appended strategy) st).
Proof.
  unfold appended.
  by destruct (od_mem "fact_verification" strategy), (od_mem "enhancement" strategy).
Qed.

Lemma add_errors_length names st :
  length (errors (fold_left (fun st name =>
                    add_error st (String.append "Unknown stage: " name)) names st)) =
  length (errors st) + length names.
Proof.
  revert st. induction names as [|n names IH]; intros st; simpl; [lia|].
  rewrite IH. unfold add_error. simpl. rewrite length_app. simpl. lia.
Qed.

(** X13: when the improvement strategy asks for fact verification or for
    enhancement, the result of [_improve_response] is never a success,
    whatever the route, the earlier result and the behaviour of the
    retrieval, tool and formatting stages: the stage names it appends are
    not stages of the pipeline. *)
Theorem improved_response_never_succeeds
    (external : string -> PipelineState.t -> PipelineState.t + string)
    (clk : Pipeline.clock) (result : ProcessingResult.t)
    (strategy : list (string * pyval)) (processing_route : route_config) :
  od_mem "fact_verification" strategy = true \/ od_mem "enhancement" strategy = true ->
  ProcessingResult.success
    (_improve_response external clk result strategy processing_route) = PBool false.
Proof.
  intros Hs. unfold _improve_response, Pipeline.execute_pipeline.
  rewrite improvement_route_stages, run_stages_app.
  destruct (Pipeline.run_stages external (stages processing_route) _) as [st1|e]; [|done].
  rewrite appended_unknown. cbn [Pipeline.with_processing_time ProcessingResult.success
    get_final_result].
  pose proof (add_errors_length (appended strategy) st1) as Hlen.
  assert (Hne : 0 < length (appended strategy)).
  { unfold appended. destruct Hs as [-> | ->]; [simpl; lia|].
    destruct (od_mem "fact_verification" strategy); simpl; lia. }
  rewrite bool_decide_eq_false_2; [done|lia].
Qed.
End ImprovementFacts.

Lemma improved_response_never_succeeds_witness :
  ProcessingResult.success
    (ResponseImprovement._improve_response (fun _ st => inl st)
       (Pipeline.mk_clock 0 0 0 0) ProcessingResult.new
       [("enhancement", PStr "gather_more_information")]
       (PipelineState.mk_config
          ["preprocessing"; "simple_reasoning"; "basic_validation"] []))
  = PBool false.
Proof.
  apply improved_response_never_succeeds. right. reflexivity.
Defined.

Section ImprovementAliasing.
Import ProcessingRoute ResponseImprovement.

Lemma append_if_shared h c r l wanted name :
  get_route h c = Some r ->
  h !! stages r = Some (CList l) ->
  c <> stages r ->
  exists h',
    append_if wanted h c name = Some h' /\
    get_route h' c = Some r /\
    h' !! stages r = Some (CList (l ++ (if wanted then [name] else []))) /\
    forall x, x <> stages r -> h' !! x = h !! x.
Proof.
  intros Hr Hl Hne. unfold append_if, append_stage, get_list.
  destruct wanted.
  - rewrite Hr. simpl. rewrite Hl. simpl. eexists. split; [done|].
    split; [|split].
    + unfold get_route in *. by rewrite lookup_insert_ne.
    + by rewrite lookup_insert_eq.
    + intros x Hx. by rewrite lookup_insert_ne.
  - exists h. rewrite app_nil_r. done.
Qed.

(** X14: [_improve_response] changes the route it was given: the mapping
    it works on is a copy, but the stage list in it is the route's own, so
    the appended stage names are seen in the original route afterwards;
    the change of the model preference stays in the copy. *)
Theorem improve_route_changes_original (h : store) (a : addr) (r : route)
    (l : list string) (d : list (string * pyval)) (strategy : list (string * pyval)) :
  holds h a r l d ->
  exists c h',
    improve_route h a strategy = Some (c, h') /\
    c <> a /\
    observe h' a =
      Some (mk_view (l ++ appended strategy) d (timeout r) (parallel_execution r)
              (model_preference r)) /\
    observe h' c =
      Some (mk_view (l ++ appended strategy) d (timeout r) (parallel_execution r)
              (if od_mem "reasoning" strategy then "quality" else model_preference r)).
Proof.
  intros (Ha & Hl & Hd). unfold improve_route, dict_copy, alloc, get_route at 1.
  rewrite Ha. simpl.
  set (c := fresh (dom h)).
  assert (Hfresh : forall x v, h !! x = Some v -> c <> x).
  { intros x v Hx E. apply (is_fresh (dom h)). fold c. rewrite E.
    apply elem_of_dom. by exists v. }
  pose proof (Hfresh _ _ Ha) as Hca. pose proof (Hfresh _ _ Hl) as Hcl.
  pose proof (Hfresh _ _ Hd) as Hcd.
  set (h0 := <[c := CRoute r]> h).
  assert (Hr0 : get_route h0 c = Some r).
  { unfold get_route, h0. by rewrite lookup_insert_eq. }
  assert (Hl0 : h0 !! stages r = Some (CList l)).
  { unfold h0. by rewrite lookup_insert_ne. }
  destruct (append_if_shared h0 c r l (od_mem "fact_verification" strategy)
              "additional_fact_check" Hr0 Hl0 Hcl) as (h1 & -> & Hr1 & Hl1 & Hk1).
  simpl.
  destruct (append_if_shared h1 c r _ (od_mem "enhancement" strategy)
              "information_gathering" Hr1 Hl1 Hcl) as (h2 & -> & Hr2 & Hl2 & Hk2).
  simpl. rewrite <- app_assoc in Hl2. fold (appended strategy) in Hl2.
  assert (Hal : a <> stages r).
  { intros E. rewrite <- E in Hl. congruence. }
  assert (Hdl : context r <> stages r).
  { intros E. rewrite E in Hd. congruence. }
  assert (Ha2 : h2 !! a = Some (CRoute r)).
  { rewrite Hk2, Hk1 by done. unfold h0. by rewrite lookup_insert_ne. }
  assert (Hd2 : h2 !! context r = Some (CDict d)).
  { rewrite Hk2, Hk1 by done. unfold h0. by rewrite lookup_insert_ne. }
  destruct (od_mem "reasoning" strategy).
  - unfold set_model_preference. rewrite Hr2. simpl.
    eexists c, _. split; [done|]. split; [done|].
    split;
      [apply (holds_observe _ a r)
      |apply (holds_observe _ c
                (mk (stages r) (parallel_execution r) (timeout r) "quality" (context r)))];
      unfold holds; simpl;
      rewrite ?lookup_insert_eq, ?lookup_insert_ne by done; done.
  - simpl. exists c, h2. split; [done|]. split; [done|].
    split; apply (holds_observe _ _ r); unfold holds.
    + done.
    + unfold get_route in Hr2. destruct (h2 !! c) as [[r'| |]|]; by simplify_eq.
Qed.
End ImprovementAliasing.

Lemma improve_route_changes_original_witness :
  let '(a, h) := ProcessingRoute.new ∅ ["preprocessing"; "reasoning"] true 15%float
                   "balanced" [] in
  exists c h',
    ResponseImprovement.improve_route h a
      [("enhancement", PStr "gather_more_information")] = Some (c, h') /\
    c <> a /\
    ProcessingRoute.observe h' a =
      Some (ProcessingRoute.mk_view
              ["preprocessing"; "reasoning"; "information_gathering"] []
              15%float true "balanced") /\
    ProcessingRoute.observe h' c =
      Some (ProcessingRoute.mk_view
              ["preprocessing"; "reasoning"; "information_gathering"] []
              15%float true "balanced").
Proof.
  destruct (ProcessingRoute.new ∅ ["preprocessing"; "reasoning"] true 15%float
              "balanced" []) as [a h] eqn:E.
  apply (improve_route_changes_original h a
           (ProcessingRoute.mk 0 true 15%float "balanced" 1)
           ["preprocessing"; "reasoning"] []
           [("enhancement", PStr "gather_more_information")]).
  vm_compute in E. injection E as <- <-. by vm_compute.
Defined.

(** ** The validation of a response *)
Section ValidationFacts.
Import ValidationResult AdaptiveQualityController.

Lemma check_consistency_values (response : string) (knowledge tools : pyval) :
  let c := check_consistency (F := float) response knowledge tools in
  fltb (clamp01 c) (lit 0.6) = false.
Proof.
  unfold check_consistency.
  by destruct (py_truthy knowledge), (py_truthy tools); vm_compute.
Qed.

Lemma weak_aspect_score {F} `{PyNum F} (vr : t F) (name : string) :
  name ∈ get_weak_aspects vr ->
  exists score, (name, score) ∈ checks vr /\ fltb score (lit 0.6) = true.
Proof.
  unfold get_weak_aspects. intros ((n & s) & -> & Hin)%list_elem_of_fmap.
  apply list_elem_of_filter in Hin as [Hs Hin]. by exists s.
Qed.

Lemma validate_response_checks {F} `{PyNum F} has_digit verify_facts
    question response ctx :
  let vr := validate_response has_digit verify_facts question response ctx in
  let consistency :=
    clamp01 (check_consistency response
               (dict_get_default "retrieved_knowledge" (PDict []) ctx)
               (dict_get_default "tool_results" (PDict []) ctx)) in
  let basic := clamp01 (_check_basic_quality has_digit response) in
  let completeness := clamp01 (assess_completeness question response) in
  checks vr =
    if py_truthy (dict_get_default "requires_fact_checking" (PBool false) ctx)
    then [("basic_quality", basic);
          ("fact_accuracy",
           clamp01 (verify_facts response
                      (dict_get_default "knowledge_sources" (PList []) ctx)));
          ("consistency", consistency); ("completeness", completeness)]
    else [("basic_quality", basic); ("consistency", consistency);
          ("completeness", completeness)].
Proof.
  unfold validate_response. cbn [checks set_improvement_action set_confidence].
  destruct (py_truthy (dict_get_default "requires_fact_checking" (PBool false) ctx));
    by rewrite !add_check_checks.
Qed.

(** X15: on binary64, whatever the question, the response, the processing
    context, the digit test and the fact checker, the consistency check of
    [validate_response] is never a weak aspect (its score is 1.0, 0.9 or
    0.85), so an improvement strategy never has the key [reasoning]. *)
Theorem consistency_never_weak (has_digit : string -> bool)
    (verify_facts : string -> pyval -> float) (question response : string)
    (ctx : list (string * pyval)) :
  let vr := validate_response has_digit verify_facts question response ctx in
  ("consistency" ∉ get_weak_aspects vr) /\
  forall strategy,
    od_get "strategy" (improvement_action vr) = Some (PDict strategy) ->
    od_get "reasoning" strategy = None.
Proof.
  intros vr.
  assert (Hweak : "consistency" ∉ get_weak_aspects vr).
  { intros (score & Hin & Hlow)%weak_aspect_score.
    unfold vr in Hin. rewrite validate_response_checks in Hin.
    assert (Hc : score = clamp01 (check_consistency response
                   (dict_get_default "retrieved_knowledge" (PDict []) ctx)
                   (dict_get_default "tool_results" (PDict []) ctx))).
    { destruct (py_truthy (dict_get_default "requires_fact_checking" (PBool false) ctx));
        repeat (apply elem_of_cons in Hin as [Hin|Hin]; [by simplify_eq|]);
        by apply elem_of_nil in Hin. }
    rewrite Hc, check_consistency_values in Hlow. done. }
  split; [exact Hweak|].
  intros strategy. unfold vr at 1, validate_response.
  cbn [improvement_action set_improvement_action].
  fold vr. unfold _decide_improvement_action.
  destruct (orb (fltb _ _) (fltb _ _)).
  - unfold _plan_improvement_strategy.
    set (weak := get_weak_aspects _).
    assert (Hw : "consistency" ∉ weak).
    { unfold weak. exact Hweak. }
    rewrite (bool_decide_eq_false_2 _ Hw).
    intros [= <-].
    by destruct (bool_decide ("fact_accuracy" ∈ weak)),
                (bool_decide ("completeness" ∈ weak)).
  - by destruct (andb (fltb _ _) _).
Qed.
End ValidationFacts.

Section ValidationDecision.
Import ValidationResult AdaptiveQualityController.
Local Open Scope Q_scope.

Lemma clamp01_le (x b : Q) : 0 <= b -> x <= b -> clamp01 x <= b.
Proof.
  intros Hb Hx. unfold clamp01.
  destruct (Q_py_min_spec (lit 1) x) as (_ & Hm & _).
  destruct (Q_py_max_spec (lit 0) (py_min (lit 1) x)) as (_ & _ & [E|E]); rewrite E.
  - exact Hb.
  - lra.
Qed.

(** X16: in exact arithmetic, a response whose basic quality is at most
    0.7 and whose processing context does not have both knowledge sources
    and tool results is always sent to improvement by [validate_response]:
    its confidence stays below 0.7, whatever the other checks say. *)
Theorem weak_basis_is_improved (has_digit : string -> bool)
    (verify_facts : string -> pyval -> Q) (question response : string)
    (ctx : list (string * pyval)) :
  py_truthy (dict_get "knowledge_sources" ctx)
    && py_truthy (dict_get "tool_results" ctx) = false ->
  _check_basic_quality has_digit response <= 0.7 ->
  let vr := validate_response has_digit verify_facts question response ctx in
  confidence vr <= 0.65 /\
  od_get "action" (improvement_action vr) = Some (PStr "improve").
Proof.
  intros Hctx Hbasic vr.
  pose proof (validate_response_checks has_digit verify_facts question response ctx)
    as Hchecks. cbv zeta in Hchecks. fold vr in Hchecks.
  unfold vr, validate_response.
  set (vr1 := add_check new "basic_quality" _).
  set (vr2 := if py_truthy _ then add_check vr1 "fact_accuracy" _ else vr1).
  set (vr3 := add_check vr2 "consistency" _).
  set (vr4 := add_check vr3 "completeness" _).
  assert (Hsame : checks vr4 = checks vr) by reflexivity.
  assert (Hscored : scored vr4).
  { apply add_check_scored, add_check_scored.
    assert (H1 : scored vr1) by apply add_check_scored, new_scored.
    unfold vr2.
    destruct (py_truthy (dict_get_default "requires_fact_checking" _ ctx));
      [by apply add_check_scored|done]. }
  destruct Hscored as [_ Hoverall].
  assert (Hget : get_check_result vr4 "basic_quality" (of_int 0)
                 = clamp01 (_check_basic_quality has_digit response)).
  { unfold get_check_result. rewrite Hsame, Hchecks.
    by destruct (py_truthy (dict_get_default "requires_fact_checking" _ ctx)). }
  assert (Hbase : 0 <= ConfidenceCalculator.base_confidence ctx vr4 <= 0.65).
  { unfold ConfidenceCalculator.base_confidence. rewrite Hget.
    assert (Hlow : fltb (lit 0.7) (clamp01 (_check_basic_quality has_digit response))
                   = false).
    { apply Q_fltb_false. apply clamp01_le; [by vm_compute|exact Hbasic]. }
    rewrite Hlow.
    destruct (py_truthy (dict_get "knowledge_sources" ctx)) eqn:Ek;
      destruct (py_truthy (dict_get "tool_results" ctx)) eqn:Et;
      simpl in Hctx; try discriminate Hctx; vm_compute; split; discriminate. }
  set (conf := ConfidenceCalculator.calculate_confidence response ctx vr4).
  assert (Hconf : clamp01 conf <= 0.65).
  { apply clamp01_le; [by vm_compute|].
    unfold conf, ConfidenceCalculator.calculate_confidence, get_overall_score.
    destruct (Q_py_min_spec
                (fmul (ConfidenceCalculator.base_confidence ctx vr4) (overall_score vr4))
                (lit 1)) as (Hm & _ & _).
    eapply Qle_trans; [exact Hm|]. cbn [fmul Q_num].
    revert Hbase Hoverall.
    generalize (ConfidenceCalculator.base_confidence ctx vr4) (overall_score vr4).
    intros b o Hb Ho. nra. }
  cbn [confidence improvement_action set_improvement_action set_confidence].
  split; [exact Hconf|].
  unfold _decide_improvement_action.
  cbn [confidence set_confidence].
  assert (Hlt : fltb (clamp01 conf) (lit 0.7) = true).
  { apply Q_fltb_true. cbn [lit Q_num]. lra. }
  rewrite Hlt, orb_true_r. reflexivity.
Qed.
End ValidationDecision.

Lemma weak_basis_is_improved_witness :
  let vr := AdaptiveQualityController.validate_response (F := Q)
              (fun _ => false) (fun _ _ => 0.5%Q)
              "什么是人工智能" "人工智能是计算机科学的一个分支。" [] in
  (ValidationResult.confidence vr <= 0.65)%Q /\
  od_get "action" (ValidationResult.improvement_action vr) = Some (PStr "improve").
Proof.
  apply (weak_basis_is_improved (fun _ => false) (fun _ _ => 0.5%Q)
           "什么是人工智能" "人工智能是计算机科学的一个分支。" []).
  - reflexivity.
  - by vm_compute.
Defined.

Lemma validate_response_example :
  od_get "strategy"
    (ValidationResult.improvement_action
       (AdaptiveQualityController.validate_response (F := float)
          (fun _ => false) (fun _ _ => 0.5%float)
          "为什么天空是蓝色的" "不知道。" []))
  = Some (PDict [("enhancement", PStr "gather_more_information")]).
Proof. reflexivity. Qed.

(** ** Candidate routes are always found *)
Section CandidateTotal.
Import ProcessingRoute IntelligentRoutingEngine.

(** A copy of [base] followed by operations on the copy succeeds and leaves
    [base] as it was. *)
Lemma copy_ops_total h base v os :
  observe h base = Some v ->
  exists c h1 h2,
    copy h base = Some (c, h1) /\ apply_all h1 c os = Some h2 /\
    (exists r, get_route h1 c = Some r /\ timeout r = v_timeout v) /\
    observe h2 base = Some v.
Proof.
  intros Hv. destruct (copy_fresh h base v Hv) as (c & h1 & Hcopy & Hc & Hold).
  destruct (Hold base v Hv) as [Hb Hsep].
  destruct (apply_all_separate h1 c base os Hsep) as (h2 & Hops & _ & Ho).
  exists c, h1, h2. split; [done|]. split; [done|]. split; [|by rewrite Ho].
  apply observe_holds in Hc as (r & (Er & _ & _) & Ht & _ & _).
  exists r. unfold get_route. by rewrite Er.
Qed.

Lemma speed_optimized_total h base v :
  observe h base = Some v ->
  exists c h', _create_speed_optimized_route h base = Some (c, h') /\
               observe h' base = Some v.
Proof.
  intros Hv.
  destruct (copy_ops_total h base v
              [SetTimeout (py_min (v_timeout v) 10%float); SetModelPreference "speed";
               RemoveStage "multi_stage_validation"] Hv)
    as (c & h1 & h2 & Hcopy & Hops & (r & Hr & Ht) & Hb).
  exists c, h2. split; [|done].
  unfold _create_speed_optimized_route. rewrite Hcopy. simpl. rewrite Hr. simpl.
  rewrite Ht. simpl in Hops.
  destruct (set_timeout h1 c _) as [h3|]; simpl in *; [|done].
  destruct (set_model_preference h3 c _) as [h4|]; simpl in *; [|done].
  destruct (remove_stage h4 c _) as [h5|]; simpl in *; [|done].
  by injection Hops as <-.
Qed.

Lemma quality_optimized_total h base v :
  observe h base = Some v ->
  exists c h', _create_quality_optimized_route h base = Some (c, h') /\
               observe h' base = Some v.
Proof.
  intros Hv.
  destruct (copy_ops_total h base v
              [SetModelPreference "quality"; AddStage "fact_checking";
               AddStage "expert_validation"] Hv)
    as (c & h1 & h2 & Hcopy & Hops & _ & Hb).
  exists c, h2. split; [|done].
  unfold _create_quality_optimized_route. rewrite Hcopy. simpl. simpl in Hops.
  destruct (set_model_preference h1 c _) as [h3|]; simpl in *; [|done].
  destruct (add_stage h3 c "fact_checking") as [h4|]; simpl in *; [|done].
  destruct (add_stage h4 c _) as [h5|]; simpl in *; [|done].
  by injection Hops as <-.
Qed.

Lemma resource_efficient_total h base v :
  observe h base = Some v ->
  exists c h', _create_resource_efficient_route h base = Some (c, h') /\
               observe h' base = Some v.
Proof.
  intros Hv.
  destruct (copy_ops_total h base v
              [SetParallelExecution false; SetModelPreference "speed";
               RemoveStage "multi_source_retrieval"] Hv)
    as (c & h1 & h2 & Hcopy & Hops & _ & Hb).
  exists c, h2. split; [|done].
  unfold _create_resource_efficient_route. rewrite Hcopy. simpl. simpl in Hops.
  destruct (set_parallel_execution h1 c _) as [h3|]; simpl in *; [|done].
  destruct (set_model_preference h3 c _) as [h4|]; simpl in *; [|done].
  destruct (remove_stage h4 c _) as [h5|]; simpl in *; [|done].
  by injection Hops as <-.
Qed.

Lemma add_variant_total wanted create base acc v :
  (forall h, observe h base = Some v ->
     exists c h', create h base = Some (c, h') /\ observe h' base = Some v) ->
  observe acc.2 base = Some v ->
  exists acc', add_variant wanted create base acc = Some acc' /\
    observe acc'.2 base = Some v /\
    length acc'.1 = length acc.1 + (if wanted then 1 else 0).
Proof.
  intros Hcreate Hb. unfold add_variant. destruct wanted.
  - destruct (Hcreate _ Hb) as (c & h' & -> & Hb'). simpl.
    eexists. split; [done|]. split; [done|]. simpl. by rewrite length_app.
  - exists acc. split; [done|]. split; [done|]. lia.
Qed.

(** The professional domains, for which a quality-optimized variant is
    added. *)
Lemma candidate_routes_total h templates classification load strategy template v
    urgency domain :
  od_get "recommended_strategy" classification = Some (PStr strategy) ->
  od_get strategy templates = Some template ->
  observe h template = Some v ->
  od_get "urgency_level" classification = Some urgency ->
  od_get "domain_type" classification = Some domain ->
  exists routes h',
    _generate_candidate_routes h templates classification load = Some (routes, h') /\
    length routes =
      1 + (if py_eq_str urgency "high" then 1 else 0)
        + (if py_eq_str domain "professional" || py_eq_str domain "academic"
              || py_eq_str domain "technical" then 1 else 0)
        + (if load then 1 else 0).
Proof.
  intros Hs Ht Hv Hu Hd. unfold _generate_candidate_routes.
  rewrite Hs. simpl. rewrite Ht. simpl.
  destruct (copy_fresh h template v Hv) as (base & h1 & -> & Hb & _). simpl.
  rewrite Hu. simpl.
  destruct (add_variant_total (py_eq_str urgency "high") _create_speed_optimized_route
              base ([base], h1) v (fun h => speed_optimized_total h base v) Hb)
    as (acc1 & -> & Hb1 & Hl1). simpl. rewrite Hd. simpl.
  destruct (add_variant_total
              (py_eq_str domain "professional" || py_eq_str domain "academic"
               || py_eq_str domain "technical")
              _create_quality_optimized_route
              base acc1 v (fun h => quality_optimized_total h base v) Hb1)
    as (acc2 & -> & Hb2 & Hl2). simpl.
  destruct (add_variant_total load _create_resource_efficient_route
              base acc2 v (fun h => resource_efficient_total h base v) Hb2)
    as ([routes h'] & -> & Hb3 & Hl3).
  exists routes, h'. split; [done|]. simpl in *. lia.
Qed.

Lemma initial_templates_observed strategy :
  strategy ∈ ["standard"; "comprehensive"; "tool_assisted"] ->
  let th := _initialize_route_templates ∅ in
  exists template v,
    od_get strategy th.1 = Some template /\ observe th.2 template = Some v.
Proof.
  intros Hin th.
  assert (H5 : od_get "standard" th.1 = Some 5 /\ is_Some (observe th.2 5)).
  { split; [by vm_compute|]. vm_compute. by eexists. }
  assert (H8 : od_get "comprehensive" th.1 = Some 8 /\ is_Some (observe th.2 8)).
  { split; [by vm_compute|]. vm_compute. by eexists. }
  assert (H11 : od_get "tool_assisted" th.1 = Some 11 /\ is_Some (observe th.2 11)).
  { split; [by vm_compute|]. vm_compute. by eexists. }
  clearbody th.
  repeat (apply elem_of_cons in Hin as [->|Hin]);
    [destruct H5 as [E [v Hv]]|destruct H8 as [E [v Hv]]|destruct H11 as [E [v Hv]]|];
    [by eexists _, v..|by apply elem_of_nil in Hin].
Qed.

Lemma classification_entries (c d u t f e : pyval) (s : string) :
  let classification :=
    [("complexity_level", c); ("domain_type", d); ("urgency_level", u);
     ("requires_tools", t); ("requires_fresh_data", f); ("user_expertise", e);
     ("recommended_strategy", PStr s)] in
  od_get "recommended_strategy" classification = Some (PStr s) /\
  od_get "urgency_level" classification = Some u /\
  od_get "domain_type" classification = Some d.
Proof. by vm_compute. Qed.
End CandidateTotal.

(** X17: every question that the classifier classifies gets candidate
    routes from the routing engine's own templates: the generation
    succeeds, and it yields the copy of the template, a quality-optimized
    variant when the domain is professional, academic or technical, and a
    resource-efficient variant under high load.  A speed-optimized variant
    is never among them, because the urgency entry of a classification is
    the analyzer's mapping and not the text ['high']. *)
Theorem classified_question_has_candidates :
  forall (lcut : string -> list string) (domain_analyze : string -> pyval)
         (tool_requirement_analyze freshness_analyze : string -> list (string * pyval))
         (user_context_analyze :
            list (string * pyval) -> list pyval -> list (string * pyval))
         (question : string) (user_context : list (string * pyval))
         (conversation_history : list pyval) (classification : list (string * pyval))
         (is_high_load : bool),
    MultiDimensionalClassifier.classify_question lcut domain_analyze
      tool_requirement_analyze freshness_analyze user_context_analyze
      question user_context conversation_history = Some classification ->
    let domain := domain_analyze question in
    let th := IntelligentRoutingEngine._initialize_route_templates ∅ in
    exists routes h',
      IntelligentRoutingEngine._generate_candidate_routes th.2 th.1 classification
        is_high_load = Some (routes, h') /\
      length routes =
        1 + (if py_eq_str domain "professional" || py_eq_str domain "academic"
                || py_eq_str domain "technical" then 1 else 0)
          + (if is_high_load then 1 else 0).
Proof.
  intros lcut domain_analyze tool_requirement_analyze freshness_analyze
    user_context_analyze question user_context conversation_history classification
    load Hc domain th.
  unfold MultiDimensionalClassifier.classify_question,
    MultiDimensionalClassifier.synthesize_routing_decision in Hc.
  set (a := MultiDimensionalClassifier.analyze_all _ _ _ _ _ _ _ _) in Hc.
  rewrite (determine_strategy_of_mapping a _ eq_refl) in Hc.
  assert (Hu : py_eq_str (MultiDimensionalClassifier.urgency a) "high" = false)
    by reflexivity.
  assert (Hdom : MultiDimensionalClassifier.domain a = domain) by reflexivity.
  clearbody a domain.
  destruct (od_get "required" (MultiDimensionalClassifier.tool_needs a))
    as [required|]; [|done].
  destruct (od_get "requires_fresh" (MultiDimensionalClassifier.freshness_need a))
    as [requires_fresh|]; [|done].
  destruct (od_get "expertise_level" (MultiDimensionalClassifier.user_profile a))
    as [expertise|]; [|done].
  cbn [mbind option_bind] in Hc.
  set (strategy := if (4 <=? MultiDimensionalClassifier.complexity a)%Z
                   then "comprehensive"
                   else if py_truthy required then "tool_assisted" else "standard").
  assert (Hin : strategy ∈ ["standard"; "comprehensive"; "tool_assisted"]).
  { unfold strategy.
    destruct (4 <=? MultiDimensionalClassifier.complexity a)%Z, (py_truthy required);
      repeat constructor. }
  assert (Hcl : classification =
    [("complexity_level", PInt (MultiDimensionalClassifier.complexity a));
     ("domain_type", MultiDimensionalClassifier.domain a);
     ("urgency_level", MultiDimensionalClassifier.urgency a);
     ("requires_tools", required); ("requires_fresh_data", requires_fresh);
     ("user_expertise", expertise); ("recommended_strategy", PStr strategy)]).
  { unfold strategy.
    destruct (4 <=? MultiDimensionalClassifier.complexity a)%Z, (py_truthy required);
      cbn [mbind option_bind] in Hc; by injection Hc as <-. }
  clearbody strategy.
  destruct (classification_entries (PInt (MultiDimensionalClassifier.complexity a))
              (MultiDimensionalClassifier.domain a) (MultiDimensionalClassifier.urgency a)
              required requires_fresh expertise strategy) as (Es & Eu & Ed).
  rewrite <- Hcl in Es, Eu, Ed.
  destruct (initial_templates_observed strategy Hin) as (template & v & Ht & Hv).
  cbv zeta in Ht, Hv.
  destruct (candidate_routes_total th.2 th.1 classification load strategy template v
              _ _ Es Ht Hv Eu Ed) as (routes & h' & Hg & Hlen).
  exists routes, h'. split; [exact Hg|]. rewrite Hlen, Hu, Hdom. lia.
Qed.

Lemma classified_question_has_candidates_witness :
  let classify :=
    MultiDimensionalClassifier.classify_question (fun _ => [])
      (fun _ => PStr "technical") (fun _ => [("required", PBool false)])
      (fun _ => [("requires_fresh", PBool false)])
      (fun _ _ => [("expertise_level", PStr "beginner")]) in
  let classification := default [] (classify "什么是人工智能" [] []) in
  let th := IntelligentRoutingEngine._initialize_route_templates ∅ in
  exists routes h',
    IntelligentRoutingEngine._generate_candidate_routes th.2 th.1 classification true
      = Some (routes, h') /\
    length routes = 3.
Proof.
  intros classify classification th.
  destruct (classified_question_has_candidates (fun _ => [])
      (fun _ => PStr "technical") (fun _ => [("required", PBool false)])
      (fun _ => [("requires_fresh", PBool false)])
      (fun _ _ => [("expertise_level", PStr "beginner")])
      "什么是人工智能" [] [] classification true) as (routes & h' & Hg & Hl).
  - vm_compute. reflexivity.
  - exists routes, h'. split; [exact Hg|exact Hl].
Defined.

(** ** The resource manager, in exact arithmetic *)
Section ResourceFacts.
Import ResourceManager.
Local Open Scope Q_scope.

Lemma Q_py_max_zero (x : Q) :
  0 <= py_max (of_int 0) x /\
  (x <= 0 -> py_max (of_int 0) x == 0) /\
  (forall b, 0 <= b -> x <= b -> py_max (of_int 0) x <= b).
Proof.
  destruct (Q_py_max_spec (of_int 0) x) as (H0 & Hx & [E|E]);
    change (of_int 0) with 0 in *; rewrite E in *.
  - split; [lra|]. split; [intros; lra|]. intros b Hb Hxb. lra.
  - split; [lra|]. split; [intros; lra|]. intros b Hb Hxb. lra.
Qed.

Lemma update_one_release (usage : list (string * Q)) (resource : string) (amount : Q) :
  within_limits usage -> 0 <= amount ->
  within_limits (update_one (-1) usage (resource, amount)).
Proof.
  intros (c & m & r & a & -> & Hc & Hm & Hr & Ha) Hx.
  unfold update_one. cbn [fst snd od_get].
  assert (Hmul : forall u : Q, fadd u (fmul amount (of_int (-1))) == u - amount).
  { intros u. cbn [fadd fmul of_int Q_num]. change (inject_Z (-1)) with (-1). ring. }
  repeat (case_decide; [subst resource|]); cbn [od_set];
    repeat (rewrite decide_True by done || rewrite decide_False by done);
    try (by exists c, m, r, a).
  all: match goal with
       | |- context [py_max (of_int 0) ?x] =>
           destruct (Q_py_max_zero x) as (Hv0 & Hvz & Hvb);
           set (v := py_max (of_int 0) x) in *
       end.
  - exists v, m, r, a. split; [done|]. split; [|done].
    split; [done|]. apply Hvb; [lra|]. rewrite Hmul. lra.
  - exists c, v, r, a. split; [done|]. split; [done|]. split; [|done].
    split; [done|]. apply Hvb; [lra|]. rewrite Hmul. lra.
  - exists c, m, v, a. split; [done|]. split; [done|]. split; [done|]. split; [|done].
    apply Hvz. rewrite Hmul. lra.
  - exists c, m, r, v. split; [done|]. split; [done|]. split; [done|]. split; [done|].
    apply Hvz. rewrite Hmul. lra.
Qed.

Lemma release_within_limits (usage used_resources : list (string * Q)) :
  within_limits usage ->
  (forall resource amount, (resource, amount) ∈ used_resources -> 0 <= amount) ->
  within_limits (fold_left (update_one (-1)) used_resources usage).
Proof.
  revert usage. induction used_resources as [|[resource amount] rest IH];
    intros usage Hu Hpos; simpl; [done|].
  apply IH.
  - apply update_one_release; [done|]. apply (Hpos resource). left.
  - intros r x Hin. apply (Hpos r). by right.
Qed.

Lemma can_allocate_required (rm : t Q) (c m r a x y z : Q) :
  current_usage rm = [("cpu_cores", c); ("memory_gb", m);
                      ("concurrent_requests", r); ("api_calls_per_minute", a)] ->
  _can_allocate rm [("cpu_cores", x); ("memory_gb", y); ("estimated_time", z)] =
  negb (fltb (8 - c) x) && (negb (fltb (32 - m) y) && true).
Proof. unfold _can_allocate. intros ->. reflexivity. Qed.

Lemma update_usage_required (c m r a x y z : Q) :
  fold_left (update_one 1)
    [("cpu_cores", x); ("memory_gb", y); ("estimated_time", z)]
    [("cpu_cores", c); ("memory_gb", m);
     ("concurrent_requests", r); ("api_calls_per_minute", a)] =
  [("cpu_cores", py_max (of_int 0) (c + x * 1)); ("memory_gb", py_max (of_int 0) (m + y * 1));
   ("concurrent_requests", r); ("api_calls_per_minute", a)].
Proof. reflexivity. Qed.

Lemma allocate_within_limits (rm : t Q) (request : list (string * Q)) :
  within_limits (current_usage rm) ->
  within_limits (current_usage (allocate_resources rm request).1).
Proof.
  intros Hu. unfold allocate_resources.
  set (x := default (of_int 1) (od_get "cpu_cores" request)).
  set (y := default (of_int 2) (od_get "memory_gb" request)).
  set (z := default (lit 5) (od_get "estimated_time" request)).
  clearbody x y z.
  destruct (_can_allocate rm _) eqn:Hcan; [|done].
  destruct Hu as (c & m & r & a & Eu & Hc & Hm & Hr & Ha).
  rewrite (can_allocate_required rm c m r a x y z Eu) in Hcan.
  apply andb_prop in Hcan as [Hx Hcan]. apply andb_prop in Hcan as [Hy _].
  apply negb_true_iff, Q_fltb_false in Hx, Hy.
  unfold _update_usage, _record_usage. cbn [fst current_usage].
  rewrite Eu. change (if String.eqb "allocate" "allocate" then 1%Z else (-1)%Z) with 1%Z.
  rewrite update_usage_required.
  destruct (Q_py_max_zero (c + x * 1)) as (Hc0 & _ & Hcb).
  destruct (Q_py_max_zero (m + y * 1)) as (Hm0 & _ & Hmb).
  eexists _, _, r, a. split; [reflexivity|].
  split; [split; [exact Hc0|]|split; [split; [exact Hm0|]|done]].
  - apply Hcb; lra.
  - apply Hmb; lra.
Qed.

Lemma is_high_load_formula (rm : t Q) (c m r a : Q) :
  current_usage rm = [("cpu_cores", c); ("memory_gb", m);
                      ("concurrent_requests", r); ("api_calls_per_minute", a)] ->
  is_high_load rm = fltb 0.8 ((0 + c / 8 + m / 32 + r / 100 + a / 1000) / 4).
Proof. unfold is_high_load. intros ->. reflexivity. Qed.

Lemma within_limits_not_high_load (rm : t Q) :
  within_limits (current_usage rm) -> is_high_load rm = false.
Proof.
  intros (c & m & r & a & Eu & Hc & Hm & Hr & Ha).
  rewrite (is_high_load_formula rm c m r a Eu).
  apply Q_fltb_false.
  assert (H1 : c / 8 <= 1) by (apply Qle_shift_div_r; lra).
  assert (H2 : m / 32 <= 1) by (apply Qle_shift_div_r; lra).
  assert (H3 : r / 100 <= 0) by (apply Qle_shift_div_r; lra).
  assert (H4 : a / 1000 <= 0) by (apply Qle_shift_div_r; lra).
  apply Qle_shift_div_r; [lra|].
  revert H1 H2 H3 H4.
  generalize (c / 8) (m / 32) (r / 100) (a / 1000). intros q1 q2 q3 q4. lra.
Qed.

Lemma step_within_limits (rm : t Q) (c : call Q) :
  within_limits (current_usage rm) ->
  (forall used, c = Release used ->
     forall resource amount, (resource, amount) ∈ used -> 0 <= amount) ->
  within_limits (current_usage (step rm c)).
Proof.
  intros Hu Hpos. destruct c as [request|used]; simpl.
  - by apply allocate_within_limits.
  - apply release_within_limits; [done|]. by apply Hpos.
Qed.

(** X18: in exact arithmetic, after any sequence of [allocate_resources]
    and [release_resources] calls on a new resource manager in which no
    release names a negative amount, the processor usage lies between 0 and
    8, the memory usage between 0 and 32, the other two resources are not
    in use, and [is_high_load] answers False: the average load cannot
    exceed 0.5. *)
Theorem resource_manager_never_high_load (calls : list (call Q)) :
  releases_nonnegative Qle calls ->
  within_limits (current_usage (run new calls)) /\
  is_high_load (run new calls) = false.
Proof.
  intros Hpos.
  assert (Hnew : within_limits (current_usage (new (F := Q)))).
  { exists 0, 0, 0, 0. repeat split; try done; try lra. }
  assert (Hrun : within_limits (current_usage (run new calls))).
  { unfold run. revert Hpos Hnew. generalize (new (F := Q)).
    induction calls as [|c calls IH]; intros rm Hpos Hrm; simpl; [done|].
    apply IH.
    - intros used Hin. apply Hpos. by right.
    - apply step_within_limits; [done|]. intros used ->. apply Hpos. left. }
  split; [exact Hrun|]. by apply within_limits_not_high_load.
Qed.
End ResourceFacts.

Lemma resource_manager_never_high_load_witness :
  let calls :=
    [ResourceManager.Allocate [("cpu_cores", 8%Q); ("memory_gb", 32%Q)];
     ResourceManager.Allocate [("cpu_cores", 1%Q)];
     ResourceManager.Release [("cpu_cores", 3%Q)]] in
  ResourceManager.current_usage (ResourceManager.run ResourceManager.new calls) =
    [("cpu_cores", 5%Q); ("memory_gb", 32%Q);
     ("concurrent_requests", 0%Q); ("api_calls_per_minute", 0%Q)] /\
  ResourceManager.is_high_load (ResourceManager.run ResourceManager.new calls) = false.
Proof.
  intros calls. split; [by vm_compute|].
  apply (resource_manager_never_high_load calls).
  intros used Hin resource amount Hra.
  apply elem_of_cons in Hin as [Hin|Hin]; [discriminate Hin|].
  apply elem_of_cons in Hin as [Hin|Hin]; [discriminate Hin|].
  apply elem_of_cons in Hin as [Hin|Hin]; [|by apply elem_of_nil in Hin].
  injection Hin as ->.
  apply elem_of_cons in Hra as [Hra|Hra]; [|by apply elem_of_nil in Hra].
  injection Hra as -> ->. by vm_compute.
Defined.

(** ** Performance tracking of the tools, in exact arithmetic *)
Section PerformanceFacts.
Import ToolPerformance.
Local Open Scope Q_scope.

Lemma get_after_update {F} `{PyNum F} (tp : list (string * perf F))
    (tool_name name : string) (execution_time : F) (success : bool) :
  get_tool_performance (update_tool_performance tp tool_name execution_time success) name =
  if decide (name = tool_name)
  then updated (get_tool_performance tp name) execution_time success
  else get_tool_performance tp name.
Proof.
  unfold update_tool_performance, get_tool_performance.
  destruct (od_mem tool_name tp) eqn:Em.
  - apply od_mem_keys, od_keys_get in Em as [p Ep]. rewrite Ep.
    destruct (decide (name = tool_name)) as [->|Hne].
    + by rewrite od_get_set_eq, Ep.
    + by rewrite od_get_set_ne.
  - assert (En : od_get tool_name tp = None).
    { apply eq_None_not_Some. intros Hs%od_keys_get%od_mem_keys. congruence. }
    rewrite od_get_set_eq.
    destruct (decide (name = tool_name)) as [->|Hne].
    + by rewrite od_get_set_eq, En.
    + by rewrite !od_get_set_ne.
Qed.

Lemma Q_sum_shift (xs : list Q) (a : Q) :
  fold_left Qplus xs a == a + fold_left Qplus xs 0.
Proof.
  revert a. induction xs as [|x xs IH]; intros a; simpl; [ring|].
  rewrite (IH (a + x)), (IH (0 + x)). ring.
Qed.

Lemma updated_counts (p : perf Q) (t : Q) (success : bool) :
  (0 <= error_count p <= total_executions p)%Z ->
  let p' := updated p t success in
  total_executions p' = (total_executions p + 1)%Z /\
  error_count p' = (error_count p + (if success then 0 else 1))%Z /\
  (0 <= error_count p' <= total_executions p')%Z /\
  success_rate p' ==
    inject_Z (total_executions p' - error_count p') / inject_Z (total_executions p') /\
  0 <= success_rate p' <= 1 /\
  (success = true ->
   average_execution_time p' * inject_Z (total_executions p') ==
   average_execution_time p * inject_Z (total_executions p) + t) /\
  (success = false -> average_execution_time p' = average_execution_time p).
Proof.
  intros Hp p'. unfold p', updated. cbn [total_executions error_count success_rate
    average_execution_time].
  set (n := total_executions p) in *. set (e := error_count p) in *.
  assert (Hn : 0 < inject_Z (n + 1)).
  { change 0 with (inject_Z 0). rewrite <- Zlt_Qlt. lia. }
  split; [done|]. split; [by destruct success; rewrite ?Z.add_0_r|].
  split; [destruct success; lia|].
  split; [reflexivity|]. split.
  - cbn [fdiv of_int Q_num]. split.
    + apply Qle_shift_div_l; [done|]. rewrite Qmult_0_l.
      change 0 with (inject_Z 0). rewrite <- Zle_Qle. destruct success; lia.
    + apply Qle_shift_div_r; [done|]. rewrite Qmult_1_l.
      rewrite <- Zle_Qle. destruct success; lia.
  - split; [|by intros ->].
    intros ->. cbn [fdiv fadd fmul of_int Q_num].
    replace (n + 1 - 1)%Z with n by lia. field. lra.
Qed.

Lemma reports_invariant (reports : list (string * Q * bool)) (name : string) :
  forall tp : list (string * perf Q),
  let p0 := get_tool_performance tp name in
  (0 <= error_count p0 <= total_executions p0)%Z ->
  let p := get_tool_performance (record_all tp reports) name in
  total_executions p =
    (total_executions p0 + Z.of_nat (length (times_of name reports)))%Z /\
  error_count p = (error_count p0 + Z.of_nat (failures_of name reports))%Z /\
  (times_of name reports <> [] \/
   (success_rate p0 ==
      inject_Z (total_executions p0 - error_count p0) / inject_Z (total_executions p0) /\
    0 <= success_rate p0 <= 1) ->
   success_rate p ==
     inject_Z (total_executions p - error_count p) / inject_Z (total_executions p) /\
   0 <= success_rate p <= 1) /\
  (failures_of name reports = 0%nat ->
   average_execution_time p * inject_Z (total_executions p) ==
   average_execution_time p0 * inject_Z (total_executions p0)
   + py_sum (times_of name reports)).
Proof.
  induction reports as [|[[nm t] s] rest IH]; intros tp p0 Hp0 p.
  - unfold p, p0. simpl. rewrite !Z.add_0_r. split; [done|]. split; [done|].
    split; [by intros [?|?]|]. intros _. unfold py_sum. simpl. ring.
  - unfold p, record_all. cbn [fold_left fst snd].
    fold (record_all (update_tool_performance tp nm t s) rest).
    specialize (IH (update_tool_performance tp nm t s)). cbv zeta in IH.
    rewrite get_after_update in IH.
    unfold times_of, failures_of in *.
    destruct (decide (name = nm)) as [->|Hne].
    + destruct (updated_counts (get_tool_performance tp nm) t s Hp0)
        as (Ht & He & Hb & Hsr & Hr & Havg & Hsame).
      unfold p0 in *.
      destruct (IH Hb) as (IHt & IHe & IHs & IHa). clear IH.
      rewrite filter_cons_True by done. cbn [map length fst snd].
      destruct s.
      * rewrite (filter_cons_False _ (nm, t, true)) by (by intros [_ ?]).
        split; [rewrite IHt, Ht; lia|]. split; [rewrite IHe, He; lia|].
        split; [intros _; apply IHs; by right|].
        intros Hf. rewrite (IHa Hf), (Havg eq_refl).
        unfold py_sum. cbn [fold_left of_int fadd Q_num].
        rewrite (Q_sum_shift _ (inject_Z 0 + t)). change (inject_Z 0) with 0. ring.
      * rewrite (filter_cons_True _ (nm, t, false)) by done. cbn [length].
        split; [rewrite IHt, Ht; lia|]. split; [rewrite IHe, He; lia|].
        split; [intros _; apply IHs; by right|]. intros Hf. discriminate Hf.
    + rewrite filter_cons_False by (simpl; congruence).
      rewrite (filter_cons_False _ (nm, t, s)) by (simpl; intros [? _]; congruence).
      apply (IH Hp0).
Qed.

(** X19: in exact arithmetic, after any sequence of
    [update_tool_performance] reports, the entry of a tool that was not
    tracked before counts the reports for that tool and the failures among
    them; once there is a report, its success rate is the share of the
    successes and lies between 0 and 1; and when none of the reports is a
    failure, its average execution time is the mean of the reported
    times. *)
Theorem tool_performance_after_reports (tp : list (string * perf Q))
    (reports : list (string * Q * bool)) (name : string) :
  od_get name tp = None ->
  times_of name reports <> [] ->
  let p := get_tool_performance (record_all tp reports) name in
  let n := Z.of_nat (length (times_of name reports)) in
  let failures := Z.of_nat (failures_of name reports) in
  total_executions p = n /\
  error_count p = failures /\
  success_rate p == inject_Z (n - failures) / inject_Z n /\
  0 <= success_rate p <= 1 /\
  (failures_of name reports = 0%nat ->
   average_execution_time p == py_sum (times_of name reports) / inject_Z n).
Proof.
  intros Hnew Hne p n failures.
  assert (Hp0 : get_tool_performance tp name = initial).
  { unfold get_tool_performance. by rewrite Hnew. }
  destruct (reports_invariant reports name tp) as (Ht & He & Hs & Ha).
  { rewrite Hp0. simpl. lia. }
  rewrite Hp0 in Ht, He, Ha.
  cbn [initial total_executions error_count average_execution_time] in Ht, He, Ha.
  fold p in Ht, He, Hs, Ha. rewrite Z.add_0_l in Ht, He.
  fold n in Ht. fold failures in He.
  destruct (Hs (or_introl Hne)) as [Hsr Hr].
  assert (Hn : 0 < inject_Z n).
  { change 0 with (inject_Z 0). rewrite <- Zlt_Qlt. unfold n.
    destruct (times_of name reports); [done|]. simpl. lia. }
  split; [exact Ht|]. split; [exact He|].
  split; [by rewrite Ht, He in Hsr|]. split; [exact Hr|].
  intros Hf. specialize (Ha Hf). rewrite Ht in Ha.
  cbn [lit Q_num] in Ha.
  apply Qmult_inj_r with (z := inject_Z n); [lra|].
  rewrite Ha. field. lra.
Qed.
End PerformanceFacts.

Lemma tool_performance_after_reports_witness :
  let reports := [("calculator", 2%Q, true); ("web_search", 9%Q, false);
                  ("calculator", 4%Q, true)] in
  let p := ToolPerformance.get_tool_performance
             (ToolPerformance.record_all [] reports) "calculator" in
  ToolPerformance.total_executions p = 2%Z /\
  ToolPerformance.error_count p = 0%Z /\
  (ToolPerformance.success_rate p == 1)%Q /\
  (ToolPerformance.average_execution_time p == 3)%Q.
Proof.
  intros reports p.
  destruct (tool_performance_after_reports [] reports "calculator")
    as (Ht & He & Hs & _ & Ha); [reflexivity|discriminate|].
  split; [exact Ht|]. split; [exact He|]. split.
  - eapply Qeq_trans; [exact Hs|]. by vm_compute.
  - eapply Qeq_trans; [exact (Ha eq_refl)|]. by vm_compute.
Defined.

(** ** The integration of tool results *)
Section IntegrationFacts.
Import ResultIntegrator.

Lemma sort_results_keys (results : list (string * pyval)) :
  forall acc : list (string * pyval) * list (string * pyval),
  NoDup (od_keys results) ->
  (forall k, k ∈ od_keys results -> (k ∉ od_keys acc.1) /\ (k ∉ od_keys acc.2)) ->
  let out := fold_left sort_result results acc in
  od_keys out.1 =
    od_keys acc.1 ++ od_keys (filter (fun e => is_success e.2 = true) results) /\
  od_keys out.2 =
    od_keys acc.2 ++ od_keys (filter (fun e => is_success e.2 <> true) results).
Proof.
  induction results as [|[k v] rest IH]; intros [s f] Hnd Hfresh; cbn [fold_left].
  - cbn [fst snd]. rewrite !filter_nil. cbn [od_keys map]. by rewrite !app_nil_r.
  - change (od_keys ((k, v) :: rest)) with (k :: od_keys rest) in Hnd, Hfresh.
    apply NoDup_cons in Hnd as [Hk Hnd].
    destruct (Hfresh k) as [Hks Hkf]; [left|]. cbn [fst snd] in Hks, Hkf.
    assert (Hstep : sort_result (s, f) (k, v) =
              if is_success v
              then (od_set k (match v with
                              | PDict d => dict_get_default "result" (PDict []) d
                              | _ => PNone end) s, f)
              else (s, od_set k v f)) by reflexivity.
    rewrite Hstep. cbn [fst snd].
    destruct (is_success v) eqn:Ev.
    + rewrite filter_cons_True by done.
      rewrite (filter_cons_False _ (k, v)) by (simpl; congruence).
      destruct (IH (od_set k (match v with
                               | PDict d => dict_get_default "result" (PDict []) d
                               | _ => PNone end) s, f)) as [E1 E2]; [done| |].
      * intros k' Hk'. cbn [fst snd]. rewrite od_keys_set, decide_False by done.
        destruct (Hfresh k') as [H1 H2]; [by right|]. split; [|done].
        rewrite elem_of_app, list_elem_of_singleton. intros [?| ->]; [done|].
        by apply Hk.
      * cbn [fst snd] in E1, E2. rewrite E1, E2.
        rewrite od_keys_set, decide_False by done.
        change (od_keys ((k, v) :: ?l)) with (k :: od_keys l).
        split; [|done]. by rewrite <- app_assoc.
    + rewrite filter_cons_False by (simpl; congruence).
      rewrite (filter_cons_True _ (k, v)) by (simpl; congruence).
      destruct (IH (s, od_set k v f)) as [E1 E2]; [done| |].
      * intros k' Hk'. cbn [fst snd]. rewrite od_keys_set, decide_False by done.
        destruct (Hfresh k') as [H1 H2]; [by right|]. split; [done|].
        rewrite elem_of_app, list_elem_of_singleton. intros [?| ->]; [done|].
        by apply Hk.
      * cbn [fst snd] in E1, E2. rewrite E1, E2.
        rewrite od_keys_set, decide_False by done.
        split; [done|]. by rewrite <- app_assoc.
Qed.

(** X20: [integrate_tool_results] sorts every tool into exactly one of the
    successful and the failed results: the successful ones are, in order,
    the tools whose result is a mapping with a true ['success'] entry, the
    failed ones are all the others, and together they are as many as the
    execution results. *)
Theorem integration_sorts_every_tool (execution_results : list (string * pyval)) :
  NoDup (od_keys execution_results) ->
  let out := sort_results execution_results in
  od_keys out.1 = od_keys (filter (fun e => is_success e.2 = true) execution_results) /\
  od_keys out.2 = od_keys (filter (fun e => is_success e.2 <> true) execution_results) /\
  (forall tool_name, tool_name ∈ od_keys out.1 -> tool_name ∉ od_keys out.2) /\
  length out.1 + length out.2 = length execution_results.
Proof.
  intros Hnd out.
  destruct (sort_results_keys execution_results ([], []) Hnd) as [E1 E2].
  { intros k _. split; apply not_elem_of_nil. }
  cbn [fst snd od_keys map app] in E1, E2.
  unfold out, sort_results. clear out.
  set (out := fold_left sort_result execution_results ([], [])) in *.
  split; [exact E1|]. split; [exact E2|]. split.
  - intros name. rewrite E1, E2. unfold od_keys.
    intros ((k1 & v1) & -> & [Hs1 Hin1]%list_elem_of_filter)%list_elem_of_fmap
           ((k2 & v2) & Hk & [Hs2 Hin2]%list_elem_of_filter)%list_elem_of_fmap.
    simpl in *. subst k2.
    assert (v1 = v2); [|by subst].
    apply (elem_of_od_get _ _ _ Hnd) in Hin1, Hin2. congruence.
  - rewrite <- (od_keys_length out.1), <- (od_keys_length out.2), E1, E2.
    rewrite !od_keys_length.
    clear. induction execution_results as [|e l IH]; [done|].
    destruct (decide (is_success e.2 = true)) as [Hs|Hs].
    + rewrite filter_cons_True by done.
      rewrite (filter_cons_False _ e) by (intros Hn; by apply Hn).
      simpl in *. lia.
    + rewrite filter_cons_False by done.
      rewrite (filter_cons_True _ e) by done. simpl in *. lia.
Qed.
End IntegrationFacts.

Lemma integration_sorts_every_tool_witness :
  let results := [("web_search", PDict [("success", PBool true); ("result", PDict [])]);
                  ("calculator", PStr "timeout");
                  ("translator", PDict [("success", PBool false)])] in
  od_keys (ResultIntegrator.sort_results results).1 = ["web_search"] /\
  od_keys (ResultIntegrator.sort_results results).2 = ["calculator"; "translator"].
Proof.
  intros results.
  destruct (integration_sorts_every_tool results) as (E1 & E2 & _).
  - unfold od_keys. simpl. repeat constructor; vm_compute; intros Hin;
      repeat (apply elem_of_cons in Hin as [Hin|Hin]; [discriminate Hin|]);
      by apply elem_of_nil in Hin.
  - split; [exact E1|exact E2].
Defined.

Section IntegrationConfidence.
Import ResultIntegrator.
Local Open Scope Q_scope.

Lemma count_if_le (p q : string -> bool) (tools : list string) :
  (forall t, p t = true -> q t = true) ->
  (0 <= count_if p tools <= count_if q tools)%Z.
Proof.
  intros Hpq. unfold count_if. split; [lia|]. apply inj_le.
  induction tools as [|t tools IH]; simpl; [done|].
  destruct (p t) eqn:Ep.
  - rewrite (Hpq t Ep). simpl. lia.
  - destruct (q t); simpl; lia.
Qed.

Lemma Q_ratio_range (a b : Z) : (0 <= a <= b)%Z -> (0 < b)%Z ->
  0 <= inject_Z a / inject_Z b <= 1.
Proof.
  intros Ha Hb.
  assert (Hb' : 0 < inject_Z b) by (change 0 with (inject_Z 0); rewrite <- Zlt_Qlt; lia).
  split.
  - apply Qle_shift_div_l; [done|]. rewrite Qmult_0_l.
    change 0 with (inject_Z 0). rewrite <- Zle_Qle. lia.
  - apply Qle_shift_div_r; [done|]. rewrite Qmult_1_l. rewrite <- Zle_Qle. lia.
Qed.

(** X21: in exact arithmetic, the confidence that the result integrator
    computes from the successful and the failed tool results lies between 0
    and 1; it is 0 when no tool succeeded, and 1 when at least one tool
    succeeded and none failed. *)
Theorem integration_confidence_range (successful failed : list (string * pyval)) :
  let c := _calculate_integration_confidence (F := Q) successful failed in
  0 <= c <= 1 /\
  (successful = [] -> c == 0) /\
  (failed = [] -> successful <> [] -> c == 1).
Proof.
  intros c. unfold c, _calculate_integration_confidence.
  set (n := length successful). set (m := length failed).
  destruct (Z.of_nat (n + m) =? 0)%Z eqn:Et.
  { apply Z.eqb_eq in Et. cbn [lit Q_num]. split; [lra|]. split; [intros; lra|].
    intros _ Hs. destruct successful; [done|]. simpl in *. lia. }
  apply Z.eqb_neq in Et.
  set (cs := count_if (fun tool => od_mem tool successful) _).
  set (ct := count_if (fun tool => od_mem tool successful || od_mem tool failed) _).
  assert (Hc : (0 <= cs <= ct)%Z).
  { apply count_if_le. intros t ->. done. }
  pose proof (Q_ratio_range (Z.of_nat n) (Z.of_nat (n + m))) as Hsr.
  cbn [fdiv fadd fmul of_int lit Q_num].
  assert (Hsr' : 0 <= inject_Z (Z.of_nat n) / inject_Z (Z.of_nat (n + m)) <= 1)
    by (apply Hsr; lia).
  destruct (0 <? ct)%Z eqn:Ect.
  - apply Z.ltb_lt in Ect.
    pose proof (Q_ratio_range cs ct Hc Ect) as Hcr.
    split; [|split].
    + revert Hsr' Hcr. generalize (inject_Z (Z.of_nat n) / inject_Z (Z.of_nat (n + m)))
        (inject_Z cs / inject_Z ct). intros x y Hx Hy. lra.
    + intros ->. assert (cs = 0%Z) as -> by reflexivity.
      change (Z.of_nat n) with 0%Z. unfold Qdiv. change (inject_Z 0) with 0. ring.
    + intros -> Hs.
      assert (cs = ct) as ->.
      { unfold cs, ct, count_if. do 2 f_equal. apply List.filter_ext.
        intros t. by destruct (od_mem t successful). }
      unfold m. simpl. rewrite Nat.add_0_r.
      assert (Hn : ~ inject_Z (Z.of_nat n) == 0).
      { change 0 with (inject_Z 0). rewrite inject_Z_injective. unfold n.
        destruct successful; [done|]. simpl. lia. }
      assert (Hct : ~ inject_Z ct == 0).
      { change 0 with (inject_Z 0). rewrite inject_Z_injective. lia. }
      field. by split.
  - split; [exact Hsr'|]. split.
    + intros ->. change (Z.of_nat n) with 0%Z. unfold Qdiv. change (inject_Z 0) with 0. ring.
    + intros -> Hs. unfold m. simpl. rewrite Nat.add_0_r.
      assert (Hn : ~ inject_Z (Z.of_nat n) == 0).
      { change 0 with (inject_Z 0). rewrite inject_Z_injective. unfold n.
        destruct successful; [done|]. simpl. lia. }
      by field.
Qed.
End IntegrationConfidence.

(** ** Temperature conversions without a formula *)
Section TemperatureFacts.
Import CalculatorTool.

Lemma convert_in_temperature_fallthrough (from_unit to_unit : string) (value : float) :
  from_unit ∈ ["celsius"; "fahrenheit"; "kelvin"] ->
  to_unit ∈ ["celsius"; "fahrenheit"; "kelvin"] ->
  (from_unit, to_unit) ∉ [("celsius", "fahrenheit"); ("fahrenheit", "celsius");
                           ("celsius", "kelvin"); ("kelvin", "celsius")] ->
  convert_in conversion_factors from_unit to_unit value = Some (value, "temperature").
Proof.
  intros Hf Ht Hpair.
  repeat (apply elem_of_cons in Hf as [->|Hf]);
    [| | |by apply elem_of_nil in Hf];
    (repeat (apply elem_of_cons in Ht as [->|Ht]);
     [| | |by apply elem_of_nil in Ht]);
    try reflexivity; exfalso; apply Hpair; repeat constructor.
Qed.

(** X22: a unit conversion between two temperature units for which the
    calculator has no formula (fahrenheit to kelvin, kelvin to fahrenheit,
    and a unit to itself) succeeds and reports the value unchanged as the
    converted value, whatever the value. *)
Theorem temperature_without_formula_unchanged
    (py_float basic scientific : string -> float + string)
    (params : list (string * string)) (value : float) :
  param params "type" "basic" = "unit_conversion" ->
  py_float (param params "expression" "") = inl value ->
  param params "from_unit" "" ∈ ["celsius"; "fahrenheit"; "kelvin"] ->
  param params "to_unit" "" ∈ ["celsius"; "fahrenheit"; "kelvin"] ->
  (param params "from_unit" "", param params "to_unit" "") ∉
    [("celsius", "fahrenheit"); ("fahrenheit", "celsius");
     ("celsius", "kelvin"); ("kelvin", "celsius")] ->
  execute py_float basic scientific params =
  [("result", PDict [("converted_value", PFloat value);
                     ("original_value", PFloat value);
                     ("from_unit", PStr (param params "from_unit" ""));
                     ("to_unit", PStr (param params "to_unit" ""));
                     ("category", PStr "temperature")]);
   ("expression", PStr (param params "expression" ""));
   ("calculation_type", PStr "unit_conversion");
   ("status", PStr "success")].
Proof.
  intros Htype Hvalue Hfrom Hto Hpair.
  unfold execute. rewrite Htype.
  change (String.eqb "unit_conversion" "basic") with false.
  change (String.eqb "unit_conversion" "scientific") with false.
  change (String.eqb "unit_conversion" "unit_conversion") with true.
  cbv iota. unfold _unit_conversion. rewrite Hvalue.
  by rewrite (convert_in_temperature_fallthrough _ _ value Hfrom Hto Hpair).
Qed.
End TemperatureFacts.

Lemma temperature_without_formula_unchanged_witness :
  CalculatorTool.execute decimal_examples decimal_examples decimal_examples
    [("type", "unit_conversion"); ("expression", "100");
     ("from_unit", "fahrenheit"); ("to_unit", "kelvin")] =
  [("result", PDict [("converted_value", PFloat 100);
                     ("original_value", PFloat 100);
                     ("from_unit", PStr "fahrenheit"); ("to_unit", PStr "kelvin");
                     ("category", PStr "temperature")]);
   ("expression", PStr "100");
   ("calculation_type", PStr "unit_conversion");
   ("status", PStr "success")].
Proof.
  apply (temperature_without_formula_unchanged decimal_examples decimal_examples
           decimal_examples
           [("type", "unit_conversion"); ("expression", "100");
            ("from_unit", "fahrenheit"); ("to_unit", "kelvin")] 100%float).
  - reflexivity.
  - reflexivity.
  - vm_compute. right. left.
  - vm_compute. right. right. left.
  - vm_compute. intros Hin.
    repeat (apply elem_of_cons in Hin as [Hin|Hin]; [discriminate Hin|]).
    by apply elem_of_nil in Hin.
Defined.
